(** * Binance multi-pair trade monitor

    A model of [binance_monitor.py] and [config.py]: the subscriber
    registry and its JSON file, the sliding-window notification limiter,
    the broadcast to all subscribers, the trade classifier with its
    message template, and the per-pair WebSocket handler.

    Conventions of the model.
    - The Python [float]s of prices, quantities and amounts are IEEE 754
      binary64 values ([pyfloat]): NaN, the infinities and the finite
      values with their sign, every operation rounding its exact result
      to the nearest value, a tie going to the even significand. The
      readings of [time.time()] are the rationals [Q] that they equal:
      the limiter subtracts readings of the clock, and the difference of
      two readings of the present epoch is exact in binary64.
    - Python [int]s are [Z]; [str] is [string] (UTF-8 bytes).
    - [self.subscribed_users] is a [gset Z]; a [dict] with string keys is
      a [gmap string _], or an association list where its insertion order
      is observable.
    - What the program reads from its environment (the clock, HTTP
      responses, the outcome of a file write) is an argument of the
      function that reads it; what it does to its environment (HTTP
      requests, file writes, log records, sleeps) is appended to a trace. *)

From Stdlib Require Import QArith Qabs Lqa ZArith String Ascii List SpecFloat.
From stdpp Require Import gmap strings list fin_maps.

Local Open Scope string_scope.
Local Open Scope list_scope.
Local Open Scope Z_scope.

#[local] Set Warnings "-clear-no-such-hyp".

(** ** config.py *)

(** A value of the [NOTIFICATION_SETTINGS] dict: [bool] or [int]. *)
Inductive setting :=
| SBool (b : bool)
| SInt (n : Z).

(** Python's [bool] is a subclass of [int]. *)
Definition setting_int (v : setting) : Z :=
  match v with
  | SBool true => 1
  | SBool false => 0
  | SInt n => n
  end.

Definition setting_truthy (v : setting) : bool :=
  negb (setting_int v =? 0).

Record config := {
  TELEGRAM_TOKEN : string;
  MIN_AMOUNT : Q;
  LOG_LEVEL : string;
  LOG_FILE : string;
  RECONNECT_DELAY : Z;
  STATS_INTERVAL : Z;
  TRADING_PAIRS : list string;
  NOTIFICATION_SETTINGS : gmap string setting;
  ASSET_EMOJIS : list (string * string)
}.

(** The module as shipped (the bot token is left out). *)
Definition shipped_config : config := {|
  TELEGRAM_TOKEN := "<token>";
  MIN_AMOUNT := 1000000%Q;
  LOG_LEVEL := "INFO";
  LOG_FILE := "binance_monitor.log";
  RECONNECT_DELAY := 5;
  STATS_INTERVAL := 60;
  TRADING_PAIRS :=
    ["bchusdt"; "btcusdt"; "ethusdt"; "bnbusdt"; "dydxusdt"; "solusdt";
     "suiusdt"; "dogeusdt"; "xrpusdt"; "dotusdt"; "tiausdt"; "xtzusdt";
     "notusdt"; "cfxusdt"; "nearusdt"; "epicusdt"; "funusdt"];
  NOTIFICATION_SETTINGS :=
    <["enable_spot" := SBool true]>
    (<["enable_futures" := SBool true]>
    (<["include_link" := SBool true]>
    (<["emoji_enabled" := SBool true]>
    (<["max_notifications_per_minute" := SInt 10]> ∅))));
  ASSET_EMOJIS :=
    [("BCH", "🪙"); ("BTC", "₿"); ("ETH", "Ξ"); ("BNB", "🟡");
     ("DYDX", "📊"); ("SOL", "☀️"); ("SUI", "💎"); ("DOGE", "🐕");
     ("XRP", "💎"); ("DOT", "🔗"); ("TIA", "🌟"); ("XTZ", "🌿");
     ("NOT", "📝"); ("CFX", "🌊"); ("NEAR", "🌐"); ("EPIC", "🎮");
     ("FUN", "🎯")]
|}.

(** The module with another value of [RECONNECT_DELAY]. *)
Definition with_reconnect_delay (seconds : Z) (cfg : config) : config :=
  {| TELEGRAM_TOKEN := TELEGRAM_TOKEN cfg; MIN_AMOUNT := MIN_AMOUNT cfg;
     LOG_LEVEL := LOG_LEVEL cfg; LOG_FILE := LOG_FILE cfg;
     RECONNECT_DELAY := seconds; STATS_INTERVAL := STATS_INTERVAL cfg;
     TRADING_PAIRS := TRADING_PAIRS cfg;
     NOTIFICATION_SETTINGS := NOTIFICATION_SETTINGS cfg;
     ASSET_EMOJIS := ASSET_EMOJIS cfg |}.

(** ** The monitor object and its environment *)

(** [self.stats]; the two per-symbol tables are [defaultdict(int)]. *)
Record stats := {
  spot_trades : gmap string Z;
  futures_trades : gmap string Z;
  notifications_sent : Z;
  start_time : Q;
  total_trades : Z
}.

(** The fields of a [BinanceMultiMonitor]. *)
Record monitor := {
  telegram_token : string;
  min_amount : Q;
  subscribed_users : gset Z;
  subscribers_file : string;
  trading_pairs : list string;
  asset_emojis : list (string * string);
  notification_settings : gmap string setting;
  mstats : stats;
  notification_timestamps : list Q
}.

(** The JSON object of the subscribers file. [rec_subscribers] is [None]
    when the key is absent. *)
Record subscribers_record := {
  rec_subscribers : option (list Z);
  rec_last_updated : string;
  rec_total_count : Z
}.

(** What is on disk under [subscribers_file]: a JSON object, or content on
    which [json.load] and the [set(...)] built from it raise. *)
Inductive file_contents :=
| Unreadable
| JsonRecord (r : subscribers_record).

(** Outcome of [open(..., 'w')] followed by [json.dump]: success, or an
    exception that leaves [remains] on disk. *)
Inductive write_outcome :=
| WriteOk
| WriteRaises (remains : option file_contents).

(** Outcome of one [sendMessage] exchange: an exception anywhere in the
    [try] block before the status is known, or a response with its status
    and its body ([None] when [response.text()] raises). *)
Inductive http_result :=
| HttpRaises
| HttpResponse (status : Z) (body : option string).

(** The calls of [logger], one constructor per call site. *)
Inductive log_record :=
| LogLoaded (n : nat)
| LogNoFile
| LogLoadError
| LogSaved (n : nat)
| LogSaveError
| LogAdded (user_id : Z)
| LogNoSubscribers
| LogRateLimited
| LogSendStatus (user_id : Z) (status : Z)
| LogSendError (user_id : Z)
| LogRemoved (n : nat)
| LogSent (n : Z)
| LogTradeError (market_type symbol : string)
| LogPollAdded (n : Z)
| LogPollTotal (n : nat)
| LogPollEmpty
| LogPollError
| LogWsConnected (market_type symbol : string)
| LogWsError (market_type symbol : string).

(** Effects on the environment. *)
Inductive event :=
| EvLog (r : log_record)
| EvSendMessage (chat_id : Z) (text : string)
| EvWriteFile (r : subscribers_record).

(** The monitor together with the subscribers file and the effects so far
    (oldest first). *)
Record world := {
  mon : monitor;
  disk : option file_contents;
  trace : list event
}.

Definition set_users (u : gset Z) (m : monitor) : monitor :=
  {| telegram_token := telegram_token m; min_amount := min_amount m;
     subscribed_users := u; subscribers_file := subscribers_file m;
     trading_pairs := trading_pairs m; asset_emojis := asset_emojis m;
     notification_settings := notification_settings m;
     mstats := mstats m;
     notification_timestamps := notification_timestamps m |}.

Definition set_stats (st : stats) (m : monitor) : monitor :=
  {| telegram_token := telegram_token m; min_amount := min_amount m;
     subscribed_users := subscribed_users m;
     subscribers_file := subscribers_file m;
     trading_pairs := trading_pairs m; asset_emojis := asset_emojis m;
     notification_settings := notification_settings m;
     mstats := st;
     notification_timestamps := notification_timestamps m |}.

Definition set_timestamps (ts : list Q) (m : monitor) : monitor :=
  {| telegram_token := telegram_token m; min_amount := min_amount m;
     subscribed_users := subscribed_users m;
     subscribers_file := subscribers_file m;
     trading_pairs := trading_pairs m; asset_emojis := asset_emojis m;
     notification_settings := notification_settings m;
     mstats := mstats m;
     notification_timestamps := ts |}.

Definition with_mon (f : monitor -> monitor) (w : world) : world :=
  {| mon := f (mon w); disk := disk w; trace := trace w |}.

Definition set_disk (d : option file_contents) (w : world) : world :=
  {| mon := mon w; disk := d; trace := trace w |}.

Definition emit (e : event) (w : world) : world :=
  {| mon := mon w; disk := disk w; trace := trace w ++ [e] |}.

Definition log (r : log_record) (w : world) : world := emit (EvLog r) w.

(** ** The subscriber registry *)

(** [load_subscribers]: the set is replaced by the listed ids when the file
    exists and parses; it is left alone when the file is missing or the
    [try] block raises. Only the ['subscribers'] key is read. *)
Definition load_subscribers (w : world) : world :=
  match disk w with
  | Some (JsonRecord r) =>
      let users : gset Z := list_to_set (default [] (rec_subscribers r)) in
      log (LogLoaded (size users)) (with_mon (set_users users) w)
  | Some Unreadable => log LogLoadError w
  | None => log LogNoFile w
  end.

(** The dict built by [save_subscribers]. [list(set)] enumerates the set in
    the order of its table; the model's order is that of [elements]. *)
Definition subscribers_data (now_iso : string) (m : monitor)
  : subscribers_record :=
  {| rec_subscribers := Some (elements (subscribed_users m));
     rec_last_updated := now_iso;
     rec_total_count := Z.of_nat (size (subscribed_users m)) |}.

(** [save_subscribers], given [datetime.now().isoformat()] and the outcome
    of the write. *)
Definition save_subscribers (now_iso : string) (wr : write_outcome)
    (w : world) : world :=
  let data := subscribers_data now_iso (mon w) in
  let w := emit (EvWriteFile data) w in
  match wr with
  | WriteOk =>
      log (LogSaved (size (subscribed_users (mon w))))
          (set_disk (Some (JsonRecord data)) w)
  | WriteRaises remains => log LogSaveError (set_disk remains w)
  end.

(** [add_subscriber]. *)
Definition add_subscriber (now_iso : string) (wr : write_outcome)
    (user_id : Z) (w : world) : world :=
  if decide (user_id ∈ subscribed_users (mon w)) then w
  else
    let w := with_mon (set_users ({[user_id]} ∪ subscribed_users (mon w))) w in
    let w := save_subscribers now_iso wr w in
    log (LogAdded user_id) w.

(** [__init__], given the module [config], the reading of [time.time()]
    and the file system it finds. *)
Definition BinanceMultiMonitor (cfg : config) (token : string)
    (min_amount : Q) (now : Q) (found : option file_contents) : world :=
  load_subscribers
    {| mon :=
         {| telegram_token := token;
            min_amount := min_amount;
            subscribed_users := ∅;
            subscribers_file := "subscribers.json";
            trading_pairs := TRADING_PAIRS cfg;
            asset_emojis := ASSET_EMOJIS cfg;
            notification_settings := NOTIFICATION_SETTINGS cfg;
            mstats :=
              {| spot_trades := ∅; futures_trades := ∅;
                 notifications_sent := 0; start_time := now;
                 total_trades := 0 |};
            notification_timestamps := [] |};
       disk := found;
       trace := [] |}.

(** ** The notification limiter *)

Definition Qltb (x y : Q) : bool := negb (Qle_bool y x).

(** The list comprehension of [can_send_notification]: the timestamps [ts]
    with [current_time - ts < 60], in order. *)
Definition recent (current_time : Q) (window : list Q) : list Q :=
  List.filter (fun ts => Qltb (current_time - ts) 60) window.

(** [notification_settings.get('max_notifications_per_minute', 10)]. *)
Definition max_per_minute (m : monitor) : Z :=
  match notification_settings m !! "max_notifications_per_minute" with
  | Some v => setting_int v
  | None => 10
  end.

(** [can_send_notification], given the reading of [time.time()]. *)
Definition can_send_notification (current_time : Q) (m : monitor)
  : bool * monitor :=
  let m := set_timestamps (recent current_time (notification_timestamps m)) m in
  (Z.of_nat (length (notification_timestamps m)) <? max_per_minute m, m).

(** ** The broadcast *)

(** The locals of [send_telegram_notification]. *)
Record locals := {
  success_count : Z;
  failed_users : list Z
}.

Definition no_locals : locals := {| success_count := 0; failed_users := [] |}.

(** One turn of the [for user_id in self.subscribed_users] loop, given the
    outcome of the HTTP exchange. [EvSendMessage] records that the exchange
    was started. *)
Definition deliver (message : string) (user_id : Z) (r : http_result)
    (l : locals) (w : world) : locals * world :=
  let w := emit (EvSendMessage user_id message) w in
  match r with
  | HttpRaises => (l, log (LogSendError user_id) w)
  | HttpResponse status body =>
      if status =? 200 then
        ({| success_count := success_count l + 1;
            failed_users := failed_users l |}, w)
      else
        match body with
        | None => (l, log (LogSendError user_id) w)
        | Some _ =>
            let l :=
              if status =? 403 then
                {| success_count := success_count l;
                   failed_users := failed_users l ++ [user_id] |}
              else l in
            (l, log (LogSendStatus user_id status) w)
        end
  end.

(** The loop over a list of recipients, each answered by [post]. *)
Fixpoint delivery_loop (message : string) (post : Z -> http_result)
    (users : list Z) (l : locals) (w : world) : locals * world :=
  match users with
  | [] => (l, w)
  | user_id :: rest =>
      let '(l, w) := deliver message user_id (post user_id) l w in
      delivery_loop message post rest l w
  end.

(** [for user_id in failed_users: self.subscribed_users.discard(user_id)]. *)
Definition discard_all (failed : list Z) (users : gset Z) : gset Z :=
  foldl (fun acc user_id => acc ∖ {[user_id]}) users failed.

Definition add_sent (n : Z) (st : stats) : stats :=
  {| spot_trades := spot_trades st; futures_trades := futures_trades st;
     notifications_sent := notifications_sent st + n;
     start_time := start_time st; total_trades := total_trades st |}.

(** What the code after the loop reads from the environment: the clock of
    [save_subscribers], the outcome of its write, and [time.time()]. *)
Record finish_env := {
  now_iso : string;
  write : write_outcome;
  t_append : Q
}.

(** The two [if] blocks after the loop. *)
Definition after_loop (fe : finish_env) (l : locals) (w : world) : world :=
  let w :=
    match failed_users l with
    | [] => w
    | _ :: _ =>
        let w := with_mon (fun m =>
                   set_users (discard_all (failed_users l)
                                          (subscribed_users m)) m) w in
        let w := save_subscribers (now_iso fe) (write fe) w in
        log (LogRemoved (length (failed_users l))) w
    end in
  if 0 <? success_count l then
    let w := with_mon (fun m =>
               set_stats (add_sent (success_count l) (mstats m)) m) w in
    let w := with_mon (fun m =>
               set_timestamps (notification_timestamps m ++ [t_append fe]) m) w in
    log (LogSent (success_count l)) w
  else w.

(** The two early returns of [send_telegram_notification]: [true] when the
    pass goes on to the loop. The clock is read only when the registry is
    not empty. *)
Definition preconditions (t_check : Q) (w : world) : bool * world :=
  if decide (subscribed_users (mon w) = ∅) then
    (false, log LogNoSubscribers w)
  else
    let '(ok, m) := can_send_notification t_check (mon w) in
    let w := with_mon (fun _ => m) w in
    if ok then (true, w) else (false, log LogRateLimited w).

(** What one pass reads from the environment. *)
Record pass_env := {
  t_check : Q;
  post : Z -> http_result;
  fin : finish_env
}.

(** [send_telegram_notification], run from call to return with no other
    task running in between. *)
Definition send_telegram_notification (e : pass_env) (message : string)
    (w : world) : world :=
  let '(go, w) := preconditions (t_check e) w in
  if go then
    let '(l, w) :=
      delivery_loop message (post e) (elements (subscribed_users (mon w)))
                    no_locals w in
    after_loop (fin e) l w
  else w.

(** Classification of an exchange: counted as sent, or reported as blocked. *)
Definition delivered (r : http_result) : bool :=
  match r with
  | HttpResponse status _ => status =? 200
  | HttpRaises => false
  end.

Definition blocked (r : http_result) : bool :=
  match r with
  | HttpResponse status (Some _) => status =? 403
  | _ => false
  end.

Definition is_write (e : event) : bool :=
  match e with EvWriteFile _ => true | _ => false end.

Definition is_send (e : event) : bool :=
  match e with EvSendMessage _ _ => true | _ => false end.

Definition is_log (e : event) : bool :=
  match e with EvLog _ => true | _ => false end.

(** The recipients of the [sendMessage] exchanges of a trace, in order. *)
Definition recipients (tr : list event) : list Z :=
  omap (fun e => match e with EvSendMessage u _ => Some u | _ => None end) tr.

Definition writes (tr : list event) : nat := length (List.filter is_write tr).

(** ** Floating-point numbers *)

(** The integer nearest to [x >= 0], a tie going to the even one. *)
Definition round_half_even (x : Q) : Z :=
  let n := Qnum x in
  let d := Z.pos (Qden x) in
  let q := n / d in
  let r := n mod d in
  if 2 * r <? d then q
  else if d <? 2 * r then q + 1
  else if Z.even q then q else q + 1.

(** A Python [float] is an IEEE 754 binary64 value: NaN, an infinity, or a
    finite value, kept as its sign and the rational that its magnitude
    equals, so that the two zeros are told apart. *)
Inductive pyfloat :=
| PyNan
| PyInf (negative : bool)
| PyNum (negative : bool) (magnitude : Q).

Definition pow2 (e : Z) : Q :=
  if 0 <=? e then inject_Z (2 ^ e) else 1 # Z.to_pos (2 ^ (- e)).

(** [floor (log2 x)] for [x > 0]. *)
Definition binade (x : Q) : Z :=
  let n := Qnum x in
  let d := Z.pos (Qden x) in
  let k := Z.log2 n - Z.log2 d in
  if (if 0 <=? k then n <? d * 2 ^ k else n * 2 ^ (- k) <? d)
  then k - 1 else k.

(** The exponent of the unit in the last place of the binary64 values
    around [x > 0]: 53 significant bits, and the spacing [2^-1074] of the
    subnormal values at the least. *)
Definition ulp_exponent (x : Q) : Z := Z.max (binade x) (-1022) - 52.

(** The binary64 value nearest to [x >= 0], a tie going to the even
    significand; [None] when that is beyond the largest finite value. *)
Definition round64 (x : Q) : option Q :=
  if Qle_bool x 0 then Some 0%Q
  else
    let e := ulp_exponent x in
    let m := round_half_even (x * pow2 (- e)) in
    if (971 <? e) || ((e =? 971) && (2 ^ 53 <=? m)) then None
    else Some (Qred (inject_Z m * pow2 e)).

(** The result of a float operation whose exact magnitude is [x]: it
    overflows to an infinity. *)
Definition rounded (negative : bool) (x : Q) : pyfloat :=
  match round64 x with
  | Some r => PyNum negative r
  | None => PyInf negative
  end.

(** The number that a finite float equals. *)
Definition float_value (negative : bool) (magnitude : Q) : Q :=
  if negative then (- magnitude)%Q else magnitude.

(** [a * b] on floats. *)
Definition float_mul (a b : pyfloat) : pyfloat :=
  match a, b with
  | PyNan, _ | _, PyNan => PyNan
  | PyInf s, PyInf t => PyInf (xorb s t)
  | PyInf s, PyNum t m | PyNum t m, PyInf s =>
      if Qeq_bool m 0 then PyNan else PyInf (xorb s t)
  | PyNum s m, PyNum t n => rounded (xorb s t) (m * n)
  end.

(** [a / c] for a float [a] and a positive [int] literal [c] that a float
    holds exactly. *)
Definition float_div_int (a : pyfloat) (c : positive) : pyfloat :=
  match a with
  | PyNan => PyNan
  | PyInf s => PyInf s
  | PyNum s m => rounded s (m / inject_Z (Z.pos c))
  end.

(** [n / c] for an [int] [n] and a positive [int] literal [c]: the
    quotient correctly rounded; [None] is the [OverflowError]. *)
Definition int_div_int (n : Z) (c : positive) : option pyfloat :=
  PyNum (n <? 0) <$> round64 (inject_Z (Z.abs n) / inject_Z (Z.pos c)).

(** [float(n)] for an [int]; [None] is the [OverflowError]. *)
Definition float_of_int (n : Z) : option pyfloat :=
  PyNum (n <? 0) <$> round64 (inject_Z (Z.abs n)).

(** [a >= threshold] for a float and a number (an [int] or a finite
    float): Python compares the exact values, and NaN with nothing. *)
Definition float_ge (a : pyfloat) (threshold : Q) : bool :=
  match a with
  | PyNan => false
  | PyInf s => negb s
  | PyNum s m => Qle_bool threshold (float_value s m)
  end.

(** The same value in the format of the Standard Library's specification
    of IEEE 754 arithmetic, with its significand of 53 bits. *)
Definition to_spec (a : pyfloat) : spec_float :=
  match a with
  | PyNan => S754_nan
  | PyInf s => S754_infinity s
  | PyNum s m =>
      if Qle_bool m 0 then S754_zero s
      else
        let e := ulp_exponent m in
        S754_finite s (Z.to_pos (Qnum (Qred (m * pow2 (- e))))) e
  end.

Definition spec_eqb (a b : spec_float) : bool :=
  match a, b with
  | S754_nan, S754_nan => true
  | S754_infinity s, S754_infinity t
  | S754_zero s, S754_zero t => Bool.eqb s t
  | S754_finite s m e, S754_finite t n f =>
      Bool.eqb s t && (m =? n)%positive && (e =? f)
  | _, _ => false
  end.

(** ** Decoded feed messages *)

(** The result of [json.loads]: a number without fraction and exponent is
    an [int], any other one (and the literals [NaN], [Infinity] and
    [-Infinity]) a float. The members of an object are in the order of the
    text; a repeated key reads as its last occurrence. *)
#[warnings="-register-all"]
Inductive json :=
| JNull
| JBool (b : bool)
| JInt (n : Z)
| JFloat (x : pyfloat)
| JString (s : string)
| JArray (items : list json)
| JObject (members : list (string * json)).

Fixpoint assoc_last (key : string) (members : list (string * json))
  : option json :=
  match members with
  | [] => None
  | (k, v) :: rest =>
      match assoc_last key rest with
      | Some v' => Some v'
      | None => if String.eqb k key then Some v else None
      end
  end.

(** [d[key]] for a string key: [None] stands for the [KeyError], or the
    [TypeError] of a value that is not a dict. *)
Definition getitem (d : json) (key : string) : option json :=
  match d with
  | JObject members => assoc_last key members
  | _ => None
  end.

(** [d.get(key, default)] on a dict. *)
Definition get_default (d : json) (key : string) (dflt : json) : json :=
  default dflt (getitem d key).

(** [bool(v)], as used by [not v]. *)
Definition truthy (v : json) : bool :=
  match v with
  | JNull => false
  | JBool b => b
  | JInt n => negb (n =? 0)
  | JFloat (PyNum _ m) => negb (Qeq_bool m 0)
  | JFloat _ => true
  | JString s => negb (String.eqb s "")
  | JArray items => match items with [] => false | _ => true end
  | JObject members => match members with [] => false | _ => true end
  end.

Definition digit_of (c : ascii) : option Z :=
  let n := nat_of_ascii c in
  if ((48 <=? n) && (n <=? 57))%nat then Some (Z.of_nat (n - 48)) else None.

Definition starts_with_digit (s : string) : bool :=
  match s with
  | String c _ => bool_decide (is_Some (digit_of c))
  | EmptyString => false
  end.

(** Reads [digit (["_"] digit)*] off the front of [s]: the number read
    after [acc], the count of digits after [n], and the rest. *)
Fixpoint read_digits (s : string) (acc : Z) (n : nat) : Z * nat * string :=
  match s with
  | String c rest =>
      match digit_of c with
      | Some d => read_digits rest (10 * acc + d) (S n)
      | None =>
          if Ascii.eqb c "_" && (0 <? n)%nat && starts_with_digit rest
          then read_digits rest acc n
          else (acc, n, s)
      end
  | EmptyString => (acc, n, s)
  end.

Definition is_space (c : ascii) : bool :=
  let n := nat_of_ascii c in
  ((n =? 32) || ((9 <=? n) && (n <=? 13)))%nat.

Fixpoint lstrip (s : string) : string :=
  match s with
  | String c rest => if is_space c then lstrip rest else s
  | EmptyString => s
  end.

Definition strip (s : string) : string :=
  String.rev (lstrip (String.rev (lstrip s))).

(** The exponent part, which must end the text: [Some 0] when absent. *)
Definition read_exponent (s : string) : option Z :=
  match s with
  | EmptyString => Some 0
  | String c rest =>
      if Ascii.eqb c "e" || Ascii.eqb c "E" then
        let '(neg, rest) :=
          match rest with
          | String "-" r => (true, r)
          | String "+" r => (false, r)
          | _ => (false, rest)
          end in
        match read_digits rest 0 0 with
        | (_, O, _) => None
        | (v, S _, EmptyString) => Some (if neg then - v else v)
        | (_, S _, String _ _) => None
        end
      else None
  end.

Definition upper_char (c : ascii) : ascii :=
  let n := nat_of_ascii c in
  if ((97 <=? n) && (n <=? 122))%nat then ascii_of_nat (n - 32) else c.

(** [s.upper()] on ASCII letters; other bytes are kept. *)
Fixpoint upper (s : string) : string :=
  match s with
  | EmptyString => EmptyString
  | String c rest => String (upper_char c) (upper rest)
  end.

Definition digit_char (d : Z) : ascii := ascii_of_nat (48 + Z.to_nat d).

(** The code points of the zeros of the decimal digits outside ASCII, each
    followed by its digits 1 to 9, and the white space outside ASCII, as
    CPython 3.11 has them (Unicode 14). *)
Definition unicode_zeros : list Z :=
  [1632; 1776; 1984; 2406; 2534; 2662; 2790; 2918; 3046; 3174; 3302; 3430;
   3558; 3664; 3792; 3872; 4160; 4240; 6112; 6160; 6470; 6608; 6784; 6800;
   6992; 7088; 7232; 7248; 42528; 43216; 43264; 43472; 43504; 43600; 44016;
   65296; 66720; 68912; 69734; 69872; 69942; 70096; 70384; 70736; 70864;
   71248; 71360; 71472; 71904; 72016; 72784; 73040; 73120; 92768; 92864;
   93008; 120782; 120792; 120802; 120812; 120822; 123200; 123632; 125264;
   130032].

Definition unicode_spaces : list Z :=
  [133; 160; 5760; 8192; 8193; 8194; 8195; 8196; 8197; 8198; 8199; 8200;
   8201; 8202; 8232; 8233; 8239; 8287; 12288].

Definition to_ascii (cp : Z) : ascii :=
  if existsb (Z.eqb cp) unicode_spaces then " "%char
  else
    match List.find (fun z => (z <=? cp) && (cp <? z + 10)) unicode_zeros with
    | Some z => digit_char (cp - z)
    | None => "?"%char
    end.

(** What [float] does first to a [str], here on its UTF-8 bytes: a
    character outside ASCII becomes its digit if it is a decimal digit, a
    space if it is white space, and a question mark otherwise. [pending]
    holds the bits of a character read so far, [need] the number of bytes
    that it still lacks, and [least] the least code point of its length. *)
Fixpoint transform_decimal_and_space (s : string) (pending : Z) (need : nat)
    (least : Z) : string :=
  match s with
  | EmptyString =>
      match need with
      | O => EmptyString
      | S _ => "?"
      end
  | String c rest =>
      let n := Z.of_nat (nat_of_ascii c) in
      match need with
      | O =>
          if n <? 128 then String c (transform_decimal_and_space rest 0 0 0)
          else if (194 <=? n) && (n <? 224)
          then transform_decimal_and_space rest (n - 192) 1 128
          else if (224 <=? n) && (n <? 240)
          then transform_decimal_and_space rest (n - 224) 2 2048
          else if (240 <=? n) && (n <? 245)
          then transform_decimal_and_space rest (n - 240) 3 65536
          else String "?" (transform_decimal_and_space rest 0 0 0)
      | S k =>
          if (128 <=? n) && (n <? 192) then
            let cp := pending * 64 + (n - 128) in
            match k with
            | O =>
                String (if least <=? cp then to_ascii cp else "?"%char)
                       (transform_decimal_and_space rest 0 0 0)
            | S _ => transform_decimal_and_space rest cp k least
            end
          else String "?" (transform_decimal_and_space rest 0 0 0)
      end
  end.

(** [float(s)] on a string: white space around, an optional sign, then
    [inf], [infinity] or [nan] in any case, or digits with an optional
    point and an optional exponent, whose value is rounded to the nearest
    float and overflows to an infinity. [None] is the [ValueError]. *)
Definition float_of_string (s : string) : option pyfloat :=
  let s := strip (transform_decimal_and_space s 0 0 0) in
  let '(neg, s) :=
    match s with
    | String "-" r => (true, r)
    | String "+" r => (false, r)
    | _ => (false, s)
    end in
  if String.eqb (upper s) "INF" || String.eqb (upper s) "INFINITY"
  then Some (PyInf neg)
  else if String.eqb (upper s) "NAN" then Some PyNan
  else
    let '(ip, ni, s) := read_digits s 0 0 in
    let '(fp, nf, s) :=
      match s with
      | String "." r => read_digits r 0 0
      | _ => (0, O, s)
      end in
    if (ni + nf =? 0)%nat then None
    else
      match read_exponent s with
      | None => None
      | Some ex =>
          let mant := ip * 10 ^ Z.of_nat nf + fp in
          Some (rounded neg (Qred (inject_Z mant
                                   * Qpower 10 (ex - Z.of_nat nf))))
      end.

(** [float(v)] on a decoded value. *)
Definition py_float (v : json) : option pyfloat :=
  match v with
  | JInt n => float_of_int n
  | JFloat x => Some x
  | JBool b => Some (PyNum false (if b then 1%Q else 0%Q))
  | JString s => float_of_string s
  | _ => None
  end.

(** [v / 1000]; [None] is the [TypeError] of a value that is not a
    number, or the [OverflowError] of an [int] too large. *)
Definition div_1000 (v : json) : option pyfloat :=
  match v with
  | JInt n => int_div_int n 1000
  | JBool b => int_div_int (if b then 1 else 0) 1000
  | JFloat x => Some (float_div_int x 1000)
  | _ => None
  end.

(** ** Number formatting *)

(** The [k] low-order decimal digits of [n], most significant first. *)
Fixpoint last_digits (k : nat) (n : Z) : string :=
  match k with
  | O => EmptyString
  | S k' => last_digits k' (n / 10) +:+ String (digit_char (n mod 10)) EmptyString
  end.

Fixpoint count_digits (fuel : nat) (n : Z) : nat :=
  match fuel with
  | O => 1
  | S fuel' => if n <? 10 then 1%nat else S (count_digits fuel' (n / 10))
  end.

(** The decimal digits of [n >= 0], without leading zeros. *)
Definition decimal (n : Z) : string :=
  last_digits (count_digits (Z.to_nat (Z.log2 n)) n) n.

(** The [,] option: a comma before every group of three digits. *)
Fixpoint group3 (s : string) : string :=
  match s with
  | EmptyString => EmptyString
  | String c rest =>
      String c
        (if ((0 <? String.length rest) && (String.length rest mod 3 =? 0))%nat
         then "," +:+ group3 rest
         else group3 rest)
  end.

(** [format(x, ".{prec}f")], with the [,] option when [grouping]: the
    decimal expansion of the value that the float holds, rounded to
    [prec] places, a tie going to the even digit. *)
Definition format_f (grouping : bool) (prec : nat) (x : pyfloat) : string :=
  match x with
  | PyNan => "nan"
  | PyInf negative => (if negative then "-" else "") +:+ "inf"
  | PyNum negative magnitude =>
      let scaled :=
        round_half_even (magnitude * inject_Z (10 ^ Z.of_nat prec)) in
      let ip := decimal (scaled / 10 ^ Z.of_nat prec) in
      (if negative then "-" else "")
      +:+ (if grouping then group3 ip else ip)
      +:+ match prec with
          | O => ""
          | S _ => "." +:+ last_digits prec scaled
          end
  end.


(** ** The trade classifier *)

(** [needle in hay]. *)
Fixpoint contains (needle hay : string) : bool :=
  String.prefix needle hay
  || match hay with
     | EmptyString => false
     | String _ rest => contains needle rest
     end.

Fixpoint first_emoji (table : list (string * string)) (name : string)
  : option string :=
  match table with
  | [] => None
  | (asset, emoji) :: rest =>
      if contains asset name then Some emoji else first_emoji rest name
  end.

(** [get_asset_emoji]: the first entry of the table whose asset occurs in
    the uppercased symbol. *)
Definition get_asset_emoji (m : monitor) (symbol : string) : string :=
  default "💱" (first_emoji (asset_emojis m) (upper symbol)).

Definition nl : string := String (ascii_of_nat 10) EmptyString.
Definition dquote : string := String (ascii_of_nat 34) EmptyString.

(** The three-way choice of [amount_str]. *)
Definition amount_str (amount : pyfloat) : string :=
  if float_ge amount 1000000 then
    "$" +:+ format_f false 2 (float_div_int amount 1000000) +:+ "M"
  else if float_ge amount 1000 then
    "$" +:+ format_f false 1 (float_div_int amount 1000) +:+ "K"
  else
    "$" +:+ format_f true 0 amount.

Definition trade_type (is_buyer_maker : json) : string :=
  if negb (truthy is_buyer_maker) then "🟢 ПОКУПКА" else "🔴 ПРОДАЖА".

Definition market_emoji (market_type : string) : string :=
  if String.eqb market_type "SPOT" then "💱" else "📈".

Definition trade_link (symbol : string) : string :=
  "https://www.binance.com/ru/trade/" +:+ upper symbol.

(** The f-string of [format_trade_message] after [.strip()]. *)
Definition message_text (market_type symbol asset_emoji direction amount
    price quantity timestamp : string) : string :=
  market_emoji market_type +:+ " <b>" +:+ market_type +:+ " " +:+ upper symbol
    +:+ "</b> " +:+ asset_emoji +:+ nl
  +:+ nl
  +:+ direction +:+ nl
  +:+ "💰 Сумма: <b>" +:+ amount +:+ "</b>" +:+ nl
  +:+ "💵 Цена: <b>$" +:+ price +:+ "</b>" +:+ nl
  +:+ "📊 Объём: <b>" +:+ quantity +:+ "</b>" +:+ nl
  +:+ "⏰ Время: <b>" +:+ timestamp +:+ "</b>" +:+ nl
  +:+ nl
  +:+ "🔗 <a href=" +:+ dquote +:+ trade_link symbol +:+ dquote
    +:+ ">Открыть Binance</a>".

Definition count_in (symbol : string) (d : gmap string Z) : gmap string Z :=
  <[symbol := default 0 (d !! symbol) + 1]> d.

(** The three statements under "Обновляем статистику". *)
Definition count_trade (market_type symbol : string) (st : stats) : stats :=
  {| spot_trades :=
       if String.eqb market_type "SPOT"
       then count_in symbol (spot_trades st) else spot_trades st;
     futures_trades :=
       if String.eqb market_type "SPOT"
       then futures_trades st else count_in symbol (futures_trades st);
     notifications_sent := notifications_sent st;
     start_time := start_time st;
     total_trades := total_trades st + 1 |}.

(** The counter of a market and symbol, read as a [defaultdict] reads. Any
    market other than ["SPOT"] is counted with the futures. *)
Definition trades_of (st : stats) (market_type symbol : string) : Z :=
  default 0 ((if String.eqb market_type "SPOT"
              then spot_trades st else futures_trades st) !! symbol).

Section Classifier.

(** [json.loads] ([None]: it raises), and
    [datetime.fromtimestamp(t).strftime('%Y-%m-%d %H:%M:%S')] in the local
    time zone for the number that a finite float [t] equals ([None]: the
    time is out of the platform's range). *)
Variable json_loads : string -> option json.
Variable local_time : Q -> option string.

(** [datetime.fromtimestamp(t).strftime(...)] on a float; it raises on
    NaN and on the infinities. *)
Definition fromtimestamp (t : pyfloat) : option string :=
  match t with
  | PyNum s m => local_time (float_value s m)
  | _ => None
  end.

(** [format_trade_message]; [None] when it raises. *)
Definition format_trade_message (m : monitor) (trade_data : json)
    (market_type symbol : string) : option string :=
  price ← getitem trade_data "p" ≫= py_float;
  quantity ← getitem trade_data "q" ≫= py_float;
  let amount := float_mul price quantity in
  t ← getitem trade_data "T" ≫= div_1000;
  timestamp ← fromtimestamp t;
  let is_buyer_maker := get_default trade_data "m" (JBool false) in
  Some (message_text market_type symbol (get_asset_emoji m symbol)
          (trade_type is_buyer_maker) (amount_str amount)
          (format_f true 4 price) (format_f false 6 quantity) timestamp).

(** The price and the quantity of a raw message, when the first three
    statements of [handle_trade] do not raise. *)
Definition decode (message : string) : option (json * pyfloat * pyfloat) :=
  trade_data ← json_loads message;
  price ← getitem trade_data "p" ≫= py_float;
  quantity ← getitem trade_data "q" ≫= py_float;
  Some (trade_data, price, quantity).

(** A message decoded in full: the price and the quantity, and the event
    time as [format_trade_message] renders it. *)
Definition trade_event (message : string)
  : option (json * pyfloat * pyfloat * string) :=
  '(trade_data, price, quantity) ← decode message;
  t ← getitem trade_data "T" ≫= div_1000;
  timestamp ← fromtimestamp t;
  Some (trade_data, price, quantity, timestamp).

(** What [handle_trade] does before it calls (or not) the broadcast: the
    world with the trade counted, and the text to broadcast if any. An
    exception is logged where it is caught. *)
Definition classify (message market_type symbol : string) (w : world)
  : world * option string :=
  match decode message with
  | None => (log (LogTradeError market_type symbol) w, None)
  | Some (trade_data, price, quantity) =>
      let amount := float_mul price quantity in
      let w := with_mon (fun m =>
                 set_stats (count_trade market_type symbol (mstats m)) m) w in
      if float_ge amount (min_amount (mon w)) then
        match format_trade_message (mon w) trade_data market_type symbol with
        | Some formatted_message => (w, Some formatted_message)
        | None => (log (LogTradeError market_type symbol) w, None)
        end
      else (w, None)
  end.

(** [handle_trade], run from call to return with no other task running
    in between. *)
Definition handle_trade (e : pass_env) (message market_type symbol : string)
    (w : world) : world :=
  match classify message market_type symbol w with
  | (w, Some formatted_message) =>
      send_telegram_notification e formatted_message w
  | (w, None) => w
  end.

End Classifier.

(** ** The inbox poller *)

(** One entry of the ['result'] list of [getUpdates]: without a
    ['message'] key, or with one, whose sender id is [None] when
    [update['message']['from']['id']] raises. *)
Inductive update :=
| UpdOther
| UpdMessage (from_id : option Z).

(** Outcome of the [getUpdates] exchange: an exception (from the request or
    from [response.json()]), a status other than 200, or the decoded body
    with the truth value of ['ok'] and the ['result'] list. *)
Inductive poll_result :=
| PollRaises
| PollNot200
| Poll200 (ok : bool) (result : list update).

(** The [for update in ...] loop: the set, the count of new users, and
    whether the loop raised (the additions made before stay in the set). *)
Fixpoint merge_updates (updates : list update) (users : gset Z)
    (new_users : Z) : gset Z * Z * bool :=
  match updates with
  | [] => (users, new_users, false)
  | UpdOther :: rest => merge_updates rest users new_users
  | UpdMessage None :: _ => (users, new_users, true)
  | UpdMessage (Some user_id) :: rest =>
      if decide (user_id ∈ users) then merge_updates rest users new_users
      else merge_updates rest ({[user_id]} ∪ users) (new_users + 1)
  end.

(** [get_subscribed_users], from the arrival of the response on. *)
Definition get_subscribed_users (r : poll_result) (fe : finish_env)
    (w : world) : world :=
  match r with
  | PollRaises => log LogPollError w
  | PollNot200 => w
  | Poll200 false _ => w
  | Poll200 true result =>
      let '(users, new_users, raised) :=
        merge_updates result (subscribed_users (mon w)) 0 in
      let w := with_mon (set_users users) w in
      if raised then log LogPollError w
      else
        let w :=
          if 0 <? new_users then
            log (LogPollAdded new_users)
                (save_subscribers (now_iso fe) (write fe) w)
          else w in
        let w := log (LogPollTotal (size (subscribed_users (mon w)))) w in
        if decide (subscribed_users (mon w) = ∅) then log LogPollEmpty w
        else w
  end.

(** ** The feed connection handler *)

Definition ws_url (symbol market_type : string) : string :=
  if String.eqb market_type "SPOT"
  then "wss://stream.binance.com:9443/ws/" +:+ symbol +:+ "@trade"
  else "wss://fstream.binance.com/ws/" +:+ symbol +:+ "@trade".

(** Where [websocket_handler] is suspended: in [websockets.connect], in
    [async for message in websocket], or in [asyncio.sleep]. *)
Inductive ws_state :=
| WsConnecting
| WsStreaming
| WsSleeping.

(** What wakes it up: the handshake succeeded, a message arrived, the
    stream ended without an exception, an exception was raised inside the
    [try], or the sleep is over. *)
Inductive ws_input :=
| InConnected
| InMessage (message : string)
| InClosed
| InException
| InWoke.

(** What it does before it is suspended again. *)
Inductive ws_action :=
| ActConnect (url : string)
| ActHandleTrade (message market_type symbol : string)
| ActLog (r : log_record)
| ActSleep (seconds : Z).

(** One turn of [websocket_handler] with the module [config] in scope. An
    input that cannot occur in a state leaves the handler where it is. *)
Definition websocket_handler (cfg : config) (symbol market_type : string)
    (s : ws_state) (i : ws_input) : ws_state * list ws_action :=
  match s, i with
  | WsConnecting, InConnected =>
      (WsStreaming, [ActLog (LogWsConnected market_type (upper symbol))])
  | WsStreaming, InMessage message =>
      (WsStreaming, [ActHandleTrade message market_type symbol])
  | WsStreaming, InClosed =>
      (WsConnecting, [ActConnect (ws_url symbol market_type)])
  | WsConnecting, InException
  | WsStreaming, InException =>
      (WsSleeping, [ActLog (LogWsError market_type symbol); ActSleep 5])
  | WsSleeping, InWoke =>
      (WsConnecting, [ActConnect (ws_url symbol market_type)])
  | _, _ => (s, [])
  end.

(** The handler over a sequence of inputs: the final state and all the
    actions, in order. *)
Fixpoint ws_run (cfg : config) (symbol market_type : string)
    (s : ws_state) (inputs : list ws_input) : ws_state * list ws_action :=
  match inputs with
  | [] => (s, [])
  | i :: rest =>
      let '(s, acts) := websocket_handler cfg symbol market_type s i in
      let '(s', acts') := ws_run cfg symbol market_type s rest in
      (s', acts ++ acts')
  end.

Definition sleeps (acts : list ws_action) : list Z :=
  omap (fun a => match a with ActSleep n => Some n | _ => None end) acts.

(** ** Tasks sharing the monitor *)

(** [run] gathers one [websocket_handler] per pair and market, the poller
    and the statistics printer on one event loop: a task runs until its
    next [await] on the network, and the others run in between. The only
    such [await]s of a broadcast are in the body of its loop, so a
    broadcast in flight is suspended there, with its locals, the iterator
    of the [for] statement and the recipient in hand.

    The iterator reads the set it was made from: it remembers the size of
    the set at its creation and its position in the table, and each
    [next()] first compares the size of the set as it is now. The order in
    which the table of CPython yields the members follows their hashes and
    the history of the table; the model takes the order of [elements] in
    its place. *)
Record pass := {
  pass_message : string;
  pass_locals : locals;
  si_used : nat;
  si_pos : nat;
  awaiting : Z
}.

Inductive next_result :=
| NextRaises
| NextStop
| NextYield (user_id : Z).

(** [next()] on a set iterator: "Set changed size during iteration". *)
Definition set_next (live : gset Z) (used pos : nat) : next_result :=
  if (size live =? used)%nat then
    match elements live !! pos with
    | Some user_id => NextYield user_id
    | None => NextStop
    end
  else NextRaises.

(** The monitor and its environment, and the broadcasts in flight, keyed
    by the market and symbol of the handler that awaits them. *)
Record system := {
  shared : world;
  in_flight : gmap (string * string) pass
}.

Definition idle (w : world) : system := {| shared := w; in_flight := ∅ |}.

(** What the event loop lets happen next. *)
Inductive label :=
| FeedMessage (market_type symbol message : string) (t_check : Q)
              (fe : finish_env)
| Response (market_type symbol : string) (r : http_result) (fe : finish_env)
| Poll (r : poll_result) (fe : finish_env).

(** The [for] statement asks for the next recipient: the pass is suspended
    on it, or runs the code after the loop and returns, or the
    [RuntimeError] of the iterator leaves [send_telegram_notification] and
    is caught and logged by [handle_trade]. *)
Definition advance (fe : finish_env) (market_type symbol : string)
    (p : pass) (sys : system) : system :=
  let w := shared sys in
  match set_next (subscribed_users (mon w)) (si_used p) (si_pos p) with
  | NextYield user_id =>
      {| shared := w;
         in_flight :=
           <[(market_type, symbol) :=
               {| pass_message := pass_message p;
                  pass_locals := pass_locals p;
                  si_used := si_used p;
                  si_pos := S (si_pos p);
                  awaiting := user_id |}]> (in_flight sys) |}
  | NextStop =>
      {| shared := after_loop fe (pass_locals p) w;
         in_flight := delete (market_type, symbol) (in_flight sys) |}
  | NextRaises =>
      {| shared := log (LogTradeError market_type symbol) w;
         in_flight := delete (market_type, symbol) (in_flight sys) |}
  end.

Section Tasks.

Variable json_loads : string -> option json.
Variable local_time : Q -> option string.

(** One step of the event loop; [None] when the label is not enabled: a
    handler that awaits its broadcast reads no message, and a response
    needs a broadcast that awaits it. *)
Definition step (l : label) (sys : system) : option system :=
  match l with
  | FeedMessage market_type symbol message t fe =>
      match in_flight sys !! (market_type, symbol) with
      | Some _ => None
      | None =>
          match classify json_loads local_time message market_type symbol
                         (shared sys) with
          | (w, None) => Some {| shared := w; in_flight := in_flight sys |}
          | (w, Some formatted_message) =>
              let '(go, w) := preconditions t w in
              let sys := {| shared := w; in_flight := in_flight sys |} in
              if go then
                Some (advance fe market_type symbol
                        {| pass_message := formatted_message;
                           pass_locals := no_locals;
                           si_used := size (subscribed_users (mon w));
                           si_pos := 0;
                           awaiting := 0 |} sys)
              else Some sys
          end
      end
  | Response market_type symbol r fe =>
      match in_flight sys !! (market_type, symbol) with
      | None => None
      | Some p =>
          let '(l, w) :=
            deliver (pass_message p) (awaiting p) r (pass_locals p)
                    (shared sys) in
          Some (advance fe market_type symbol
                  {| pass_message := pass_message p;
                     pass_locals := l;
                     si_used := si_used p;
                     si_pos := si_pos p;
                     awaiting := awaiting p |}
                  {| shared := w; in_flight := in_flight sys |})
      end
  | Poll r fe =>
      Some {| shared := get_subscribed_users r fe (shared sys);
              in_flight := in_flight sys |}
  end.

Fixpoint run (ls : list label) (sys : system) : option system :=
  match ls with
  | [] => Some sys
  | l :: rest => sys' ← step l sys; run rest sys'
  end.

(** Whether a message makes its handler start a broadcast. *)
Definition pass_starts (message market_type symbol : string) (t : Q)
    (w : world) : bool :=
  match classify json_loads local_time message market_type symbol w with
  | (w, Some _) => fst (preconditions t w)
  | (_, None) => false
  end.

(** A handler left alone with its message: the message, then the
    responses of the recipients in the order of the table. *)
Definition alone (e : pass_env) (message market_type symbol : string)
    (w : world) : list label :=
  FeedMessage market_type symbol message (t_check e) (fin e)
  :: (if pass_starts message market_type symbol (t_check e) w
      then map (fun user_id =>
                  Response market_type symbol (post e user_id) (fin e))
               (elements (subscribed_users (mon w)))
      else []).

End Tasks.

(** What the iterator of a pass in flight has still to yield if the set
    stays as it is; [None] when its next [next()] raises. *)
Definition still_to_visit (live : gset Z) (p : pass) : option (list Z) :=
  if (size live =? si_used p)%nat
  then Some (drop (si_pos p) (elements live))
  else None.

(** The invariant of the window that the limiter is there to keep. *)
Definition window_bounded (m : monitor) : Prop :=
  Z.of_nat (length (notification_timestamps m)) <= max_per_minute m.

(** ** Sample worlds *)

Definition sample_file (users : list Z) : file_contents :=
  JsonRecord {| rec_subscribers := Some users;
                rec_last_updated := "2024-01-01T00:00:00";
                rec_total_count := Z.of_nat (length users) |}.

(** A monitor built by [__init__] from the shipped configuration and a
    subscribers file, with a given window of timestamps. *)
Definition sample_world (users : list Z) (window : list Q) : world :=
  with_mon (set_timestamps window)
    (BinanceMultiMonitor shipped_config "<token>" (MIN_AMOUNT shipped_config)
                         0 (Some (sample_file users))).

(** A trade as the feed sends it, and a decoder and a clock for it. *)
Definition sample_trade : json :=
  JObject [("e", JString "trade"); ("E", JInt 1700000000001);
           ("s", JString "BTCUSDT"); ("t", JInt 12345);
           ("p", JString "50000.00"); ("q", JString "25.0");
           ("T", JInt 1700000000000); ("m", JBool false);
           ("M", JBool true)].

Definition small_trade : json :=
  JObject [("e", JString "trade"); ("s", JString "BTCUSDT");
           ("p", JString "39999.96"); ("q", JString "25.0");
           ("T", JInt 1700000000000); ("m", JBool true)].

(** A trade whose notional is the threshold of the shipped configuration. *)
Definition threshold_trade : json :=
  JObject [("e", JString "trade"); ("s", JString "BTCUSDT");
           ("p", JString "40000.00"); ("q", JString "25.0");
           ("T", JInt 1700000000000); ("m", JBool false)].


Definition sample_loads (message : string) : option json :=
  if String.eqb message "big" then Some sample_trade
  else if String.eqb message "small" then Some small_trade
  else if String.eqb message "exact" then Some threshold_trade
  else None.

Definition sample_local_time (t : Q) : option string :=
  if Qeq_bool t 1700000000 then Some "2023-11-14 22:13:20" else None.

Definition sample_finish : finish_env :=
  {| now_iso := "2024-01-01T00:01:41"; write := WriteOk; t_append := 101 |}.

(** A pass at time 100 in which every exchange is answered by [post]. *)
Definition sample_env (post : Z -> http_result) : pass_env :=
  {| t_check := 100; post := post; fin := sample_finish |}.

(** The number of recipients answered with status 200 in a pass from call
    to return, and the recipients reported as blocked. *)
Definition successes (e : pass_env) (w : world) : Z :=
  Z.of_nat (length (List.filter (fun u => delivered (post e u))
                                (elements (subscribed_users (mon w))))).

Definition removed (e : pass_env) (w : world) : list Z :=
  List.filter (fun u => blocked (post e u)) (elements (subscribed_users (mon w))).

(** [add_subscriber] for each id of a list in turn, every write succeeding. *)
Definition add_subscribers (now_iso : string) (ids : list Z) (w : world)
  : world :=
  foldl (fun w user_id => add_subscriber now_iso WriteOk user_id w) w ids.

(** The same file with another value under ['total_count']. *)
Definition with_count (count : Z) (r : subscribers_record)
  : subscribers_record :=
  {| rec_subscribers := rec_subscribers r;
     rec_last_updated := rec_last_updated r;
     rec_total_count := count |}.

(** A subscriber writes to the bot while a broadcast to 7 and 8 awaits the
    response for its first recipient. *)
Definition addition_mid_pass : list label :=
  [FeedMessage "SPOT" "btcusdt" "big" 100 sample_finish;
   Poll (Poll200 true [UpdMessage (Some 9)]) sample_finish;
   Response "SPOT" "btcusdt" (HttpResponse 200 None) sample_finish].

(** Two handlers receive a large trade each before the broadcast of the
    first one has returned. *)
Definition racing_passes : list label :=
  [FeedMessage "SPOT" "btcusdt" "big" 100 sample_finish;
   FeedMessage "FUTURES" "btcusdt" "big" 100 sample_finish;
   Response "SPOT" "btcusdt" (HttpResponse 200 None) sample_finish;
   Response "FUTURES" "btcusdt" (HttpResponse 200 None) sample_finish].

(** What the pass of a handler, if in flight, has still to visit. *)
Definition pending (market_type symbol : string) (sys : system)
  : option (option (list Z)) :=
  still_to_visit (subscribed_users (mon (shared sys)))
    <$> in_flight sys !! (market_type, symbol).

(** ** Statistics, start-up and the other tasks *)

(** [sum(d.values())]. *)
Definition sum_values (d : gmap string Z) : Z :=
  map_fold (fun _ v acc => v + acc) 0 d.

(** What [print_stats] logs at each turn, given [time.time()]. *)
Record stats_report := {
  rep_runtime : Q;
  rep_total_spot : Z;
  rep_total_futures : Z;
  rep_notifications : Z;
  rep_subscribers : nat;
  rep_threshold : Q;
  rep_pairs : nat
}.

Definition print_stats (now : Q) (m : monitor) : stats_report :=
  {| rep_runtime := (now - start_time (mstats m))%Q;
     rep_total_spot := sum_values (spot_trades (mstats m));
     rep_total_futures := sum_values (futures_trades (mstats m));
     rep_notifications := notifications_sent (mstats m);
     rep_subscribers := size (subscribed_users m);
     rep_threshold := min_amount m;
     rep_pairs := length (trading_pairs m) |}.

(** The totals of the report add up to the global counter. *)
Definition stats_consistent (st : stats) : Prop :=
  total_trades st = sum_values (spot_trades st) + sum_values (futures_trades st).

(** The sender ids that a batch of updates carries, in order. *)
Definition update_ids (updates : list update) : list Z :=
  omap (fun u => match u with UpdMessage (Some user_id) => Some user_id
                            | _ => None end) updates.

Definition well_formed_update (u : update) : bool :=
  match u with UpdMessage None => false | _ => true end.

(** The texts of the [sendMessage] exchanges of a trace, in order. *)
Definition texts (tr : list event) : list string :=
  omap (fun e => match e with EvSendMessage _ text => Some text | _ => None end)
       tr.

(** Outcome of the [getMe] exchange of [test_telegram_connection]: an
    exception (from the request, from [response.json()], or from
    [data.get] on a body that is not an object), or a response with its
    status and, read under status 200 only, the truth value of ['ok'] in
    the body and what [data['result']['username']] reads, [None] when it
    raises. *)
Inductive getme_result :=
| GetMeRaises
| GetMeResponse (status : Z) (ok : bool) (username : option string).

(** What [test_telegram_connection] returns: [True], [False], or [None]
    when the body of a 200 response is not ['ok']. *)
Inductive py_result :=
| PyTrue
| PyFalse
| PyNone.

Definition py_truth (v : py_result) : bool :=
  match v with PyTrue => true | _ => false end.

Definition test_telegram_connection (r : getme_result) : py_result :=
  match r with
  | GetMeRaises => PyFalse
  | GetMeResponse status ok username =>
      if status =? 200 then
        if ok then
          match username with
          | Some _ => PyTrue
          | None => PyFalse
          end
        else PyNone
      else PyFalse
  end.

(** The coroutines that [run] gathers. *)
Inductive task :=
| TaskFeed (symbol market_type : string)
| TaskStats
| TaskPoller.

(** [notification_settings.get(key, True)] as a condition. *)
Definition enabled (m : monitor) (key : string) : bool :=
  match notification_settings m !! key with
  | Some v => setting_truthy v
  | None => true
  end.

(** The method [run]: the list [tasks] that it gathers, empty when it
    returns before building it. *)
Definition run_tasks (r : getme_result) (m : monitor) : list task :=
  if py_truth (test_telegram_connection r) then
    (if enabled m "enable_spot"
     then map (fun symbol => TaskFeed symbol "SPOT") (trading_pairs m)
     else [])
    ++ (if enabled m "enable_futures"
        then map (fun symbol => TaskFeed symbol "FUTURES") (trading_pairs m)
        else [])
    ++ [TaskStats; TaskPoller]
  else [].

Definition is_feed (t : task) : bool :=
  match t with TaskFeed _ _ => true | _ => false end.

(** The messages that a handler passes to [handle_trade], in order. *)
Definition handled (acts : list ws_action) : list string :=
  omap (fun a => match a with ActHandleTrade message _ _ => Some message
                            | _ => None end) acts.

Definition is_exception (i : ws_input) : bool :=
  match i with InException => true | _ => false end.

(** A trade at the threshold of the shipped configuration whose event time
    is missing. *)
Definition timeless_trade : json :=
  JObject [("e", JString "trade"); ("s", JString "BTCUSDT");
           ("p", JString "50000.00"); ("q", JString "25.0");
           ("m", JBool false)].

(** The same without an event time, with a price of seventeen digits that
    is read as the float 1000000.0. *)
Definition rounded_timeless_trade : json :=
  JObject [("e", JString "trade"); ("s", JString "BTCUSDT");
           ("p", JString "999999.99999999999"); ("q", JString "1");
           ("m", JBool false)].

Definition timeless_loads (message : string) : option json :=
  if String.eqb message "timeless" then Some timeless_trade
  else if String.eqb message "rounded" then Some rounded_timeless_trade
  else None.

(** Trades whose decimals multiply to a number on one side of the
    threshold of the shipped configuration, and whose floats multiply to a
    number on the other side; and a trade whose price is not a number. *)
Definition trade_with (price quantity : string) : json :=
  JObject [("e", JString "trade"); ("s", JString "BTCUSDT");
           ("p", JString price); ("q", JString quantity);
           ("T", JInt 1700000000000); ("m", JBool false)].

Definition rounding_loads (message : string) : option json :=
  if String.eqb message "under"
  then Some (trade_with "0.10608" "9426847.66214178")
  else if String.eqb message "over"
  then Some (trade_with "0.06725" "14869888.47583643")
  else if String.eqb message "nan"
  then Some (trade_with "nan" "25.0")
  else if String.eqb message "inf"
  then Some (trade_with "inf" "25.0")
  else None.

(** Floats of all kinds, read from their texts. *)
Definition float_samples : list pyfloat :=
  omap float_of_string
    ["0"; "-0"; "1"; "-1"; "0.1"; "0.10608"; "9426847.66214178"; "0.06725";
     "14869888.47583643"; "1700.17"; "588.17647647"; "999999.99999999999";
     "50000.00"; "25.0"; "39999.96"; "40600"; "0.00005"; "0.0000025";
     "1e308"; "1.7976931348623157e308"; "3.4e200"; "-2.5e-200"; "1e-320";
     "4.9e-324"; "2.2250738585072014e-308"; "123456789.123456789e-15";
     "inf"; "-inf"; "nan"].

(** The messages among the inputs of a handler, in order. *)
Definition messages (inputs : list ws_input) : list string :=
  omap (fun i => match i with InMessage message => Some message | _ => None end)
       inputs.

Definition is_message (i : ws_input) : bool :=
  match i with InMessage _ => true | _ => false end.

(** The file holds the registry: it parses, and lists exactly the ids that
    are registered. *)
Definition in_sync (w : world) : Prop :=
  ∃ r, disk w = Some (JsonRecord r)
       ∧ list_to_set (default [] (rec_subscribers r)) = subscribed_users (mon w).

(** The handlers that receive a message in a sequence of steps. *)
Definition handler_keys (ls : list label) : gset (string * string) :=
  list_to_set
    (omap (fun l => match l with
                    | FeedMessage market_type symbol _ _ _ =>
                        Some (market_type, symbol)
                    | _ => None
                    end) ls).

(** The window is within the maximum plus [slack], counting one for every
    pass in flight, and the passes in flight belong to [keys]. *)
Definition race_bounded (keys : gset (string * string)) (slack : nat)
    (sys : system) : Prop :=
  dom (in_flight sys) ⊆ keys
  ∧ Z.of_nat (length (notification_timestamps (mon (shared sys))))
    + Z.of_nat (size (in_flight sys))
    <= max_per_minute (mon (shared sys)) + Z.of_nat slack.

(** [needle] occurs in [hay]. *)
Definition occurs (needle hay : string) : Prop :=
  ∃ a b, hay = a +:+ needle +:+ b.

(** * Properties *)

(** ** Shared lemmas *)

Lemma Qltb_lt (x y : Q) : Qltb x y = true ↔ (x < y)%Q.
Proof.
  unfold Qltb. rewrite negb_true_iff. split.
  - intros H. apply Qnot_le_lt. intros Hle.
    apply Qle_bool_iff in Hle. congruence.
  - intros H. destruct (Qle_bool y x) eqn:E; [|reflexivity].
    apply Qle_bool_iff in E. exfalso. apply (Qlt_not_le _ _ H E).
Qed.

Lemma Qltb_ge (x y : Q) : Qltb x y = false ↔ (y <= x)%Q.
Proof.
  unfold Qltb. rewrite negb_false_iff. apply Qle_bool_iff.
Qed.

Lemma recent_In (now ts : Q) (window : list Q) :
  In ts (recent now window) ↔ In ts window ∧ (now - ts < 60)%Q.
Proof.
  unfold recent. rewrite filter_In, Qltb_lt. reflexivity.
Qed.

Lemma recent_sublist (now : Q) (window : list Q) :
  sublist (recent now window) window.
Proof.
  induction window as [|ts window IH]; simpl.
  - constructor.
  - destruct (Qltb (now - ts) 60); now constructor.
Qed.

Lemma recent_length (now : Q) (window : list Q) :
  (length (recent now window) <= length window)%nat.
Proof. apply sublist_length, recent_sublist. Qed.

Lemma recent_all (now : Q) (window : list Q) :
  (∀ ts, In ts window → (now - ts < 60)%Q) → recent now window = window.
Proof.
  induction window as [|ts window IH]; intros Hall; simpl; [reflexivity|].
  assert (Hts : Qltb (now - ts) 60 = true)
    by (apply Qltb_lt, Hall; now left).
  rewrite Hts. f_equal. apply IH. intros ts' Hin. apply Hall. now right.
Qed.

Lemma recent_expired (now t0 : Q) (window : list Q) :
  In t0 window → (60 <= now - t0)%Q →
  (length (recent now window) < length window)%nat.
Proof.
  induction window as [|ts window IH]; intros Hin Hold; simpl in *; [tauto|].
  destruct Hin as [-> | Hin].
  - apply Qltb_ge in Hold. rewrite Hold.
    pose proof (recent_length now window). lia.
  - specialize (IH Hin Hold).
    destruct (Qltb (now - ts) 60); simpl; lia.
Qed.

(** ** The notification limiter *)

(** C3. [can_send_notification] stores the pruned window whatever it
    answers, the pruned window holds, in order, exactly the timestamps
    strictly less than 60 seconds old, and the answer is yes exactly when
    the pruned window is shorter than the maximum. Hence a window of at
    least [M] timestamps that are all less than 60 seconds old refuses the
    next request, and a window of at most [M] timestamps one of which is
    60 seconds old or more admits it. *)
Theorem C3_admit_check (now : Q) (m : monitor) :
  let window := notification_timestamps m in
  let ok := fst (can_send_notification now m) in
  let m' := snd (can_send_notification now m) in
  m' = set_timestamps (recent now window) m
  ∧ sublist (notification_timestamps m') window
  ∧ (∀ ts, In ts (notification_timestamps m')
           ↔ In ts window ∧ (now - ts < 60)%Q)
  ∧ (ok = true
     ↔ Z.of_nat (length (notification_timestamps m')) < max_per_minute m)
  ∧ ((∀ ts, In ts window → (now - ts < 60)%Q) →
     max_per_minute m <= Z.of_nat (length window) → ok = false)
  ∧ (∀ t0, In t0 window → Z.of_nat (length window) <= max_per_minute m →
     (60 <= now - t0)%Q → ok = true).
Proof.
  cbn zeta. unfold can_send_notification. simpl.
  split_and!.
  - reflexivity.
  - apply recent_sublist.
  - intros ts. apply recent_In.
  - apply Z.ltb_lt.
  - intros Hall Hfull. rewrite (recent_all _ _ Hall).
    apply Z.ltb_ge. exact Hfull.
  - intros t0 Hin Hlen Hold. apply Z.ltb_lt.
    pose proof (recent_expired now t0 _ Hin Hold).
    change (max_per_minute (set_timestamps _ m)) with (max_per_minute m).
    lia.
Qed.

Lemma C3_admit_check_witness :
  let m := mon (sample_world [7] [41; 91; 92; 93; 94; 95; 96; 97; 98; 99]%Q) in
  fst (can_send_notification 100 m) = false
  ∧ fst (can_send_notification 101 m) = true.
Proof.
  cbn zeta.
  set (m := mon (sample_world [7] [41; 91; 92; 93; 94; 95; 96; 97; 98; 99]%Q)).
  destruct (C3_admit_check 100 m) as (_ & _ & _ & _ & Hfull & _).
  destruct (C3_admit_check 101 m) as (_ & _ & _ & _ & _ & Hfree).
  split.
  - apply Hfull.
    + intros ts Hin. simpl in Hin.
      repeat (destruct Hin as [<- | Hin]; [reflexivity|]). destruct Hin.
    + vm_compute. discriminate.
  - apply (Hfree 41%Q).
    + simpl. now left.
    + vm_compute. discriminate.
    + vm_compute. discriminate.
Defined.

(** ** The broadcast *)

Lemma recipients_app (tr1 tr2 : list event) :
  recipients (tr1 ++ tr2) = recipients tr1 ++ recipients tr2.
Proof. apply omap_app. Qed.

Lemma writes_app (tr1 tr2 : list event) :
  writes (tr1 ++ tr2) = (writes tr1 + writes tr2)%nat.
Proof. unfold writes. now rewrite List.filter_app, length_app. Qed.

Local Ltac deliver_case :=
  split_and!;
  [ reflexivity
  | reflexivity
  | simpl; lia
  | first [reflexivity | now rewrite app_nil_r]
  | eexists; rewrite <- ?app_assoc; split; [reflexivity|]; now split ].

(** One turn of the loop: the monitor and the disk are left alone, one
    exchange is started, and the locals record its outcome. *)
Lemma deliver_spec (message : string) (user_id : Z) (r : http_result)
    (l : locals) (w : world) :
  let l' := fst (deliver message user_id r l w) in
  let w' := snd (deliver message user_id r l w) in
  mon w' = mon w ∧ disk w' = disk w
  ∧ success_count l' = success_count l + (if delivered r then 1 else 0)
  ∧ failed_users l' = failed_users l ++ (if blocked r then [user_id] else [])
  ∧ ∃ evs, trace w' = trace w ++ evs
           ∧ recipients evs = [user_id] ∧ writes evs = 0%nat.
Proof.
  cbn zeta. unfold deliver, delivered, blocked.
  destruct r as [|status body]; simpl.
  - deliver_case.
  - destruct (status =? 200) eqn:E200.
    + apply Z.eqb_eq in E200. subst status.
      destruct body; simpl; deliver_case.
    + destruct body; simpl;
        [destruct (status =? 403) eqn:E403; simpl|]; deliver_case.
Qed.

(** The whole loop over [users]. *)
Lemma delivery_loop_spec (message : string) (post : Z → http_result)
    (users : list Z) (l : locals) (w : world) :
  let l' := fst (delivery_loop message post users l w) in
  let w' := snd (delivery_loop message post users l w) in
  mon w' = mon w ∧ disk w' = disk w
  ∧ success_count l'
    = success_count l
      + Z.of_nat (length (List.filter (fun u => delivered (post u)) users))
  ∧ failed_users l'
    = failed_users l ++ List.filter (fun u => blocked (post u)) users
  ∧ ∃ evs, trace w' = trace w ++ evs
           ∧ recipients evs = users ∧ writes evs = 0%nat.
Proof.
  cbn zeta. revert l w.
  induction users as [|u users IH]; intros l w; simpl.
  - split_and!; try reflexivity; try lia.
    + now rewrite app_nil_r.
    + exists []. now rewrite app_nil_r.
  - pose proof (deliver_spec message u (post u) l w) as Hd. cbn zeta in Hd.
    destruct (deliver message u (post u) l w) as [l1 w1]. simpl in Hd.
    destruct Hd as (Hmon & Hdisk & Hsucc & Hfail & evs1 & Htr & Hrec & Hwr).
    specialize (IH l1 w1).
    destruct IH as (IHmon & IHdisk & IHsucc & IHfail & evs2 & IHtr & IHrec & IHwr).
    split_and!.
    + congruence.
    + congruence.
    + rewrite IHsucc, Hsucc.
      destruct (delivered (post u)); simpl length; lia.
    + rewrite IHfail, Hfail.
      destruct (blocked (post u)); simpl; rewrite <- app_assoc; reflexivity.
    + exists (evs1 ++ evs2). rewrite IHtr, Htr, <- app_assoc.
      split; [reflexivity|].
      rewrite recipients_app, writes_app, Hrec, IHrec, Hwr, IHwr. now split.
Qed.

Lemma elem_of_discard_all (failed : list Z) (users : gset Z) (u : Z) :
  u ∈ discard_all failed users ↔ u ∈ users ∧ u ∉ failed.
Proof.
  unfold discard_all. revert users.
  induction failed as [|f failed IH]; intros users; simpl.
  - set_solver.
  - rewrite IH. set_solver.
Qed.

(** When the preconditions hold, they only prune the window. *)
Lemma preconditions_true (t : Q) (w : world) :
  fst (preconditions t w) = true →
  subscribed_users (mon w) ≠ ∅
  ∧ fst (can_send_notification t (mon w)) = true
  ∧ snd (preconditions t w)
    = with_mon (set_timestamps (recent t (notification_timestamps (mon w)))) w.
Proof.
  unfold preconditions.
  destruct (decide (subscribed_users (mon w) = ∅)) as [He|Hne]; simpl;
    [discriminate|].
  destruct (Z.of_nat _ <? _) eqn:Hok; simpl; [|discriminate].
  intros _. split_and!; try assumption; reflexivity.
Qed.

Lemma preconditions_false (t : Q) (w : world) :
  fst (preconditions t w) = false →
  (subscribed_users (mon w) = ∅
   ∧ snd (preconditions t w) = log LogNoSubscribers w)
  ∨ (subscribed_users (mon w) ≠ ∅
     ∧ fst (can_send_notification t (mon w)) = false
     ∧ snd (preconditions t w)
       = log LogRateLimited
           (with_mon (set_timestamps
                        (recent t (notification_timestamps (mon w)))) w)).
Proof.
  unfold preconditions.
  destruct (decide (subscribed_users (mon w) = ∅)) as [He|Hne]; simpl.
  - intros _. left. now split.
  - destruct (Z.of_nat _ <? _) eqn:Hok; simpl; [discriminate|].
    intros _. right. split_and!; try assumption; reflexivity.
Qed.

(** The pass unfolded, once its preconditions hold. *)
Lemma send_unfold (e : pass_env) (message : string) (w : world) :
  fst (preconditions (t_check e) w) = true →
  let w0 := with_mon (set_timestamps
                        (recent (t_check e) (notification_timestamps (mon w)))) w in
  let lw := delivery_loop message (post e)
              (elements (subscribed_users (mon w))) no_locals w0 in
  send_telegram_notification e message w = after_loop (fin e) (fst lw) (snd lw).
Proof.
  intros Hgo. cbn zeta. unfold send_telegram_notification.
  destruct (preconditions_true _ _ Hgo) as (_ & _ & Hw0).
  destruct (preconditions (t_check e) w) as [go w0]. simpl in *. subst go w0.
  simpl. now destruct (delivery_loop _ _ _ _ _).
Qed.

(** The code after the loop. *)
Lemma after_loop_spec (fe : finish_env) (l : locals) (w : world) :
  let w' := after_loop fe l w in
  let counted := 0 <? success_count l in
  subscribed_users (mon w')
  = discard_all (failed_users l) (subscribed_users (mon w))
  ∧ notifications_sent (mstats (mon w'))
    = notifications_sent (mstats (mon w))
      + (if counted then success_count l else 0)
  ∧ notification_timestamps (mon w')
    = notification_timestamps (mon w)
      ++ (if counted then [t_append fe] else [])
  ∧ (total_trades (mstats (mon w')) = total_trades (mstats (mon w))
     ∧ spot_trades (mstats (mon w')) = spot_trades (mstats (mon w))
     ∧ futures_trades (mstats (mon w')) = futures_trades (mstats (mon w)))
  ∧ ∃ evs, trace w' = trace w ++ evs
           ∧ recipients evs = []
           ∧ writes evs = (match failed_users l with [] => 0 | _ => 1 end)%nat
           ∧ (failed_users l ≠ [] →
              In (EvWriteFile (subscribers_data (now_iso fe) (mon w'))) evs).
Proof.
  cbn zeta. unfold after_loop.
  destruct (failed_users l) as [|f failed] eqn:Hf;
    destruct (0 <? success_count l) eqn:Hs; simpl.
  - split_and!; try reflexivity.
    eexists. split; [reflexivity|]. split_and!; try reflexivity. congruence.
  - split_and!; try reflexivity; try lia.
    + now rewrite app_nil_r.
    + exists []. rewrite app_nil_r. split_and!; try reflexivity. congruence.
  - destruct (write fe) as [|remains]; simpl;
      (split_and!; try reflexivity;
       eexists; rewrite <- ?app_assoc; split; [reflexivity|];
       split_and!; try reflexivity; intros _; simpl; now left).
  - destruct (write fe) as [|remains]; simpl;
      (split_and!; try reflexivity; try lia;
       [ now rewrite app_nil_r
       | eexists; rewrite <- ?app_assoc; split; [reflexivity|];
         split_and!; try reflexivity; intros _; simpl; now left ]).
Qed.

(** A pass from call to return, once its preconditions hold. *)
Lemma send_spec (e : pass_env) (message : string) (w : world) :
  fst (preconditions (t_check e) w) = true →
  let w' := send_telegram_notification e message w in
  (∀ u, u ∈ subscribed_users (mon w')
        ↔ u ∈ subscribed_users (mon w) ∧ blocked (post e u) = false)
  ∧ notifications_sent (mstats (mon w'))
    = notifications_sent (mstats (mon w)) + successes e w
  ∧ notification_timestamps (mon w')
    = recent (t_check e) (notification_timestamps (mon w))
      ++ (if 0 <? successes e w then [t_append (fin e)] else [])
  ∧ (total_trades (mstats (mon w')) = total_trades (mstats (mon w))
     ∧ spot_trades (mstats (mon w')) = spot_trades (mstats (mon w))
     ∧ futures_trades (mstats (mon w')) = futures_trades (mstats (mon w)))
  ∧ ∃ evs1 evs2,
      trace w' = trace w ++ evs1 ++ evs2
      ∧ recipients evs1 = elements (subscribed_users (mon w))
      ∧ writes evs1 = 0%nat
      ∧ recipients evs2 = []
      ∧ writes evs2 = (match removed e w with [] => 0 | _ => 1 end)%nat
      ∧ (removed e w ≠ [] →
         In (EvWriteFile (subscribers_data (now_iso (fin e)) (mon w'))) evs2).
Proof.
  intros Hgo. cbn zeta. rewrite (send_unfold _ _ _ Hgo). cbn zeta.
  set (w0 := with_mon _ w).
  pose proof (delivery_loop_spec message (post e)
                (elements (subscribed_users (mon w))) no_locals w0) as Hl.
  cbn zeta in Hl.
  destruct (delivery_loop _ _ _ _ _) as [l w1]. simpl in Hl |- *.
  destruct Hl as (Hmon & Hdisk & Hsucc & Hfail & evs1 & Htr & Hrec & Hwr).
  fold (removed e w) in Hfail. fold (successes e w) in Hsucc.
  rewrite Z.add_0_l in Hsucc.
  pose proof (after_loop_spec (fin e) l w1) as Ha. cbn zeta in Ha.
  destruct Ha as (Husers & Hsent & Hts & Htrades & evs2 & Htr2 & Hrec2 & Hwr2 & Hin).
  rewrite Hmon in Husers, Hsent, Hts, Htrades.
  rewrite Hfail in Husers, Hwr2, Hin. rewrite Hsucc in Hsent, Hts.
  refine (conj _ (conj _ (conj _ (conj Htrades _)))).
  - intros u. rewrite Husers, elem_of_discard_all. subst w0. simpl.
    unfold removed. rewrite list_elem_of_In, filter_In, <- list_elem_of_In.
    rewrite elem_of_elements.
    destruct (blocked (post e u)); intuition congruence.
  - rewrite Hsent. subst w0. simpl.
    destruct (0 <? successes e w) eqn:E; [reflexivity|].
    apply Z.ltb_ge in E. unfold successes in *. lia.
  - rewrite Hts. reflexivity.
  - exists evs1, evs2. rewrite Htr2, Htr, <- app_assoc.
    split_and!; try assumption; reflexivity.
Qed.

(** ** C1: accounting after the loop *)

(** C1, as amended. A pass whose preconditions hold, run from call to
    return: when at least one delivery was answered with status 200, the
    sent counter grows by the number of such deliveries and exactly one
    timestamp, the reading of the clock after the loop, is appended to the
    pruned window; when none was, the counter is unchanged and nothing is
    appended. *)
Theorem C1_accounting_when_delivered (e : pass_env) (message : string)
    (w : world) :
  fst (preconditions (t_check e) w) = true →
  let w' := send_telegram_notification e message w in
  let pruned := recent (t_check e) (notification_timestamps (mon w)) in
  (0 < successes e w →
   notifications_sent (mstats (mon w'))
   = notifications_sent (mstats (mon w)) + successes e w
   ∧ notification_timestamps (mon w') = pruned ++ [t_append (fin e)])
  ∧ (successes e w = 0 →
     notifications_sent (mstats (mon w')) = notifications_sent (mstats (mon w))
     ∧ notification_timestamps (mon w') = pruned).
Proof.
  intros Hgo. cbn zeta.
  destruct (send_spec e message w Hgo) as (_ & Hsent & Hts & _).
  split.
  - intros Hpos. split; [exact Hsent|].
    rewrite Hts. apply Z.ltb_lt in Hpos. now rewrite Hpos.
  - intros Hzero. rewrite Hsent, Hts, Hzero. simpl.
    split; [lia | apply app_nil_r].
Qed.

(** ** C2: removal of blocked recipients *)

(** C2, as amended. A pass whose preconditions hold, run from call to
    return: the registry afterwards holds exactly the former members whose
    exchange did not come back with status 403 and a readable body; every
    member was contacted once, before any write; and the file is written
    once when at least one member is removed, with the registry as it is
    after all the removals, and not at all when none is. *)
Theorem C2_blocked_removed_in_one_batch (e : pass_env) (message : string)
    (w : world) :
  fst (preconditions (t_check e) w) = true →
  let w' := send_telegram_notification e message w in
  (∀ u, u ∈ subscribed_users (mon w')
        ↔ u ∈ subscribed_users (mon w) ∧ blocked (post e u) = false)
  ∧ ∃ during after,
      trace w' = trace w ++ during ++ after
      ∧ recipients during = elements (subscribed_users (mon w))
      ∧ writes during = 0%nat
      ∧ recipients after = []
      ∧ (removed e w ≠ [] →
         writes after = 1%nat
         ∧ In (EvWriteFile (subscribers_data (now_iso (fin e)) (mon w')))
              after)
      ∧ (removed e w = [] → writes after = 0%nat).
Proof.
  intros Hgo. cbn zeta.
  destruct (send_spec e message w Hgo)
    as (Husers & _ & _ & _ & evs1 & evs2 & Htr & Hrec & Hwr & Hrec2 & Hwr2 & Hin).
  split; [exact Husers|].
  exists evs1, evs2. split_and!; try assumption.
  - intros Hne. split; [|now apply Hin].
    rewrite Hwr2. now destruct (removed e w).
  - intros Hnil. now rewrite Hwr2, Hnil.
Qed.

(** C1, as stated, fails: a pass whose only delivery is answered with
    status 500 passes its preconditions and leaves both the sent counter
    and the window as they were. *)
Lemma C1_counterexample :
  let e := sample_env (fun _ => HttpResponse 500 (Some "Internal Server Error")) in
  let w := sample_world [7] [] in
  let w' := send_telegram_notification e "alert" w in
  fst (preconditions (t_check e) w) = true
  ∧ recipients (trace w') = recipients (trace w) ++ [7]
  ∧ notifications_sent (mstats (mon w')) = notifications_sent (mstats (mon w))
  ∧ notification_timestamps (mon w') = notification_timestamps (mon w).
Proof. vm_compute. repeat split. Qed.

(** The counter counts recipients, not passes: two deliveries answered with
    status 200 in one pass add two to it and one timestamp to the window. *)
Example sent_counter_per_recipient :
  let e := sample_env (fun _ => HttpResponse 200 None) in
  let w := sample_world [7; 8] [] in
  let w' := send_telegram_notification e "alert" w in
  notifications_sent (mstats (mon w')) = notifications_sent (mstats (mon w)) + 2
  ∧ notification_timestamps (mon w') = [101%Q].
Proof. vm_compute. repeat split. Qed.

Lemma C1_accounting_witness :
  let e := sample_env (fun _ => HttpResponse 200 None) in
  let w := sample_world [7; 8] [] in
  let w' := send_telegram_notification e "alert" w in
  fst (preconditions (t_check e) w) = true
  ∧ notifications_sent (mstats (mon w')) = 0 + successes e w
  ∧ notification_timestamps (mon w') = [] ++ [101%Q].
Proof.
  cbn zeta.
  assert (Hgo : fst (preconditions
                       (t_check (sample_env (fun _ => HttpResponse 200 None)))
                       (sample_world [7; 8] [])) = true)
    by (vm_compute; reflexivity).
  split; [exact Hgo|].
  apply (C1_accounting_when_delivered
           (sample_env (fun _ => HttpResponse 200 None)) "alert"
           (sample_world [7; 8] []) Hgo).
  vm_compute. reflexivity.
Defined.

(** C2, as stated, fails: a pass in which nobody is removed writes nothing. *)
Lemma C2_counterexample :
  let e := sample_env (fun _ => HttpResponse 200 None) in
  let w := sample_world [7] [] in
  let w' := send_telegram_notification e "alert" w in
  fst (preconditions (t_check e) w) = true
  ∧ subscribed_users (mon w') = subscribed_users (mon w)
  ∧ writes (trace w') = 0%nat.
Proof. vm_compute. repeat split. Qed.

Lemma C2_blocked_removed_witness :
  let e := sample_env (fun u => HttpResponse (if u =? 8 then 403 else 200)
                                             (Some "Forbidden")) in
  let w := sample_world [7; 8] [] in
  let w' := send_telegram_notification e "alert" w in
  fst (preconditions (t_check e) w) = true
  ∧ (8 ∈ subscribed_users (mon w')
     ↔ 8 ∈ subscribed_users (mon w) ∧ blocked (post e 8) = false)
  ∧ (7 ∈ subscribed_users (mon w')
     ↔ 7 ∈ subscribed_users (mon w) ∧ blocked (post e 7) = false).
Proof.
  cbn zeta.
  set (e := sample_env _). set (w := sample_world _ _).
  assert (Hgo : fst (preconditions (t_check e) w) = true)
    by (vm_compute; reflexivity).
  split; [exact Hgo|].
  destruct (C2_blocked_removed_in_one_batch e "alert" w Hgo) as [Husers _].
  split; apply Husers.
Defined.

(** ** C7: a dropped alert *)

Lemma preconditions_denied (t : Q) (w : world) :
  subscribed_users (mon w) = ∅
  ∨ fst (can_send_notification t (mon w)) = false →
  fst (preconditions t w) = false.
Proof.
  unfold preconditions. intros [He|Hno].
  - now destruct (decide _).
  - destruct (decide _); [reflexivity|].
    destruct (can_send_notification t (mon w)) as [ok m]. simpl in *.
    now subst ok.
Qed.

Lemma send_dropped (e : pass_env) (message : string) (w : world) :
  fst (preconditions (t_check e) w) = false →
  send_telegram_notification e message w = snd (preconditions (t_check e) w).
Proof.
  unfold send_telegram_notification.
  destruct (preconditions (t_check e) w) as [go w0]. simpl. now intros ->.
Qed.

(** C7. When the registry is empty or the limiter refuses, the pass emits
    one log record and nothing else: no exchange is started and the file is
    not written; the monitor is unchanged, except that the window is pruned
    when the limiter was asked; and the outcome does not depend on the text
    of the alert, of which nothing is kept. *)
Theorem C7_dropped_alert_is_noop (e : pass_env) (message : string)
    (w : world) :
  subscribed_users (mon w) = ∅
  ∨ fst (can_send_notification (t_check e) (mon w)) = false →
  let w' := send_telegram_notification e message w in
  let pruned := recent (t_check e) (notification_timestamps (mon w)) in
  (∃ r, trace w' = trace w ++ [EvLog r])
  ∧ disk w' = disk w
  ∧ (mon w' = mon w ∨ mon w' = set_timestamps pruned (mon w))
  ∧ subscribed_users (mon w') = subscribed_users (mon w)
  ∧ mstats (mon w') = mstats (mon w)
  ∧ sublist (notification_timestamps (mon w')) (notification_timestamps (mon w))
  ∧ ∀ message', send_telegram_notification e message' w = w'.
Proof.
  intros Hdrop. cbn zeta. apply preconditions_denied in Hdrop.
  assert (Hall : ∀ msg, send_telegram_notification e msg w
                        = snd (preconditions (t_check e) w))
    by (intros msg; now apply send_dropped).
  rewrite Hall.
  destruct (preconditions_false _ _ Hdrop) as [[_ Heq] | (_ & _ & Heq)];
    rewrite Heq in Hall |- *; simpl.
  - split_and!; try reflexivity; eauto.
  - split_and!; try reflexivity; eauto. apply recent_sublist.
Qed.

Lemma C7_dropped_alert_witness :
  let e := sample_env (fun _ => HttpResponse 200 None) in
  let w := sample_world [7] [41; 91; 92; 93; 94; 95; 96; 97; 98; 99; 100]%Q in
  let w' := send_telegram_notification e "alert" w in
  fst (can_send_notification (t_check e) (mon w)) = false
  ∧ (∃ r, trace w' = trace w ++ [EvLog r])
  ∧ subscribed_users (mon w') = subscribed_users (mon w)
  ∧ mstats (mon w') = mstats (mon w).
Proof.
  cbn zeta.
  set (e := sample_env _). set (w := sample_world _ _).
  assert (Hno : fst (can_send_notification (t_check e) (mon w)) = false)
    by (vm_compute; reflexivity).
  split; [exact Hno|].
  destruct (C7_dropped_alert_is_noop e "alert" w (or_intror Hno))
    as (Htr & _ & _ & Hu & Hst & _).
  split; [exact Htr|]. split; [exact Hu | exact Hst].
Defined.

(** ** C8: the subscribers file *)

Lemma load_saved (now_iso : string) (w : world) (users' : gset Z) :
  subscribed_users
    (mon (load_subscribers
            (with_mon (set_users users')
                      (save_subscribers now_iso WriteOk w))))
  = subscribed_users (mon w).
Proof.
  unfold load_subscribers, save_subscribers. simpl.
  apply list_to_set_elements_L.
Qed.

Lemma add_subscriber_users (now_iso : string) (wr : write_outcome)
    (user_id : Z) (w : world) :
  subscribed_users (mon (add_subscriber now_iso wr user_id w))
  = {[user_id]} ∪ subscribed_users (mon w).
Proof.
  unfold add_subscriber.
  destruct (decide (user_id ∈ subscribed_users (mon w))) as [Hin|Hout].
  - set_solver.
  - unfold save_subscribers. now destruct wr.
Qed.

Lemma add_subscribers_users (now_iso : string) (ids : list Z) (w : world) :
  subscribed_users (mon (add_subscribers now_iso ids w))
  = list_to_set ids ∪ subscribed_users (mon w).
Proof.
  unfold add_subscribers. revert w.
  induction ids as [|user_id ids IH]; intros w; simpl.
  - set_solver.
  - rewrite IH, add_subscriber_users. set_solver.
Qed.

(** C8. A successful save followed by a load gives back the set that was
    saved, whatever the set in memory when the file is loaded; two
    registries filled with the same ids in different orders load back as
    the same set; and the loaded set is made of the listed ids alone,
    whatever the file says under ['total_count']. *)
Theorem C8_save_load_round_trip :
  (∀ now_iso w users',
     subscribed_users
       (mon (load_subscribers
               (with_mon (set_users users')
                         (save_subscribers now_iso WriteOk w))))
     = subscribed_users (mon w))
  ∧ (∀ now_iso ids ids' w,
       ids ≡ₚ ids' →
       let reloaded l :=
         subscribed_users
           (mon (load_subscribers
                   (save_subscribers now_iso WriteOk
                      (add_subscribers now_iso l w)))) in
       reloaded ids = reloaded ids'
       ∧ reloaded ids = list_to_set ids ∪ subscribed_users (mon w))
  ∧ (∀ w r count,
       subscribed_users
         (mon (load_subscribers
                 (set_disk (Some (JsonRecord (with_count count r))) w)))
       = list_to_set (default [] (rec_subscribers r))).
Proof.
  split_and!.
  - apply load_saved.
  - intros now_iso ids ids' w Hperm. cbn zeta.
    pose proof (load_saved now_iso (add_subscribers now_iso ids w)
                  (subscribed_users
                     (mon (save_subscribers now_iso WriteOk
                             (add_subscribers now_iso ids w))))) as H1.
    pose proof (load_saved now_iso (add_subscribers now_iso ids' w)
                  (subscribed_users
                     (mon (save_subscribers now_iso WriteOk
                             (add_subscribers now_iso ids' w))))) as H2.
    simpl in H1, H2 |- *.
    unfold load_subscribers in *. simpl in *.
    rewrite !list_to_set_elements_L, !add_subscribers_users.
    split; [|reflexivity].
    f_equal. apply set_eq. intros x. rewrite !elem_of_list_to_set.
    now rewrite Hperm.
  - intros w r count. reflexivity.
Qed.

Lemma C8_save_load_witness :
  let reloaded l :=
    subscribed_users
      (mon (load_subscribers
              (save_subscribers "t" WriteOk
                 (add_subscribers "t" l (sample_world [] []))))) in
  [3; 1; 2] ≡ₚ [1; 2; 3] ∧ reloaded [3; 1; 2] = reloaded [1; 2; 3].
Proof.
  cbn zeta.
  assert (Hperm : [3; 1; 2] ≡ₚ [1; 2; 3]).
  { change [3; 1; 2] with ([3] ++ [1; 2]). rewrite Permutation_app_comm.
    reflexivity. }
  split; [exact Hperm|].
  destruct C8_save_load_round_trip as (_ & Horder & _).
  exact (proj1 (Horder "t" [3; 1; 2] [1; 2; 3] (sample_world [] []) Hperm)).
Defined.

(** ** C4: counting and the threshold *)

Lemma trades_of_count_trade (st : stats) (market_type symbol : string) :
  trades_of (count_trade market_type symbol st) market_type symbol
  = trades_of st market_type symbol + 1
  ∧ (∀ mk sy,
       (String.eqb mk "SPOT", sy) ≠ (String.eqb market_type "SPOT", symbol) →
       trades_of (count_trade market_type symbol st) mk sy = trades_of st mk sy)
  ∧ total_trades (count_trade market_type symbol st) = total_trades st + 1.
Proof.
  unfold trades_of, count_trade, count_in. simpl.
  split_and!; [| |reflexivity].
  - destruct (String.eqb market_type "SPOT"); now rewrite lookup_insert_eq.
  - intros mk sy Hne.
    destruct (String.eqb market_type "SPOT"), (String.eqb mk "SPOT");
      try reflexivity;
      (rewrite lookup_insert_ne; [reflexivity|congruence]).
Qed.



Section ClassifierProperties.

Variable json_loads : string → option json.
Variable local_time : Q → option string.


Lemma decode_fields (message : string) (trade_data : json)
    (price quantity : pyfloat) :
  decode json_loads message = Some (trade_data, price, quantity) →
  getitem trade_data "p" ≫= py_float = Some price
  ∧ getitem trade_data "q" ≫= py_float = Some quantity.
Proof.
  unfold decode.
  destruct (json_loads message) as [td|]; simpl; [|discriminate].
  destruct (getitem td "p" ≫= py_float) as [p|] eqn:Hp; simpl;
    [|discriminate].
  destruct (getitem td "q" ≫= py_float) as [q|] eqn:Hq; simpl;
    [|discriminate].
  intros [= <- <- <-]. now split.
Qed.


(** What [classify] returns for a message whose price and quantity are
    read: the trade is counted; the text, if any, is that of
    [format_trade_message]; an error is logged when the threshold is
    reached and the text cannot be made. *)
Lemma classify_decoded (message market_type symbol : string) (w : world)
    (trade_data : json) (price quantity : pyfloat) :
  decode json_loads message = Some (trade_data, price, quantity) →
  let counted :=
    with_mon (fun m => set_stats (count_trade market_type symbol (mstats m)) m)
             w in
  classify json_loads local_time message market_type symbol w
  = if float_ge (float_mul price quantity) (min_amount (mon w)) then
      match format_trade_message local_time (mon w) trade_data
                                 market_type symbol with
      | Some text => (counted, Some text)
      | None => (log (LogTradeError market_type symbol) counted, None)
      end
    else (counted, None).
Proof.
  intros Hd. cbn zeta. unfold classify. rewrite Hd. reflexivity.
Qed.


End ClassifierProperties.


(** ** C5: the text of the alert *)

Lemma append_cons (c : ascii) (a b : string) :
  String c a +:+ b = String c (a +:+ b).
Proof. reflexivity. Qed.

Lemma append_nil (b : string) : "" +:+ b = b.
Proof. reflexivity. Qed.



Lemma prefix_append (x b : string) : String.prefix x (x +:+ b) = true.
Proof.
  induction x as [|c x IH]; [now destruct b|].
  rewrite append_cons. simpl.
  destruct (ascii_dec c c); [exact IH|congruence].
Qed.

Lemma contains_append (x a b : string) : contains x (a +:+ x +:+ b) = true.
Proof.
  induction a as [|c a IH].
  - rewrite append_nil. pose proof (prefix_append x b) as Hp.
    destruct (x +:+ b); unfold contains; fold contains; now rewrite Hp.
  - rewrite append_cons. simpl. rewrite IH. apply orb_true_r.
Qed.









Section AlertText.

Variable json_loads : string → option json.
Variable local_time : Q → option string.




End AlertText.


(** ** C6: the delay before reconnecting *)

Lemma sleeps_app (a b : list ws_action) : sleeps (a ++ b) = sleeps a ++ sleeps b.
Proof. apply omap_app. Qed.

Lemma handler_sleeps (cfg : config) (symbol market_type : string)
    (s : ws_state) (i : ws_input) :
  Forall (fun n => n = 5)
         (sleeps (snd (websocket_handler cfg symbol market_type s i))).
Proof. destruct s, i; simpl; repeat constructor. Qed.

(** C6, on the code: the handler sleeps 5 seconds after an exception
    whatever [RECONNECT_DELAY] is. With [RECONNECT_DELAY = 10] an exception
    while streaming is followed by a sleep of 5 seconds, not 10, and then
    by a new connection; and every sleep of every run is of 5 seconds. *)
Theorem C6_backoff_ignores_config :
  let cfg := with_reconnect_delay 10 shipped_config in
  RECONNECT_DELAY cfg = 10
  ∧ ws_run cfg "btcusdt" "SPOT" WsStreaming [InException; InWoke]
    = (WsConnecting,
       [ActLog (LogWsError "SPOT" "btcusdt"); ActSleep 5;
        ActConnect "wss://stream.binance.com:9443/ws/btcusdt@trade"])
  ∧ (∀ cfg' symbol market_type s inputs,
       Forall (fun n => n = 5)
              (sleeps (snd (ws_run cfg' symbol market_type s inputs)))).
Proof.
  split_and!; try reflexivity.
  intros cfg' symbol market_type s inputs. revert s.
  induction inputs as [|i inputs IH]; intros s; simpl; [constructor|].
  pose proof (handler_sleeps cfg' symbol market_type s i) as Hh.
  destruct (websocket_handler cfg' symbol market_type s i) as [s1 acts].
  specialize (IH s1).
  destruct (ws_run cfg' symbol market_type s1 inputs) as [s2 acts'].
  simpl in *. rewrite sleeps_app. now apply Forall_app.
Qed.

(** ** C9 and C10: passes in flight *)

Section TaskProperties.

Variable json_loads : string → option json.
Variable local_time : Q → option string.

(** The classifier touches the statistics and the log only. *)
Lemma classify_keeps (message market_type symbol : string) (w : world) :
  let w' := fst (classify json_loads local_time message market_type symbol w) in
  subscribed_users (mon w') = subscribed_users (mon w)
  ∧ notification_timestamps (mon w') = notification_timestamps (mon w)
  ∧ notification_settings (mon w') = notification_settings (mon w)
  ∧ disk w' = disk w
  ∧ (is_Some (snd (classify json_loads local_time message market_type
                            symbol w)) → trace w' = trace w).
Proof.
  cbn zeta. unfold classify.
  destruct (decode json_loads message) as [[[td p] q]|]; simpl.
  - destruct (float_ge _ _); simpl.
    + destruct (format_trade_message _ _ _ _ _); simpl;
        split_and!; try reflexivity; now intros [? [=]].
    + split_and!; try reflexivity; now intros [? [=]].
  - split_and!; try reflexivity; now intros [? [=]].
Qed.

Lemma preconditions_users (t : Q) (w : world) :
  subscribed_users (mon (snd (preconditions t w))) = subscribed_users (mon w).
Proof.
  unfold preconditions. destruct (decide _); [reflexivity|].
  simpl. now destruct (_ <? _).
Qed.

Lemma run_cons (l : label) (ls : list label) (sys : system) :
  run json_loads local_time (l :: ls) sys
  = step json_loads local_time l sys ≫= run json_loads local_time ls.
Proof. reflexivity. Qed.

Lemma step_response (market_type symbol : string) (r : http_result)
    (fe : finish_env) (sys : system) (p : pass) :
  in_flight sys !! (market_type, symbol) = Some p →
  step json_loads local_time (Response market_type symbol r fe) sys
  = Some (advance fe market_type symbol
            {| pass_message := pass_message p;
               pass_locals :=
                 fst (deliver (pass_message p) (awaiting p) r
                              (pass_locals p) (shared sys));
               si_used := si_used p; si_pos := si_pos p;
               awaiting := awaiting p |}
            {| shared :=
                 snd (deliver (pass_message p) (awaiting p) r
                              (pass_locals p) (shared sys));
               in_flight := in_flight sys |}).
Proof.
  intros Hp. unfold step. rewrite Hp.
  now destruct (deliver _ _ _ _ _).
Qed.

(** The responses of the recipients still to visit, delivered to a pass
    that no other task disturbs, run the rest of the loop and the code
    after it. *)
Lemma run_responses (e : pass_env) (text market_type symbol : string)
    (rest done : list Z) (u : Z) (l : locals) (w : world) :
  elements (subscribed_users (mon w)) = done ++ u :: rest →
  run json_loads local_time
      (map (fun user_id =>
              Response market_type symbol (post e user_id) (fin e))
           (u :: rest))
      {| shared := w;
         in_flight :=
           {[ (market_type, symbol) :=
                {| pass_message := text; pass_locals := l;
                   si_used := size (subscribed_users (mon w));
                   si_pos := S (length done); awaiting := u |} ]} |}
  = Some (idle (after_loop (fin e)
                  (fst (delivery_loop text (post e) (u :: rest) l w))
                  (snd (delivery_loop text (post e) (u :: rest) l w)))).
Proof.
  revert done u l w.
  induction rest as [|u' rest IH]; intros done u l w Hel;
    cbn [map]; rewrite run_cons;
    rewrite (step_response _ _ _ _ _ _ (lookup_singleton_eq _ _));
    cbn [pass_message pass_locals awaiting si_used si_pos shared in_flight];
    pose proof (deliver_spec text u (post e u) l w) as Hd; cbn zeta in Hd;
    cbn [delivery_loop];
    destruct (deliver text u (post e u) l w) as [l1 w1];
    cbn [fst snd] in Hd |- *; destruct Hd as (Hmon & _);
    unfold advance, set_next;
    cbn [pass_message pass_locals awaiting si_used si_pos shared in_flight];
    rewrite Hmon, Nat.eqb_refl, Hel.
  - rewrite lookup_ge_None_2 by (rewrite length_app; simpl; lia).
    cbn [mbind option_bind run]. now rewrite delete_singleton_eq.
  - assert (Hlook : (done ++ u :: u' :: rest) !! S (length done) = Some u').
    { rewrite (cons_middle u done), app_assoc.
      rewrite lookup_app_r by (rewrite length_app; simpl; lia).
      rewrite length_app. simpl.
      now replace (S (length done) - (length done + 1))%nat with 0%nat by lia. }
    rewrite Hlook. cbn [mbind option_bind]. rewrite insert_singleton_eq.
    specialize (IH (done ++ [u]) u' l1 w1).
    rewrite Hmon, length_app in IH. simpl length in IH.
    replace (length done + 1)%nat with (S (length done)) in IH by lia.
    rewrite <- app_assoc in IH. simpl app in IH.
    apply IH. exact Hel.
Qed.

(** A handler that no other task disturbs does, step by step, what
    [handle_trade] does from call to return. *)
Lemma alone_is_sequential (e : pass_env) (message market_type symbol : string)
    (w : world) :
  run json_loads local_time (alone json_loads local_time e message
                                   market_type symbol w) (idle w)
  = Some (idle (handle_trade json_loads local_time e message market_type
                             symbol w)).
Proof.
  unfold alone, pass_starts, handle_trade.
  pose proof (classify_keeps message market_type symbol w) as Hk.
  cbn zeta in Hk. destruct Hk as (Hku & _).
  rewrite run_cons. unfold step. cbn [in_flight shared idle].
  rewrite lookup_empty.
  destruct (classify json_loads local_time message market_type symbol w)
    as [w1 [text|]]; simpl in Hku |- *; [|reflexivity].
  pose proof (preconditions_users (t_check e) w1) as Hpu.
  destruct (fst (preconditions (t_check e) w1)) eqn:Hgo.
  - destruct (preconditions_true _ _ Hgo) as (Hne & _ & Hw2).
    rewrite (send_unfold _ _ _ Hgo). cbn zeta.
    destruct (preconditions (t_check e) w1) as [go w2].
    simpl in Hgo, Hpu, Hw2. subst go. simpl.
    unfold advance, set_next. simpl. rewrite Nat.eqb_refl.
    rewrite <- Hku, <- Hpu.
    destruct (elements (subscribed_users (mon w2))) as [|u0 rest] eqn:Hel.
    + exfalso. apply Hne. rewrite <- Hpu.
      apply leibniz_equiv, elements_empty_inv. exact Hel.
    + simpl lookup. cbv iota. rewrite insert_empty.
      rewrite <- Hw2.
      exact (run_responses e text market_type symbol rest [] u0
               no_locals w2 Hel).
  - rewrite (send_dropped _ _ _ Hgo).
    destruct (preconditions (t_check e) w1) as [go w2].
    simpl in Hgo |- *. subst go. reflexivity.
Qed.

End TaskProperties.

Section PassProperties.

Variable json_loads : string → option json.
Variable local_time : Q → option string.

(** A step of a pass changes the registry only when it ends the pass, and
    then only by removals. *)
Lemma response_users (market_type symbol : string) (r : http_result)
    (fe : finish_env) (sys sys' : system) :
  step json_loads local_time (Response market_type symbol r fe) sys
  = Some sys' →
  (is_Some (in_flight sys' !! (market_type, symbol)) →
   subscribed_users (mon (shared sys')) = subscribed_users (mon (shared sys)))
  ∧ subscribed_users (mon (shared sys')) ⊆ subscribed_users (mon (shared sys)).
Proof.
  destruct (in_flight sys !! (market_type, symbol)) as [p|] eqn:Hp;
    [|unfold step; rewrite Hp; discriminate].
  rewrite (step_response _ _ _ _ _ _ _ _ Hp). intros [= <-].
  pose proof (deliver_spec (pass_message p) (awaiting p) r (pass_locals p)
                (shared sys)) as Hd.
  cbn zeta in Hd. destruct Hd as (Hmon & _).
  unfold advance. cbn [shared in_flight si_used si_pos pass_locals].
  destruct (set_next _ _ _); cbn [shared in_flight].
  - split; [|simpl; now rewrite Hmon].
    rewrite lookup_delete_eq. now intros [? [=]].
  - pose proof (after_loop_spec fe
                  (fst (deliver (pass_message p) (awaiting p) r
                                (pass_locals p) (shared sys)))
                  (snd (deliver (pass_message p) (awaiting p) r
                                (pass_locals p) (shared sys)))) as Ha.
    cbn zeta in Ha. destruct Ha as (Hu & _).
    split.
    + rewrite lookup_delete_eq. now intros [? [=]].
    + rewrite Hu, Hmon. intros u Hin.
      now apply elem_of_discard_all in Hin as [Hin _].
  - split; simpl; now rewrite Hmon.
Qed.

(** A handler that starts a pass and is left alone contacts the members
    of the registry, in the order of the table. *)
Lemma handle_trade_recipients (e : pass_env)
    (message market_type symbol : string) (w : world) :
  pass_starts json_loads local_time message market_type symbol (t_check e) w
  = true →
  recipients (trace (handle_trade json_loads local_time e message
                                  market_type symbol w))
  = recipients (trace w) ++ elements (subscribed_users (mon w)).
Proof.
  unfold pass_starts, handle_trade.
  pose proof (classify_keeps json_loads local_time message market_type
                symbol w) as Hk.
  cbn zeta in Hk. destruct Hk as (Hku & _ & _ & _ & Htr).
  destruct (classify json_loads local_time message market_type symbol w)
    as [w1 [text|]]; [|discriminate].
  simpl in Hku, Htr. intros Hgo.
  destruct (send_spec e text w1 Hgo)
    as (_ & _ & _ & _ & evs1 & evs2 & Htr' & Hrec & _ & Hrec2 & _).
  rewrite Htr', !recipients_app, Hrec, Hrec2, app_nil_r, Hku.
  rewrite Htr by eauto. reflexivity.
Qed.

End PassProperties.

(** The poller and the registry. *)

Lemma merge_updates_spec (updates : list update) (users : gset Z) (n : Z) :
  let users' := fst (fst (merge_updates updates users n)) in
  let n' := snd (fst (merge_updates updates users n)) in
  let raised := snd (merge_updates updates users n) in
  users ⊆ users'
  ∧ Z.of_nat (size users') = Z.of_nat (size users) + (n' - n)
  ∧ (∀ u, u ∈ users' → u ∈ users ∨ u ∈ update_ids updates)
  ∧ (forallb well_formed_update updates = true →
     raised = false ∧ users' = list_to_set (update_ids updates) ∪ users).
Proof.
  cbn zeta. revert users n.
  induction updates as [|[|[user_id|]] updates IH]; intros users n.
  - simpl. split_and!; [set_solver|lia|set_solver|].
    intros _. split; [reflexivity|set_solver].
  - simpl. exact (IH users n).
  - cbn [merge_updates update_ids omap forallb well_formed_update andb].
    destruct (decide (user_id ∈ users)) as [Hin|Hout].
    + destruct (IH users n) as (Hsub & Hsize & Hfrom & Hall).
      split_and!; [exact Hsub|exact Hsize| |].
      * intros u Hu. destruct (Hfrom u Hu); set_solver.
      * intros Hwf. destruct (Hall Hwf) as [Hr ->].
        split; [exact Hr|set_solver].
    + destruct (IH ({[user_id]} ∪ users) (n + 1))
        as (Hsub & Hsize & Hfrom & Hall).
      split_and!.
      * set_solver.
      * rewrite Hsize, size_union, size_singleton by set_solver. lia.
      * intros u Hu. destruct (Hfrom u Hu); set_solver.
      * intros Hwf. destruct (Hall Hwf) as [Hr ->].
        split; [exact Hr|set_solver].
  - simpl. split_and!; [set_solver|lia|set_solver|discriminate].
Qed.

Lemma poll_registry (result : list update) (fe : finish_env) (w : world) :
  forallb well_formed_update result = true →
  subscribed_users (mon (get_subscribed_users (Poll200 true result) fe w))
  = list_to_set (update_ids result) ∪ subscribed_users (mon w).
Proof.
  intros Hwf. unfold get_subscribed_users.
  pose proof (merge_updates_spec result (subscribed_users (mon w)) 0) as Hm.
  cbn zeta in Hm. destruct Hm as (_ & _ & _ & Hall).
  destruct (Hall Hwf) as [Hr Hu].
  destruct (merge_updates result (subscribed_users (mon w)) 0)
    as [[users new_users] raised].
  simpl in Hr, Hu. subst raised.
  destruct (0 <? new_users); [destruct (write fe)|]; simpl;
    destruct (decide _); exact Hu.
Qed.

Lemma poll_keeps (r : poll_result) (fe : finish_env) (w : world) :
  let w' := get_subscribed_users r fe w in
  notification_timestamps (mon w') = notification_timestamps (mon w)
  ∧ notification_settings (mon w') = notification_settings (mon w)
  ∧ mstats (mon w') = mstats (mon w).
Proof.
  cbn zeta. unfold get_subscribed_users.
  destruct r as [| |[|] result]; try (split_and!; reflexivity).
  destruct (merge_updates result (subscribed_users (mon w)) 0)
    as [[users new_users] raised].
  destruct raised; [split_and!; reflexivity|].
  destruct (0 <? new_users); [destruct (write fe)|]; simpl;
    destruct (decide _); split_and!; reflexivity.
Qed.

(** A poll starts no exchange with a recipient. *)
Lemma poll_recipients (r : poll_result) (fe : finish_env) (w : world) :
  recipients (trace (get_subscribed_users r fe w)) = recipients (trace w).
Proof.
  unfold get_subscribed_users.
  destruct r as [| |[|] result]; simpl; rewrite ?recipients_app, ?app_nil_r;
    try reflexivity.
  destruct (merge_updates result (subscribed_users (mon w)) 0)
    as [[users new_users] raised].
  destruct raised; simpl; rewrite ?recipients_app, ?app_nil_r;
    [reflexivity|].
  destruct (0 <? new_users); [destruct (write fe)|]; simpl;
    destruct (decide _); simpl; rewrite ?recipients_app; simpl;
    rewrite ?app_nil_r; reflexivity.
Qed.

Section LiveRegistry.

Variable json_loads : string → option json.
Variable local_time : Q → option string.

(** C9, on the code. The loop of a broadcast reads the registry itself,
    not a copy of it. Take a broadcast in flight whose loop is where the
    registry left it, and a poll of the inbox that finds a sender who is
    not registered. Before the poll the loop has the rest of the registry
    still to visit. The poll adds the sender to the registry and leaves
    the broadcast as it is, and from then on the next step of the loop
    raises. So the response that the broadcast awaits ends it: the
    exchange in hand is its last one, the error is logged by
    [handle_trade], and the monitor is left as the poll left it, with no
    removal and no accounting of the deliveries made. *)
Theorem C9_addition_aborts_pass (market_type symbol : string) (p : pass)
    (sys : system) (result : list update) (user_id : Z)
    (fe fe' : finish_env) (r : http_result) :
  in_flight sys !! (market_type, symbol) = Some p →
  size (subscribed_users (mon (shared sys))) = si_used p →
  forallb well_formed_update result = true →
  In user_id (update_ids result) →
  user_id ∉ subscribed_users (mon (shared sys)) →
  ∃ sys1 sys2,
    step json_loads local_time (Poll (Poll200 true result) fe) sys = Some sys1
    ∧ step json_loads local_time (Response market_type symbol r fe') sys1
      = Some sys2
    ∧ pending market_type symbol sys
      = Some (Some (drop (si_pos p)
                         (elements (subscribed_users (mon (shared sys))))))
    ∧ shared sys1 = get_subscribed_users (Poll200 true result) fe (shared sys)
    ∧ subscribed_users (mon (shared sys1))
      = list_to_set (update_ids result) ∪ subscribed_users (mon (shared sys))
    ∧ user_id ∈ subscribed_users (mon (shared sys1))
    ∧ in_flight sys1 = in_flight sys
    ∧ pending market_type symbol sys1 = Some None
    ∧ in_flight sys2 = delete (market_type, symbol) (in_flight sys)
    ∧ mon (shared sys2) = mon (shared sys1)
    ∧ recipients (trace (shared sys2))
      = recipients (trace (shared sys)) ++ [awaiting p]
    ∧ last (trace (shared sys2))
      = Some (EvLog (LogTradeError market_type symbol)).
Proof.
  intros Hp Hsize Hwf Hin Hnew.
  set (w1 := get_subscribed_users (Poll200 true result) fe (shared sys)).
  set (sys1 := {| shared := w1; in_flight := in_flight sys |}).
  pose proof (poll_registry result fe (shared sys) Hwf) as Hu. fold w1 in Hu.
  assert (Hmem : user_id ∈ subscribed_users (mon w1)).
  { rewrite Hu. apply elem_of_union_l, elem_of_list_to_set.
    now apply list_elem_of_In. }
  assert (Hgrown : size (subscribed_users (mon w1)) ≠ si_used p).
  { rewrite <- Hsize. intros Heq.
    assert (Hsub : subscribed_users (mon (shared sys))
                   ⊂ subscribed_users (mon w1)).
    { rewrite Hu. set_solver. }
    apply subset_size in Hsub. lia. }
  pose proof (deliver_spec (pass_message p) (awaiting p) r (pass_locals p) w1)
    as Hd.
  cbn zeta in Hd. destruct Hd as (Hmon & _ & _ & _ & evs & Htr & Hrec & _).
  exists sys1. eexists. split_and!.
  - reflexivity.
  - apply (step_response json_loads local_time market_type symbol r fe' sys1 p).
    exact Hp.
  - unfold pending, still_to_visit. rewrite Hp. simpl.
    now rewrite Hsize, Nat.eqb_refl.
  - reflexivity.
  - exact Hu.
  - exact Hmem.
  - reflexivity.
  - unfold pending, still_to_visit. simpl. rewrite Hp. simpl.
    apply Nat.eqb_neq in Hgrown. now rewrite Hgrown.
  - unfold advance, set_next.
    cbn [shared in_flight si_used si_pos pass_locals sys1]. rewrite Hmon.
    apply Nat.eqb_neq in Hgrown. now rewrite Hgrown.
  - unfold advance, set_next.
    cbn [shared in_flight si_used si_pos pass_locals sys1]. rewrite Hmon.
    apply Nat.eqb_neq in Hgrown. rewrite Hgrown. exact Hmon.
  - unfold advance, set_next.
    cbn [shared in_flight si_used si_pos pass_locals sys1]. rewrite Hmon.
    apply Nat.eqb_neq in Hgrown. rewrite Hgrown.
    unfold log, emit. cbn [shared trace].
    rewrite Htr, !recipients_app, Hrec. simpl. rewrite app_nil_r.
    unfold w1. now rewrite poll_recipients.
  - unfold advance, set_next.
    cbn [shared in_flight si_used si_pos pass_locals sys1]. rewrite Hmon.
    apply Nat.eqb_neq in Hgrown. rewrite Hgrown.
    simpl. apply last_snoc.
Qed.

End LiveRegistry.

(** The failing input of C9: the registry holds 101 and 102, a large trade
    starts a broadcast, which awaits the response of 101; a poll finds the
    new sender 103; the response of 101 arrives. The broadcast ends there:
    102, who is registered all along, is not contacted, and the sent
    counter and the window stay as they were. *)
Lemma C9_addition_aborts_pass_witness :
  ∃ sys p sys2,
    run sample_loads sample_local_time
        [FeedMessage "SPOT" "btcusdt" "big" 100 sample_finish]
        (idle (sample_world [101; 102] [])) = Some sys
    ∧ in_flight sys !! ("SPOT", "btcusdt") = Some p
    ∧ awaiting p = 101
    ∧ recipients (trace (shared sys)) = []
    ∧ run sample_loads sample_local_time
          [Poll (Poll200 true [UpdMessage (Some 103)]) sample_finish;
           Response "SPOT" "btcusdt" (HttpResponse 200 None) sample_finish]
          sys = Some sys2
    ∧ recipients (trace (shared sys2)) = [101]
    ∧ 102 ∈ subscribed_users (mon (shared sys2))
    ∧ 103 ∈ subscribed_users (mon (shared sys2))
    ∧ in_flight sys2 = ∅
    ∧ notifications_sent (mstats (mon (shared sys2))) = 0
    ∧ notification_timestamps (mon (shared sys2)) = []
    ∧ last (trace (shared sys2))
      = Some (EvLog (LogTradeError "SPOT" "btcusdt")).
Proof.
  pose (facts := fun sys : system =>
    (awaiting <$> in_flight sys !! ("SPOT", "btcusdt"),
     si_used <$> in_flight sys !! ("SPOT", "btcusdt"),
     size (subscribed_users (mon (shared sys))),
     recipients (trace (shared sys)),
     bool_decide (102 ∈ subscribed_users (mon (shared sys))),
     bool_decide (103 ∈ subscribed_users (mon (shared sys))),
     bool_decide (delete ("SPOT", "btcusdt") (in_flight sys) = ∅),
     notifications_sent (mstats (mon (shared sys))),
     notification_timestamps (mon (shared sys)))).
  assert (Hfacts :
    facts <$> run sample_loads sample_local_time
                  [FeedMessage "SPOT" "btcusdt" "big" 100 sample_finish]
                  (idle (sample_world [101; 102] []))
    = Some (Some 101, Some 2%nat, 2%nat, [], true, false, true, 0, []))
    by (vm_compute; reflexivity).
  destruct (run sample_loads sample_local_time
              [FeedMessage "SPOT" "btcusdt" "big" 100 sample_finish]
              (idle (sample_world [101; 102] []))) as [sys|];
    [|discriminate].
  injection Hfacts as Haw Hused Hsize Hrec0 H102 H103 Hdel Hsent Hwin.
  destruct (in_flight sys !! ("SPOT", "btcusdt")) as [p|] eqn:Hp;
    [|discriminate].
  injection Haw as Haw. injection Hused as Hused.
  apply bool_decide_eq_true in H102, Hdel.
  apply bool_decide_eq_false in H103.
  destruct (C9_addition_aborts_pass sample_loads sample_local_time
              "SPOT" "btcusdt" p sys [UpdMessage (Some 103)] 103
              sample_finish sample_finish (HttpResponse 200 None)
              Hp (eq_trans Hsize (eq_sym Hused)) eq_refl (or_introl eq_refl)
              H103)
    as (sys1 & sys2 & Hs1 & Hs2 & _ & Hw1 & Hu & Hmem & _ & _ & Hfl & Hmon
        & Hrec & Hlast).
  destruct (poll_keeps (Poll200 true [UpdMessage (Some 103)]) sample_finish
              (shared sys)) as (Hts & _ & Hst).
  exists sys, p, sys2. split_and!.
  - reflexivity.
  - exact Hp.
  - exact Haw.
  - exact Hrec0.
  - rewrite run_cons, Hs1. cbn [mbind option_bind].
    rewrite run_cons, Hs2. reflexivity.
  - now rewrite Hrec, Hrec0, Haw.
  - rewrite Hmon, Hu. now apply elem_of_union_r.
  - rewrite Hmon. exact Hmem.
  - now rewrite Hfl.
  - now rewrite Hmon, Hw1, Hst.
  - now rewrite Hmon, Hw1, Hts.
  - exact Hlast.
Defined.

(** C10, on the code: two passes in flight at once take the window past
    the maximum. With nine timestamps in a window limited to ten, both
    passes are admitted before either has appended its timestamp, and the
    window ends with eleven. *)
Theorem C10_window_exceeds_maximum :
  let w := sample_world [7] [91; 92; 93; 94; 95; 96; 97; 98; 99]%Q in
  window_bounded (mon w)
  ∧ max_per_minute (mon w) = 10
  ∧ ((fun sys => (length (notification_timestamps (mon (shared sys))),
                  max_per_minute (mon (shared sys)),
                  recipients (trace (shared sys))))
       <$> run sample_loads sample_local_time racing_passes (idle w))
    = Some (11%nat, 10, [7; 7]).
Proof.
  cbn zeta. split_and!.
  - unfold window_bounded. vm_compute. discriminate.
  - vm_compute. reflexivity.
  - vm_compute. reflexivity.
Qed.

(** * Further properties of the code *)

(** ** The limiter *)

Lemma recent_recent (now now' : Q) (window : list Q) :
  (now <= now')%Q → recent now' (recent now window) = recent now' window.
Proof.
  intros Hle. induction window as [|ts window IH]; simpl; [reflexivity|].
  destruct (Qltb (now - ts) 60) eqn:E; simpl.
  - destruct (Qltb (now' - ts) 60); now rewrite IH.
  - apply Qltb_ge in E.
    assert (E' : Qltb (now' - ts) 60 = false) by (apply Qltb_ge; lra).
    now rewrite E'.
Qed.

(** X1. Asking the limiter does not use up quota: a check at a later (or
    the same) time gives the same answer and leaves the same monitor
    whether or not an earlier check was made. *)
Theorem X1_check_is_free (now now' : Q) (m : monitor) :
  (now <= now')%Q →
  can_send_notification now' (snd (can_send_notification now m))
  = can_send_notification now' m.
Proof.
  intros Hle. unfold can_send_notification. simpl.
  rewrite (recent_recent _ _ _ Hle). reflexivity.
Qed.

Lemma X1_check_is_free_witness :
  let m := mon (sample_world [7] [41; 91; 92]%Q) in
  (100 <= 101)%Q
  ∧ can_send_notification 101 (snd (can_send_notification 100 m))
    = can_send_notification 101 m.
Proof.
  assert (Hle : (100 <= 101)%Q) by (vm_compute; discriminate).
  split; [exact Hle|].
  exact (X1_check_is_free 100 101 _ Hle).
Defined.

(** ** Passes that do not overlap *)

Lemma after_loop_settings (fe : finish_env) (l : locals) (w : world) :
  notification_settings (mon (after_loop fe l w))
  = notification_settings (mon w).
Proof.
  unfold after_loop.
  destruct (failed_users l); destruct (0 <? success_count l);
    try reflexivity; destruct (write fe); reflexivity.
Qed.

Lemma send_settings (e : pass_env) (message : string) (w : world) :
  notification_settings (mon (send_telegram_notification e message w))
  = notification_settings (mon w).
Proof.
  destruct (fst (preconditions (t_check e) w)) eqn:Hgo.
  - rewrite (send_unfold _ _ _ Hgo). cbn zeta. rewrite after_loop_settings.
    pose proof (delivery_loop_spec message (post e)
                  (elements (subscribed_users (mon w))) no_locals
                  (with_mon (set_timestamps
                     (recent (t_check e) (notification_timestamps (mon w)))) w))
      as Hl.
    cbn zeta in Hl. destruct Hl as (Hmon & _). now rewrite Hmon.
  - rewrite (send_dropped _ _ _ Hgo).
    now destruct (preconditions_false _ _ Hgo) as [[_ ->] | (_ & _ & ->)].
Qed.

Lemma send_window_bounded (e : pass_env) (message : string) (w : world) :
  window_bounded (mon w) →
  window_bounded (mon (send_telegram_notification e message w)).
Proof.
  unfold window_bounded, max_per_minute. rewrite send_settings.
  intros Hb.
  destruct (fst (preconditions (t_check e) w)) eqn:Hgo.
  - destruct (send_spec e message w Hgo) as (_ & _ & Hts & _).
    destruct (preconditions_true _ _ Hgo) as (_ & Hok & _).
    unfold can_send_notification in Hok. simpl in Hok.
    apply Z.ltb_lt in Hok. unfold max_per_minute in Hok. simpl in Hok.
    rewrite Hts, length_app.
    destruct (0 <? successes e w); simpl length; lia.
  - rewrite (send_dropped _ _ _ Hgo).
    destruct (preconditions_false _ _ Hgo) as [[_ ->] | (_ & _ & ->)]; simpl.
    + exact Hb.
    + pose proof (recent_length (t_check e) (notification_timestamps (mon w))).
      lia.
Qed.

Section Sequential.

Variable json_loads : string → option json.
Variable local_time : Q → option string.

(** X2. Run one after the other, the operations keep the window within the
    configured maximum: a broadcast, the handling of a trade and a poll of
    the inbox each leave it bounded if they find it bounded. *)
Theorem X2_window_bounded_without_overlap (e : pass_env)
    (message market_type symbol : string) (r : poll_result) (w : world) :
  window_bounded (mon w) →
  window_bounded (mon (send_telegram_notification e message w))
  ∧ window_bounded (mon (handle_trade json_loads local_time e message
                                      market_type symbol w))
  ∧ window_bounded (mon (get_subscribed_users r (fin e) w)).
Proof.
  intros Hb. split_and!.
  - now apply send_window_bounded.
  - unfold handle_trade.
    pose proof (classify_keeps json_loads local_time message market_type
                  symbol w) as Hk.
    cbn zeta in Hk. destruct Hk as (_ & Hts & Hset & _).
    destruct (classify json_loads local_time message market_type symbol w)
      as [w1 [text|]]; simpl in Hts, Hset.
    + apply send_window_bounded.
      unfold window_bounded, max_per_minute in *. now rewrite Hts, Hset.
    + unfold window_bounded, max_per_minute in *. now rewrite Hts, Hset.
  - destruct (poll_keeps r (fin e) w) as (Hts & Hset & _).
    unfold window_bounded, max_per_minute in *. now rewrite Hts, Hset.
Qed.

End Sequential.

Lemma X2_window_bounded_witness :
  let e := sample_env (fun _ => HttpResponse 200 None) in
  let w := sample_world [7] [91; 92; 93; 94; 95; 96; 97; 98; 99]%Q in
  window_bounded (mon w)
  ∧ window_bounded (mon (handle_trade sample_loads sample_local_time e "big"
                                      "SPOT" "btcusdt" w)).
Proof.
  cbn zeta.
  assert (Hb : window_bounded
                 (mon (sample_world [7]
                         [91; 92; 93; 94; 95; 96; 97; 98; 99]%Q)))
    by (unfold window_bounded; vm_compute; discriminate).
  split; [exact Hb|].
  exact (proj1 (proj2 (X2_window_bounded_without_overlap
                         sample_loads sample_local_time
                         (sample_env (fun _ => HttpResponse 200 None))
                         "big" "SPOT" "btcusdt" PollNot200 _ Hb))).
Defined.

(** ** A pass whose registry changes under it *)

Section Interrupted.

Variable json_loads : string → option json.
Variable local_time : Q → option string.

(** X3. When the size of the registry is no longer the one that the loop
    of a pass in flight started with, the next response ends the pass:
    the error is logged by [handle_trade], and the code after the loop is
    not run, so that nobody is removed, nothing is written and neither the
    sent counter nor the window records the deliveries already made. *)
Theorem X3_resized_registry_ends_pass (market_type symbol : string)
    (r : http_result) (fe : finish_env) (sys : system) (p : pass) :
  in_flight sys !! (market_type, symbol) = Some p →
  size (subscribed_users (mon (shared sys))) ≠ si_used p →
  ∃ sys',
    step json_loads local_time (Response market_type symbol r fe) sys
    = Some sys'
    ∧ in_flight sys' = delete (market_type, symbol) (in_flight sys)
    ∧ mon (shared sys') = mon (shared sys)
    ∧ disk (shared sys') = disk (shared sys)
    ∧ writes (trace (shared sys')) = writes (trace (shared sys))
    ∧ last (trace (shared sys')) = Some (EvLog (LogTradeError market_type symbol)).
Proof.
  intros Hp Hsize. eexists. split; [apply (step_response _ _ _ _ _ _ _ _ Hp)|].
  pose proof (deliver_spec (pass_message p) (awaiting p) r (pass_locals p)
                (shared sys)) as Hd.
  cbn zeta in Hd. destruct Hd as (Hmon & Hdisk & _ & _ & evs & Htr & _ & Hwr).
  unfold advance, set_next.
  cbn [shared in_flight si_used si_pos pass_locals]. rewrite Hmon.
  apply Nat.eqb_neq in Hsize. rewrite Hsize.
  cbn [shared in_flight]. split_and!.
  - reflexivity.
  - exact Hmon.
  - exact Hdisk.
  - unfold log, emit. cbn [trace]. rewrite Htr, !writes_app, Hwr.
    unfold writes. simpl. lia.
  - simpl. apply last_snoc.
Qed.

End Interrupted.

Lemma X3_resized_registry_witness :
  ∃ sys p,
    run sample_loads sample_local_time (take 2 addition_mid_pass)
        (idle (sample_world [7; 8] [])) = Some sys
    ∧ in_flight sys !! ("SPOT", "btcusdt") = Some p
    ∧ size (subscribed_users (mon (shared sys))) ≠ si_used p
    ∧ ∃ sys',
        step sample_loads sample_local_time
             (Response "SPOT" "btcusdt" (HttpResponse 403 (Some "Forbidden"))
                       sample_finish) sys = Some sys'
        ∧ mon (shared sys') = mon (shared sys).
Proof.
  destruct (run sample_loads sample_local_time (take 2 addition_mid_pass)
              (idle (sample_world [7; 8] []))) as [sys|] eqn:Hrun;
    [|vm_compute in Hrun; discriminate].
  destruct (in_flight sys !! ("SPOT", "btcusdt")) as [p|] eqn:Hp.
  - assert (Hsize : size (subscribed_users (mon (shared sys))) ≠ si_used p).
    { vm_compute in Hrun. injection Hrun as <-.
      vm_compute in Hp. injection Hp as <-. vm_compute. discriminate. }
    exists sys, p. split_and!; try reflexivity; try assumption.
    destruct (X3_resized_registry_ends_pass sample_loads sample_local_time
                "SPOT" "btcusdt" (HttpResponse 403 (Some "Forbidden"))
                sample_finish sys p Hp Hsize)
      as (sys' & Hstep & _ & Hmon & _).
    exists sys'. now split.
  - exfalso. vm_compute in Hrun. injection Hrun as <-.
    vm_compute in Hp. discriminate.
Defined.

(** ** The inbox poller *)

(** X4. A poll never removes a subscriber and touches nothing but the
    registry, the file and the log. A response other than a 200 with a
    true ['ok'] changes nothing (an exception is logged). A batch in which
    every message carries its sender adds exactly the senders; the file is
    written once, with the new registry, when at least one sender is new,
    and not at all otherwise. *)
Theorem X4_poll_merges_senders (r : poll_result) (fe : finish_env)
    (w : world) :
  let w' := get_subscribed_users r fe w in
  subscribed_users (mon w) ⊆ subscribed_users (mon w')
  ∧ mstats (mon w') = mstats (mon w)
  ∧ notification_timestamps (mon w') = notification_timestamps (mon w)
  ∧ recipients (trace w') = recipients (trace w)
  ∧ (match r with
     | Poll200 true result =>
         forallb well_formed_update result = true →
         subscribed_users (mon w')
         = list_to_set (update_ids result) ∪ subscribed_users (mon w)
         ∧ (subscribed_users (mon w') = subscribed_users (mon w) →
            writes (trace w') = writes (trace w) ∧ disk w' = disk w)
         ∧ (subscribed_users (mon w') ≠ subscribed_users (mon w) →
            writes (trace w') = S (writes (trace w))
            ∧ In (EvWriteFile (subscribers_data (now_iso fe) (mon w')))
                 (trace w'))
     | PollRaises => w' = log LogPollError w
     | _ => w' = w
     end).
Proof.
  cbn zeta. destruct (poll_keeps r fe w) as (Hts & _ & Hst).
  split_and!; try assumption.
  - unfold get_subscribed_users.
    destruct r as [| |[|] result]; try reflexivity.
    pose proof (merge_updates_spec result (subscribed_users (mon w)) 0) as Hm.
    cbn zeta in Hm. destruct Hm as (Hsub & _).
    destruct (merge_updates result (subscribed_users (mon w)) 0)
      as [[users new_users] raised]. simpl in Hsub.
    destruct raised; [exact Hsub|].
    destruct (0 <? new_users); [destruct (write fe)|]; simpl;
      destruct (decide _); exact Hsub.
  - unfold get_subscribed_users.
    destruct r as [| |[|] result]; try reflexivity.
    + simpl. now rewrite recipients_app, app_nil_r.
    + destruct (merge_updates result (subscribed_users (mon w)) 0)
        as [[users new_users] raised].
      destruct raised; [simpl; now rewrite recipients_app, app_nil_r|].
      destruct (0 <? new_users); [destruct (write fe)|]; simpl;
        destruct (decide _); simpl;
        rewrite ?recipients_app; simpl; now rewrite ?app_nil_r.
  - destruct r as [| |[|] result]; try reflexivity.
    intros Hwf. unfold get_subscribed_users.
    pose proof (merge_updates_spec result (subscribed_users (mon w)) 0) as Hm.
    cbn zeta in Hm. destruct Hm as (Hsub & Hsize & _ & Hall).
    destruct (Hall Hwf) as [Hr Hu]. clear Hall.
    destruct (merge_updates result (subscribed_users (mon w)) 0)
      as [[users new_users] raised].
    simpl in Hsub, Hsize, Hr, Hu. subst raised.
    destruct (0 <? new_users) eqn:Hnew.
    + apply Z.ltb_lt in Hnew.
      assert (Hne : users ≠ subscribed_users (mon w)).
      { intros Heq. rewrite Heq in Hsize. lia. }
      destruct (write fe); simpl; destruct (decide _); simpl;
        (split; [exact Hu|]); (split; [intros Heq; now destruct Hne|]);
        intros _; rewrite ?writes_app; unfold writes; simpl;
        (split; [lia|]); rewrite !in_app_iff; simpl; tauto.
    + apply Z.ltb_ge in Hnew.
      assert (Heq : users = subscribed_users (mon w)).
      { symmetry. apply set_subseteq_size_eq; [exact Hsub|lia]. }
      simpl; destruct (decide _); simpl;
        (split; [exact Hu|]);
        (split; [intros _; rewrite ?writes_app; unfold writes; simpl;
                 split; [lia|reflexivity]
                |intros Hne; now destruct Hne]).
Qed.

Lemma X4_poll_merges_senders_witness :
  let w := sample_world [7] [] in
  let w' := get_subscribed_users
              (Poll200 true [UpdOther; UpdMessage (Some 9); UpdMessage (Some 7)])
              sample_finish w in
  forallb well_formed_update
          [UpdOther; UpdMessage (Some 9); UpdMessage (Some 7)] = true
  ∧ subscribed_users (mon w')
    = list_to_set (update_ids [UpdOther; UpdMessage (Some 9); UpdMessage (Some 7)])
      ∪ subscribed_users (mon w).
Proof.
  cbn zeta. split; [reflexivity|].
  destruct (X4_poll_merges_senders
              (Poll200 true [UpdOther; UpdMessage (Some 9); UpdMessage (Some 7)])
              sample_finish (sample_world [7] [])) as (_ & _ & _ & _ & Hm).
  exact (proj1 (Hm eq_refl)).
Defined.

Lemma merge_updates_malformed (good rest : list update) (users : gset Z)
    (n : Z) :
  forallb well_formed_update good = true →
  merge_updates (good ++ UpdMessage None :: rest) users n
  = (fst (fst (merge_updates good users n)),
     snd (fst (merge_updates good users n)), true).
Proof.
  revert users n.
  induction good as [|[|[user_id|]] good IH]; intros users n Hwf.
  - reflexivity.
  - simpl. now apply IH.
  - cbn [app merge_updates]. destruct (decide _); now apply IH.
  - discriminate.
Qed.

(** X5. When an update of the batch has a message without a sender id, the
    loop stops there: the senders found before it are already in the
    registry, but the file is not written and keeps the older list; only an
    error is logged. *)
Theorem X5_malformed_update_skips_save (good rest : list update)
    (fe : finish_env) (w : world) :
  forallb well_formed_update good = true →
  let w' := get_subscribed_users
              (Poll200 true (good ++ UpdMessage None :: rest)) fe w in
  subscribed_users (mon w')
  = list_to_set (update_ids good) ∪ subscribed_users (mon w)
  ∧ disk w' = disk w
  ∧ trace w' = trace w ++ [EvLog LogPollError].
Proof.
  intros Hwf. cbn zeta. unfold get_subscribed_users.
  rewrite (merge_updates_malformed _ _ _ _ Hwf).
  pose proof (merge_updates_spec good (subscribed_users (mon w)) 0) as Hm.
  cbn zeta in Hm. destruct Hm as (_ & _ & _ & Hall).
  destruct (Hall Hwf) as [_ Hu]. simpl. now rewrite Hu.
Qed.

Lemma X5_malformed_update_witness :
  let w := sample_world [7] [] in
  let w' := get_subscribed_users
              (Poll200 true ([UpdMessage (Some 9)] ++ UpdMessage None :: []))
              sample_finish w in
  forallb well_formed_update [UpdMessage (Some 9)] = true
  ∧ 9 ∈ subscribed_users (mon w')
  ∧ disk w' = Some (sample_file [7]).
Proof.
  cbn zeta. split; [reflexivity|].
  destruct (X5_malformed_update_skips_save [UpdMessage (Some 9)] []
              sample_finish (sample_world [7] []) eq_refl) as (Hu & Hd & _).
  split.
  - rewrite Hu. apply elem_of_union_l. vm_compute. set_solver.
  - rewrite Hd. reflexivity.
Defined.

(** ** The registry and its file *)

(** X6. [add_subscriber] does nothing at all for an id that is already
    registered; for a new id it adds the id and writes the file once, and
    when the write succeeds the file loads back as the new registry; hence
    adding the same id twice is adding it once. *)
Theorem X6_add_subscriber (now_iso now_iso' : string)
    (wr wr' : write_outcome) (user_id : Z) (w : world) :
  let w' := add_subscriber now_iso wr user_id w in
  (user_id ∈ subscribed_users (mon w) → w' = w)
  ∧ (user_id ∉ subscribed_users (mon w) →
     subscribed_users (mon w') = {[user_id]} ∪ subscribed_users (mon w)
     ∧ writes (trace w') = S (writes (trace w))
     ∧ recipients (trace w') = recipients (trace w)
     ∧ (wr = WriteOk →
        subscribed_users (mon (load_subscribers w'))
        = subscribed_users (mon w')))
  ∧ add_subscriber now_iso' wr' user_id w' = w'.
Proof.
  cbn zeta. split_and!.
  - intros Hin. unfold add_subscriber. now destruct (decide _).
  - intros Hout. unfold add_subscriber.
    destruct (decide _) as [Hin|_]; [now destruct Hout|].
    unfold save_subscribers. destruct wr; simpl; split_and!;
      try reflexivity;
      try (rewrite ?writes_app; unfold writes; simpl; lia);
      try (rewrite ?recipients_app; simpl; now rewrite ?app_nil_r);
      try discriminate.
    intros _. unfold load_subscribers. simpl.
    apply list_to_set_elements_L.
  - unfold add_subscriber at 1.
    destruct (decide _) as [_|Hout]; [reflexivity|].
    destruct Hout. rewrite add_subscriber_users. set_solver.
Qed.

Lemma X6_add_subscriber_witness :
  let w := sample_world [7] [] in
  let w' := add_subscriber "t" WriteOk 9 w in
  (9 ∉ subscribed_users (mon w))
  ∧ subscribed_users (mon w') = {[9]} ∪ subscribed_users (mon w)
  ∧ subscribed_users (mon (load_subscribers w')) = subscribed_users (mon w').
Proof.
  cbn zeta.
  assert (Hout : 9 ∉ subscribed_users (mon (sample_world [7] []))).
  { vm_compute. set_solver. }
  split; [exact Hout|].
  destruct (X6_add_subscriber "t" "t" WriteOk WriteOk 9 (sample_world [7] []))
    as (_ & Hnew & _).
  destruct (Hnew Hout) as (Hu & _ & _ & Hload).
  split; [exact Hu|exact (Hload eq_refl)].
Defined.

(** X7. [load_subscribers] keeps the registry in memory when the file is
    missing or cannot be read; a file that parses replaces the registry by
    the set of the listed ids, so that repeated ids count once and a file
    without the ['subscribers'] key empties the registry. *)
Theorem X7_load_edge_cases (w : world) (r : subscribers_record) :
  mon (load_subscribers (set_disk None w)) = mon w
  ∧ mon (load_subscribers (set_disk (Some Unreadable) w)) = mon w
  ∧ (let users :=
       subscribed_users
         (mon (load_subscribers (set_disk (Some (JsonRecord r)) w))) in
     (∀ u, u ∈ users ↔ u ∈ default [] (rec_subscribers r))
     ∧ (size users <= length (default [] (rec_subscribers r)))%nat
     ∧ (rec_subscribers r = None → users = ∅))
  ∧ ∀ d, disk (load_subscribers (set_disk d w)) = d.
Proof.
  split_and!; try reflexivity.
  - cbn zeta. unfold load_subscribers. simpl. split_and!.
    + intros u. apply elem_of_list_to_set.
    + generalize (default [] (rec_subscribers r)). intros l.
      induction l as [|x l IH].
      * now rewrite list_to_set_nil, size_empty.
      * rewrite list_to_set_cons, size_union_alt, size_singleton.
        pose proof (subseteq_size (list_to_set l ∖ {[x]})
                      (list_to_set l : gset Z) ltac:(set_solver)).
        simpl. lia.
    + intros ->. reflexivity.
  - intros [[|r']|]; reflexivity.
Qed.

Lemma X7_load_edge_cases_witness :
  let r := {| rec_subscribers := None; rec_last_updated := "t";
              rec_total_count := 3 |} in
  rec_subscribers r = None
  ∧ subscribed_users
      (mon (load_subscribers
              (set_disk (Some (JsonRecord r)) (sample_world [7] [])))) = ∅.
Proof.
  cbn zeta. split; [reflexivity|].
  destruct (X7_load_edge_cases (sample_world [7] [])
              {| rec_subscribers := None; rec_last_updated := "t";
                 rec_total_count := 3 |}) as (_ & _ & (_ & _ & Hnone) & _).
  exact (Hnone eq_refl).
Defined.

(** ** The statistics *)

Lemma sum_values_insert_new (k : string) (v : Z) (d : gmap string Z) :
  d !! k = None → sum_values (<[k := v]> d) = v + sum_values d.
Proof.
  intros Hnone. unfold sum_values.
  apply (map_fold_insert_L (fun _ v acc => v + acc)); [|exact Hnone].
  intros; simpl; lia.
Qed.

Lemma sum_values_insert (k : string) (v : Z) (d : gmap string Z) :
  sum_values (<[k := v]> d) = v + sum_values d - default 0 (d !! k).
Proof.
  destruct (d !! k) as [old|] eqn:Hk; simpl.
  - assert (Hd : sum_values d = old + sum_values (delete k d)).
    { rewrite <- (sum_values_insert_new k old (delete k d))
        by apply lookup_delete_eq.
      now rewrite insert_delete_id. }
    rewrite <- (insert_delete_eq d k v).
    rewrite sum_values_insert_new by apply lookup_delete_eq.
    rewrite Hd. lia.
  - rewrite sum_values_insert_new by exact Hk. lia.
Qed.

Lemma sum_values_count_in (symbol : string) (d : gmap string Z) :
  sum_values (count_in symbol d) = sum_values d + 1.
Proof. unfold count_in. rewrite sum_values_insert. lia. Qed.

Lemma count_trade_consistent (market_type symbol : string) (st : stats) :
  stats_consistent st → stats_consistent (count_trade market_type symbol st).
Proof.
  unfold stats_consistent, count_trade. simpl. intros ->.
  destruct (String.eqb market_type "SPOT");
    rewrite sum_values_count_in; lia.
Qed.

Lemma stats_consistent_trades (st st' : stats) :
  total_trades st' = total_trades st →
  spot_trades st' = spot_trades st →
  futures_trades st' = futures_trades st →
  stats_consistent st → stats_consistent st'.
Proof. unfold stats_consistent. now intros -> -> ->. Qed.

Section Statistics.

Variable json_loads : string → option json.
Variable local_time : Q → option string.

Lemma classify_consistent (message market_type symbol : string) (w : world) :
  stats_consistent (mstats (mon w)) →
  stats_consistent
    (mstats (mon (fst (classify json_loads local_time message market_type
                                symbol w)))).
Proof.
  intros Hc. unfold classify.
  destruct (decode json_loads message) as [[[td p] q]|]; [|exact Hc].
  destruct (float_ge _ _); [destruct (format_trade_message _ _ _ _ _)|];
    simpl; now apply count_trade_consistent.
Qed.

Lemma advance_consistent (fe : finish_env) (market_type symbol : string)
    (p : pass) (sys : system) :
  stats_consistent (mstats (mon (shared sys))) →
  stats_consistent
    (mstats (mon (shared (advance fe market_type symbol p sys)))).
Proof.
  intros Hc. unfold advance. destruct (set_next _ _ _); simpl; try exact Hc.
  destruct (after_loop_spec fe (pass_locals p) (shared sys))
    as (_ & _ & _ & (Ht & Hs & Hf) & _).
  exact (stats_consistent_trades _ _ Ht Hs Hf Hc).
Qed.

Lemma step_consistent (l : label) (sys sys' : system) :
  step json_loads local_time l sys = Some sys' →
  stats_consistent (mstats (mon (shared sys))) →
  stats_consistent (mstats (mon (shared sys'))).
Proof.
  intros Hstep Hc. destruct l as [mk sy message t fe|mk sy r fe|r fe].
  - unfold step in Hstep.
    destruct (in_flight sys !! (mk, sy)); [discriminate|].
    pose proof (classify_consistent message mk sy (shared sys) Hc) as Hc1.
    destruct (classify json_loads local_time message mk sy (shared sys))
      as [w1 [text|]]; simpl in Hc1.
    + assert (Hc2 : stats_consistent
                      (mstats (mon (snd (preconditions t w1))))).
      { unfold preconditions. destruct (decide _); [exact Hc1|].
        simpl. now destruct (_ <? _). }
      destruct (preconditions t w1) as [[|] w2]; simpl in Hc2.
      * injection Hstep as <-. now apply advance_consistent.
      * injection Hstep as <-. exact Hc2.
    + injection Hstep as <-. exact Hc1.
  - destruct (in_flight sys !! (mk, sy)) as [p|] eqn:Hp;
      [|unfold step in Hstep; rewrite Hp in Hstep; discriminate].
    rewrite (step_response _ _ _ _ _ _ _ _ Hp) in Hstep.
    injection Hstep as <-. apply advance_consistent. simpl.
    destruct (deliver_spec (pass_message p) (awaiting p) r (pass_locals p)
                (shared sys)) as (Hmon & _).
    now rewrite Hmon.
  - injection Hstep as <-. simpl.
    destruct (poll_keeps r fe (shared sys)) as (_ & _ & Hst).
    now rewrite Hst.
Qed.

(** X8. The counters of [print_stats] add up: after [__init__], and after
    any sequence of steps of the handlers, the broadcasts and the poller,
    the total of the spot counters plus the total of the futures counters
    is the global trade counter. *)
Theorem X8_report_totals_add_up (cfg : config) (token : string)
    (min_amount now now' : Q) (found : option file_contents)
    (ls : list label) (sys : system) :
  run json_loads local_time ls
      (idle (BinanceMultiMonitor cfg token min_amount now found)) = Some sys →
  rep_total_spot (print_stats now' (mon (shared sys)))
  + rep_total_futures (print_stats now' (mon (shared sys)))
  = total_trades (mstats (mon (shared sys))).
Proof.
  intros Hrun. symmetry.
  change (stats_consistent (mstats (mon (shared sys)))).
  assert (Hinit : stats_consistent
            (mstats (mon (shared (idle (BinanceMultiMonitor cfg token
                                          min_amount now found)))))).
  { unfold BinanceMultiMonitor, load_subscribers. simpl.
    destruct found as [[|r]|]; reflexivity. }
  revert Hrun Hinit.
  generalize (idle (BinanceMultiMonitor cfg token min_amount now found)).
  induction ls as [|l ls IH]; intros sys0 Hrun Hinit.
  - injection Hrun as <-. exact Hinit.
  - rewrite run_cons in Hrun.
    destruct (step json_loads local_time l sys0) as [sys1|] eqn:Hstep;
      [|discriminate].
    simpl in Hrun. exact (IH _ Hrun (step_consistent _ _ _ Hstep Hinit)).
Qed.

End Statistics.

Lemma X8_report_totals_witness :
  ∃ sys,
    run sample_loads sample_local_time racing_passes
        (idle (BinanceMultiMonitor shipped_config "<token>" 1000000 0
                 (Some (sample_file [7])))) = Some sys
    ∧ rep_total_spot (print_stats 200 (mon (shared sys)))
      + rep_total_futures (print_stats 200 (mon (shared sys)))
      = total_trades (mstats (mon (shared sys))).
Proof.
  destruct (run sample_loads sample_local_time racing_passes
              (idle (BinanceMultiMonitor shipped_config "<token>" 1000000 0
                       (Some (sample_file [7]))))) as [sys|] eqn:Hrun;
    [|vm_compute in Hrun; discriminate].
  exists sys. split; [reflexivity|].
  exact (X8_report_totals_add_up sample_loads sample_local_time
           shipped_config "<token>" 1000000 0 200 (Some (sample_file [7]))
           racing_passes sys Hrun).
Defined.

(** ** Trades that are counted but not announced *)

Section Timeless.

Variable json_loads : string → option json.
Variable local_time : Q → option string.

(** X9. A message whose price and quantity decode but which is not decoded
    in full, because its event time cannot be rendered (the key ['T'] is
    missing, its value is not a number, or the time is out of range), is
    counted like any trade; when
    its notional, the float product of the price and the quantity, does
    not reach the threshold, nothing else happens, and when it does the
    alert cannot be formatted, so that an error is logged and nothing is
    broadcast. *)
Theorem X9_trade_without_event_time (e : pass_env)
    (message market_type symbol : string) (w : world) (trade_data : json)
    (price quantity : pyfloat) :
  decode json_loads message = Some (trade_data, price, quantity) →
  trade_event json_loads local_time message = None →
  let counted :=
    with_mon (fun m => set_stats (count_trade market_type symbol (mstats m)) m)
             w in
  let w' := handle_trade json_loads local_time e message market_type symbol w in
  (float_ge (float_mul price quantity) (min_amount (mon w)) = false →
   w' = counted)
  ∧ (float_ge (float_mul price quantity) (min_amount (mon w)) = true →
     w' = log (LogTradeError market_type symbol) counted)
  ∧ total_trades (mstats (mon w')) = total_trades (mstats (mon w)) + 1
  ∧ recipients (trace w') = recipients (trace w).
Proof.
  intros Hd HT. cbn zeta.
  destruct (decode_fields json_loads _ _ _ _ Hd) as [Hp Hq].
  assert (Hfmt : ∀ m, format_trade_message local_time m trade_data
                        market_type symbol = None).
  { intros m. unfold trade_event in HT. rewrite Hd in HT. simpl in HT.
    unfold format_trade_message. rewrite Hp. simpl. rewrite Hq. simpl.
    destruct (getitem trade_data "T" ≫= div_1000) as [t|]; simpl in *;
      [|reflexivity].
    now destruct (fromtimestamp local_time t). }
  unfold handle_trade.
  rewrite (classify_decoded _ _ _ _ _ _ _ _ _ Hd), Hfmt.
  destruct (float_ge (float_mul price quantity) (min_amount (mon w)))
    eqn:Hcmp; simpl.
  - split_and!; try reflexivity; try discriminate.
    now rewrite recipients_app, app_nil_r.
  - split_and!; try reflexivity; discriminate.
Qed.

End Timeless.

(** The trade of [timeless_trade] reaches the threshold; the one of
    [rounded_timeless_trade] does so by the rounding of its price, which
    is read as 1000000.0. Both are counted, logged as errors and not
    announced. *)
Lemma X9_trade_without_event_time_witness :
  let e := sample_env (fun _ => HttpResponse 200 None) in
  let w := sample_world [7] [] in
  let w' := handle_trade timeless_loads sample_local_time e "timeless"
                         "SPOT" "btcusdt" w in
  let w'' := handle_trade timeless_loads sample_local_time e "rounded"
                          "SPOT" "btcusdt" w in
  (decode timeless_loads "timeless"
   = Some (timeless_trade, PyNum false 50000, PyNum false 25)
   ∧ total_trades (mstats (mon w')) = total_trades (mstats (mon w)) + 1
   ∧ recipients (trace w') = recipients (trace w)
   ∧ last (trace w') = Some (EvLog (LogTradeError "SPOT" "btcusdt")))
  ∧ (decode timeless_loads "rounded"
     = Some (rounded_timeless_trade, PyNum false 1000000, PyNum false 1)
     ∧ total_trades (mstats (mon w'')) = total_trades (mstats (mon w)) + 1
     ∧ recipients (trace w'') = recipients (trace w)
     ∧ last (trace w'') = Some (EvLog (LogTradeError "SPOT" "btcusdt"))).
Proof.
  cbn zeta.
  assert (Hd : decode timeless_loads "timeless"
               = Some (timeless_trade, PyNum false 50000, PyNum false 25))
    by (vm_compute; reflexivity).
  assert (Hd' : decode timeless_loads "rounded"
                = Some (rounded_timeless_trade, PyNum false 1000000,
                        PyNum false 1))
    by (vm_compute; reflexivity).
  destruct (X9_trade_without_event_time timeless_loads sample_local_time
              (sample_env (fun _ => HttpResponse 200 None))
              "timeless" "SPOT" "btcusdt" (sample_world [7] []) _ _ _ Hd
              eq_refl) as (_ & Hlog & Ht & Hr).
  destruct (X9_trade_without_event_time timeless_loads sample_local_time
              (sample_env (fun _ => HttpResponse 200 None))
              "rounded" "SPOT" "btcusdt" (sample_world [7] []) _ _ _ Hd'
              eq_refl) as (_ & Hlog' & Ht' & Hr').
  split_and!; try assumption.
  - rewrite Hlog by (vm_compute; reflexivity). apply last_snoc.
  - rewrite Hlog' by (vm_compute; reflexivity). apply last_snoc.
Defined.

(** ** Rounding in the amount *)

Lemma round_half_even_near (x : Q) (k : Z) :
  (inject_Z k - (1 # 2) < x)%Q → (x < inject_Z k + (1 # 2))%Q →
  round_half_even x = k.
Proof.
  destruct x as [n d]. unfold Qlt, round_half_even. simpl.
  change (Z.pos (1 * 2)) with 2.
  intros Hlo Hhi.
  pose proof (Z.div_mod n (Z.pos d) ltac:(lia)) as Hdm.
  pose proof (Z.mod_pos_bound n (Z.pos d) ltac:(lia)) as Hr.
  set (q := n / Z.pos d) in *. set (r := n mod Z.pos d) in *.
  set (D := Z.pos d) in *. assert (HD : 0 < D) by (subst D; lia).
  clearbody q r D.
  assert (Hq1 : D * (2 * k - 1) < D * (2 * q + 2)) by lia.
  assert (Hq2 : D * (2 * q) < D * (2 * k + 1)) by lia.
  apply Z.mul_lt_mono_pos_l in Hq1, Hq2; try exact HD.
  destruct (2 * r <? D) eqn:E1.
  - apply Z.ltb_lt in E1.
    assert (Hq3 : D * (2 * k - 1) < D * (2 * q + 1)) by lia.
    apply Z.mul_lt_mono_pos_l in Hq3; try exact HD. lia.
  - apply Z.ltb_ge in E1. destruct (D <? 2 * r) eqn:E2.
    + apply Z.ltb_lt in E2.
      assert (Hq3 : D * (2 * q + 1) < D * (2 * k + 1)) by lia.
      apply Z.mul_lt_mono_pos_l in Hq3; try exact HD. lia.
    + apply Z.ltb_ge in E2. exfalso.
      assert (Hq3 : D * (2 * q + 1) < D * (2 * k + 1)) by lia.
      assert (Hq4 : D * (2 * k - 1) < D * (2 * q + 1)) by lia.
      apply Z.mul_lt_mono_pos_l in Hq3, Hq4; try exact HD. lia.
Qed.

Lemma round_half_even_error (x : Q) :
  (inject_Z (round_half_even x) - (1 # 2) <= x)%Q
  ∧ (x <= inject_Z (round_half_even x) + (1 # 2))%Q.
Proof.
  destruct x as [n d]. unfold Qle, round_half_even. simpl.
  change (Z.pos (1 * 2)) with 2.
  pose proof (Z.div_mod n (Z.pos d) ltac:(lia)) as Hdm.
  pose proof (Z.mod_pos_bound n (Z.pos d) ltac:(lia)) as Hr.
  set (q := n / Z.pos d) in *. set (r := n mod Z.pos d) in *.
  set (D := Z.pos d) in *. clearbody q r D.
  destruct (2 * r <? D) eqn:E1.
  - apply Z.ltb_lt in E1. split; nia.
  - apply Z.ltb_ge in E1. destruct (D <? 2 * r) eqn:E2.
    + apply Z.ltb_lt in E2. split; nia.
    + apply Z.ltb_ge in E2. destruct (Z.even q); split; nia.
Qed.

(** [binade] finds the power of two at or below a number that is 1 or
    more. *)
Lemma binade_unique (x : Q) (e : Z) :
  0 <= e → (inject_Z (2 ^ e) <= x)%Q → (x < inject_Z (2 ^ (e + 1)))%Q →
  binade x = e.
Proof.
  destruct x as [n d]. unfold Qle, Qlt, binade. cbn [Qnum Qden inject_Z].
  intros He Hlo Hhi. rewrite !Z.mul_1_r in *.
  set (D := Z.pos d) in *. assert (HD : 0 < D) by (subst D; lia).
  assert (Hpe : 0 < 2 ^ e) by (apply Z.pow_pos_nonneg; lia).
  assert (Hn : 0 < n) by nia.
  pose proof (Z.log2_spec n Hn) as [Ha1 Ha2].
  pose proof (Z.log2_spec D HD) as [Hb1 Hb2].
  pose proof (Z.log2_nonneg n) as Ha0.
  pose proof (Z.log2_nonneg D) as Hb0.
  set (a := Z.log2 n) in *. set (b := Z.log2 D) in *.
  clearbody a b D.
  assert (Hlow : e + b < Z.succ a).
  { apply (Z.pow_lt_mono_r_iff 2); [lia|lia|].
    rewrite Z.pow_add_r by lia.
    apply Z.le_lt_trans with (2 ^ e * D); [|lia].
    apply Z.mul_le_mono_nonneg_l; lia. }
  assert (Hup : a < e + 1 + Z.succ b).
  { apply (Z.pow_lt_mono_r_iff 2); [lia|lia|].
    rewrite Z.pow_add_r by lia.
    apply Z.le_lt_trans with n; [exact Ha1|].
    apply Z.lt_trans with (2 ^ (e + 1) * D); [exact Hhi|].
    apply Z.mul_lt_mono_pos_l; [apply Z.pow_pos_nonneg; lia|exact Hb2]. }
  assert (Hk : a - b = e ∨ a - b = e + 1) by lia.
  destruct Hk as [Hk|Hk]; rewrite Hk.
  - assert (H0 : (0 <=? e) = true) by (apply Z.leb_le; lia).
    rewrite H0.
    assert (Ht : (n <? D * 2 ^ e) = false) by (apply Z.ltb_ge; lia).
    now rewrite Ht.
  - assert (H0 : (0 <=? e + 1) = true) by (apply Z.leb_le; lia).
    rewrite H0.
    assert (Ht : (n <? D * 2 ^ (e + 1)) = true) by (apply Z.ltb_lt; lia).
    rewrite Ht. lia.
Qed.

(** The quotient of the division by 1000 of a number from 512000 up to
    1024000 is within [2^-44] of the exact one. *)
Lemma thousands_near (amount : Q) :
  (512000 <= amount)%Q → (amount < 1024000)%Q →
  ∃ r, float_div_int (PyNum false amount) 1000 = PyNum false r
       ∧ (amount / 1000 - (1 # 17592186044416) <= r)%Q
       ∧ (r <= amount / 1000 + (1 # 17592186044416))%Q.
Proof.
  intros Hlo Hhi.
  set (x := (amount / inject_Z 1000)%Q).
  assert (Hx : (x == amount * (1 # 1000))%Q) by reflexivity.
  assert (Hb : binade x = 9).
  { apply binade_unique; [lia| |].
    - change (inject_Z (2 ^ 9)) with 512%Q. rewrite Hx. lra.
    - change (inject_Z (2 ^ (9 + 1))) with 1024%Q. rewrite Hx. lra. }
  assert (Hpos : Qle_bool x 0 = false).
  { destruct (Qle_bool x 0) eqn:E; [|reflexivity].
    apply Qle_bool_iff in E. rewrite Hx in E. lra. }
  unfold float_div_int, rounded, round64. fold x.
  rewrite Hpos. unfold ulp_exponent. rewrite Hb.
  change (Z.max 9 (-1022) - 52) with (-43).
  change ((971 <? -43) || (-43 =? 971) && _) with false.
  cbv iota. eexists. split; [reflexivity|].
  change (pow2 (- -43)) with 8796093022208%Q.
  change (pow2 (-43)) with (1 # 8796093022208)%Q.
  destruct (round_half_even_error (x * 8796093022208)) as [H1 H2].
  set (m := round_half_even (x * 8796093022208)) in *. clearbody m.
  rewrite Qred_correct.
  change (amount / 1000)%Q with x.
  rewrite Hx in H1, H2 |- *. split; lra.
Qed.

(** X10. A float amount from 999,951 up to, but not including, 1,000,000
    is still cut to thousands, and rounds up to four digits before the
    point: it is printed "$1000.0K". *)
Theorem X10_amount_just_below_a_million (amount : Q) :
  (999951 <= amount)%Q → (amount < 1000000)%Q →
  amount_str (PyNum false amount) = "$1000.0K".
Proof.
  intros Hlo Hhi.
  unfold amount_str, float_ge, float_value.
  assert (E1 : Qle_bool 1000000 amount = false).
  { destruct (Qle_bool 1000000 amount) eqn:E; [|reflexivity].
    apply Qle_bool_iff in E. lra. }
  assert (E2 : Qle_bool 1000 amount = true) by (apply Qle_bool_iff; lra).
  rewrite E1, E2.
  destruct (thousands_near amount) as (r & -> & Hr1 & Hr2); [lra|lra|].
  unfold format_f.
  assert (Hscaled : round_half_even (r * inject_Z (10 ^ Z.of_nat 1)) = 10000).
  { unfold Qdiv in Hr1, Hr2. change (/ 1000)%Q with (1 # 1000)%Q in Hr1, Hr2.
    apply round_half_even_near;
      change (inject_Z (10 ^ Z.of_nat 1)) with 10%Q;
      change (inject_Z 10000) with 10000%Q; lra. }
  rewrite Hscaled. vm_compute. reflexivity.
Qed.

Lemma X10_amount_just_below_witness :
  (999951 <= 999999)%Q ∧ (999999 < 1000000)%Q
  ∧ float_mul (PyNum false (5497552641321861 # 137438953472)) (PyNum false 25)
    = PyNum false 999999
  ∧ amount_str (PyNum false 999999) = "$1000.0K".
Proof.
  assert (H1 : (999951 <= 999999)%Q) by discriminate.
  assert (H2 : (999999 < 1000000)%Q) by reflexivity.
  split; [exact H1|]. split; [exact H2|].
  split; [vm_compute; reflexivity|].
  exact (X10_amount_just_below_a_million 999999 H1 H2).
Defined.

(** ** The case of the symbol *)

Lemma upper_char_idem (c : ascii) : upper_char (upper_char c) = upper_char c.
Proof. destruct c as [[] [] [] [] [] [] [] []]; reflexivity. Qed.

Lemma upper_idem (s : string) : upper (upper s) = upper s.
Proof.
  induction s as [|c s IH]; [reflexivity|].
  cbn [upper]. now rewrite upper_char_idem, IH.
Qed.

(** X11. The text of an alert does not depend on the case of the symbol,
    but the trade counters do: the symbol is uppercased wherever it is
    shown, and used as it is as the key of the counters. *)
Theorem X11_symbol_case (local_time : Q → option string) (m : monitor)
    (trade_data : json) (market_type symbol : string) (st : stats) :
  format_trade_message local_time m trade_data market_type (upper symbol)
  = format_trade_message local_time m trade_data market_type symbol
  ∧ get_asset_emoji m (upper symbol) = get_asset_emoji m symbol
  ∧ (upper symbol ≠ symbol →
     trades_of (count_trade market_type symbol st) market_type (upper symbol)
     = trades_of st market_type (upper symbol)).
Proof.
  split_and!.
  - unfold format_trade_message, message_text, trade_link, get_asset_emoji.
    now rewrite upper_idem.
  - unfold get_asset_emoji. now rewrite upper_idem.
  - intros Hne.
    destruct (trades_of_count_trade st market_type symbol) as (_ & Hothers & _).
    apply Hothers. congruence.
Qed.

Lemma X11_symbol_case_witness :
  upper "btcusdt" ≠ "btcusdt"
  ∧ trades_of (count_trade "SPOT" "btcusdt"
                 (mstats (mon (sample_world [7] []))))
              "SPOT" (upper "btcusdt")
    = trades_of (mstats (mon (sample_world [7] []))) "SPOT" (upper "btcusdt").
Proof.
  assert (Hne : upper "btcusdt" ≠ "btcusdt") by (vm_compute; discriminate).
  split; [exact Hne|].
  destruct (X11_symbol_case sample_local_time (mon (sample_world [7] []))
              sample_trade "SPOT" "btcusdt"
              (mstats (mon (sample_world [7] [])))) as (_ & _ & Hc).
  exact (Hc Hne).
Defined.

(** ** The feed connection handler *)

Lemma handled_app (a b : list ws_action) :
  handled (a ++ b) = handled a ++ handled b.
Proof. apply omap_app. Qed.

Lemma messages_app (a b : list ws_input) :
  messages (a ++ b) = messages a ++ messages b.
Proof. apply omap_app. Qed.

(** X12. The handler sleeps only after an exception, so that a stream that
    ends without one is reconnected at once; it passes to [handle_trade]
    only messages that it received, in the order of their arrival; and
    while the stream goes on it passes every one of them. *)
Theorem X12_handler_runs (cfg : config) (symbol market_type : string)
    (s : ws_state) (inputs : list ws_input) :
  let acts := snd (ws_run cfg symbol market_type s inputs) in
  (length (sleeps acts) <= length (List.filter is_exception inputs))%nat
  ∧ sublist (handled acts) (messages inputs)
  ∧ (s = WsStreaming → forallb is_message inputs = true →
     handled acts = messages inputs
     ∧ fst (ws_run cfg symbol market_type s inputs) = WsStreaming).
Proof.
  cbn zeta. revert s.
  induction inputs as [|i inputs IH]; intros s.
  - simpl. split_and!; [lia|constructor|]. intros -> _. now split.
  - cbn [ws_run].
    destruct (IH (fst (websocket_handler cfg symbol market_type s i)))
      as (IHs & IHh & IHm).
    assert (Hone :
      (length (sleeps (snd (websocket_handler cfg symbol market_type s i)))
       <= length (List.filter is_exception [i]))%nat
      ∧ sublist (handled (snd (websocket_handler cfg symbol market_type s i)))
                (messages [i])
      ∧ (s = WsStreaming → is_message i = true →
         handled (snd (websocket_handler cfg symbol market_type s i))
         = messages [i]
         ∧ fst (websocket_handler cfg symbol market_type s i) = WsStreaming)).
    { destruct s, i; simpl; split_and!; try lia; try discriminate;
        try (repeat constructor); try (intros _ _; now split). }
    destruct Hone as (Hs1 & Hh1 & Hm1).
    destruct (websocket_handler cfg symbol market_type s i) as [s1 acts1].
    cbn [fst snd] in *.
    destruct (ws_run cfg symbol market_type s1 inputs) as [s2 acts2].
    cbn [fst snd] in *. rewrite sleeps_app, handled_app, length_app.
    change (i :: inputs) with ([i] ++ inputs).
    rewrite messages_app, List.filter_app, length_app. split_and!.
    + lia.
    + now apply sublist_app.
    + intros Hst Hall. apply andb_prop in Hall as [Hi Hall].
      destruct (Hm1 Hst Hi) as [-> ->].
      destruct (IHm eq_refl Hall) as [-> ->]. now split.
Qed.

Lemma X12_handler_runs_witness :
  let run := ws_run shipped_config "btcusdt" "SPOT" WsStreaming
                    [InMessage "a"; InMessage "b"] in
  forallb is_message [InMessage "a"; InMessage "b"] = true
  ∧ handled (snd run) = ["a"; "b"] ∧ fst run = WsStreaming.
Proof.
  cbn zeta. split; [reflexivity|].
  destruct (X12_handler_runs shipped_config "btcusdt" "SPOT" WsStreaming
              [InMessage "a"; InMessage "b"]) as (_ & _ & Hm).
  exact (Hm eq_refl eq_refl).
Defined.

(** ** Start-up *)

Lemma feeds_filter (pairs : list string) (mk : string) :
  List.filter is_feed (map (fun s => TaskFeed s mk) pairs)
  = map (fun s => TaskFeed s mk) pairs.
Proof. induction pairs as [|p pairs IH]; simpl; [|rewrite IH]; reflexivity. Qed.

Lemma feeds_others (pairs : list string) (mk : string) :
  List.filter (fun t => negb (is_feed t)) (map (fun s => TaskFeed s mk) pairs)
  = [].
Proof. induction pairs as [|p pairs IH]; simpl; [|rewrite IH]; reflexivity. Qed.

Lemma feeds_In (pairs : list string) (mk symbol mk' : string) :
  In (TaskFeed symbol mk') (map (fun s => TaskFeed s mk) pairs)
  ↔ In symbol pairs ∧ mk' = mk.
Proof.
  rewrite in_map_iff. split.
  - intros (s & [= -> ->] & Hs). now split.
  - intros [Hs ->]. now exists symbol.
Qed.

Lemma feeds_NoDup (pairs : list string) (mk : string) :
  NoDup pairs → NoDup (map (fun s => TaskFeed s mk) pairs).
Proof.
  intros Hp. apply NoDup_fmap_2; [|exact Hp]. now intros s1 s2 [= ->].
Qed.

(** X13. [run] starts its tasks exactly when [getMe] answers 200 with a
    true ['ok'] and a ['result'] whose ['username'] can be read: it starts
    nothing after an exception or another status, after a 200 whose body is
    not ['ok'] (the test returns [None], which counts as a failure), and
    after a 200 with a true ['ok'] whose user name cannot be read (the
    [KeyError] is caught and the test returns [False]). When it starts, it
    starts one handler for every configured pair on every enabled market (a
    market is enabled unless its setting says otherwise), the statistics
    printer and the poller; with pairs that are all different, no two
    handlers share a pair and a market. *)
Theorem X13_tasks_started (r : getme_result) (m : monitor) :
  (py_truth (test_telegram_connection r) = true
   ↔ ∃ username, r = GetMeResponse 200 true (Some username))
  ∧ (py_truth (test_telegram_connection r) = false → run_tasks r m = [])
  ∧ (∀ username,
       test_telegram_connection (GetMeResponse 200 false username) = PyNone
       ∧ run_tasks (GetMeResponse 200 false username) m = [])
  ∧ (test_telegram_connection (GetMeResponse 200 true None) = PyFalse
     ∧ run_tasks (GetMeResponse 200 true None) m = [])
  ∧ (∀ username,
     let tasks := run_tasks (GetMeResponse 200 true (Some username)) m in
     (∀ symbol market_type,
        In (TaskFeed symbol market_type) tasks
        ↔ In symbol (trading_pairs m)
          ∧ ((market_type = "SPOT" ∧ enabled m "enable_spot" = true)
             ∨ (market_type = "FUTURES" ∧ enabled m "enable_futures" = true)))
     ∧ length (List.filter is_feed tasks)
       = ((if enabled m "enable_spot" then length (trading_pairs m) else 0)
          + (if enabled m "enable_futures" then length (trading_pairs m)
             else 0))%nat
     ∧ List.filter (fun t => negb (is_feed t)) tasks = [TaskStats; TaskPoller]
     ∧ (NoDup (trading_pairs m) → NoDup tasks)).
Proof.
  split_and!.
  - split.
    + destruct r as [|status ok username]; simpl; [discriminate|].
      destruct (status =? 200) eqn:Hs; [|discriminate].
      apply Z.eqb_eq in Hs. subst status.
      destruct ok; [|discriminate].
      destruct username as [username|]; [|discriminate].
      intros _. now exists username.
    + intros [username ->]. reflexivity.
  - unfold run_tasks. now intros ->.
  - intros username. split; reflexivity.
  - reflexivity.
  - reflexivity.
  - intros username.
    cbn zeta. unfold run_tasks. simpl.
    set (pairs := trading_pairs m).
    pose proof (feeds_filter pairs) as Hfeed.
    pose proof (feeds_others pairs) as Hother.
    pose proof (feeds_In pairs) as Hin.
    pose proof (feeds_NoDup pairs) as Hnd.
    split_and!.
    + intros symbol mk'. rewrite !in_app_iff.
      destruct (enabled m "enable_spot"), (enabled m "enable_futures");
        rewrite ?Hin; simpl; intuition (try discriminate; try congruence).
    + rewrite !List.filter_app, !length_app.
      destruct (enabled m "enable_spot"), (enabled m "enable_futures");
        rewrite ?Hfeed, ?length_map; simpl; lia.
    + rewrite !List.filter_app.
      destruct (enabled m "enable_spot"), (enabled m "enable_futures");
        rewrite ?Hother; reflexivity.
    + intros Hp.
      assert (Htail : NoDup [TaskStats; TaskPoller]).
      { repeat constructor; set_solver. }
      destruct (enabled m "enable_spot"), (enabled m "enable_futures");
        simpl; try exact Htail.
      * apply NoDup_app. split; [now apply Hnd|]. split.
        -- intros t Ht Ht'. apply list_elem_of_In in Ht, Ht'.
           apply in_app_iff in Ht' as [Ht'|Ht'].
           ++ apply in_map_iff in Ht as (s & <- & _).
              apply in_map_iff in Ht' as (s' & [=] & _).
           ++ apply in_map_iff in Ht as (s & <- & _).
              simpl in Ht'. intuition discriminate.
        -- apply NoDup_app. split; [now apply Hnd|]. split; [|exact Htail].
           intros t Ht Ht'. apply list_elem_of_In in Ht, Ht'.
           apply in_map_iff in Ht as (s & <- & _).
           simpl in Ht'. intuition discriminate.
      * apply NoDup_app. split; [now apply Hnd|]. split; [|exact Htail].
        intros t Ht Ht'. apply list_elem_of_In in Ht, Ht'.
        apply in_map_iff in Ht as (s & <- & _).
        simpl in Ht'. intuition discriminate.
      * apply NoDup_app. split; [now apply Hnd|]. split; [|exact Htail].
        intros t Ht Ht'. apply list_elem_of_In in Ht, Ht'.
        apply in_map_iff in Ht as (s & <- & _).
        simpl in Ht'. intuition discriminate.
Qed.

Lemma X13_tasks_started_witness :
  let m := mon (sample_world [7] []) in
  NoDup (trading_pairs m)
  ∧ NoDup (run_tasks (GetMeResponse 200 true (Some "monitor_bot")) m)
  ∧ length (List.filter is_feed
              (run_tasks (GetMeResponse 200 true (Some "monitor_bot")) m))
    = 34%nat.
Proof.
  cbn zeta.
  assert (Hp : NoDup (trading_pairs (mon (sample_world [7] [])))).
  { apply (bool_decide_unpack _). vm_compute. exact I. }
  split; [exact Hp|].
  destruct (X13_tasks_started GetMeRaises (mon (sample_world [7] [])))
    as (_ & _ & _ & _ & Hrun).
  destruct (Hrun "monitor_bot") as (_ & Hlen & _ & Hnd).
  split; [exact (Hnd Hp)|].
  rewrite Hlen. vm_compute. reflexivity.
Defined.

(** ** What a pass sends, and to whom *)

Lemma texts_app (tr1 tr2 : list event) :
  texts (tr1 ++ tr2) = texts tr1 ++ texts tr2.
Proof. apply omap_app. Qed.

Lemma texts_no_recipients (evs : list event) :
  recipients evs = [] → texts evs = [].
Proof.
  induction evs as [|[r|u t|r] evs IH]; simpl; try exact IH; try reflexivity.
  discriminate.
Qed.

Lemma deliver_texts (message : string) (user_id : Z) (r : http_result)
    (l : locals) (w : world) :
  ∃ evs, trace (snd (deliver message user_id r l w)) = trace w ++ evs
         ∧ recipients evs = [user_id] ∧ texts evs = [message].
Proof.
  unfold deliver. destruct r as [|status [body|]]; simpl;
    [|destruct (status =? 200); [|destruct (status =? 403)]
     |destruct (status =? 200)]; simpl;
    eexists; rewrite <- ?app_assoc; (split; [reflexivity|]); now split.
Qed.

Lemma delivery_loop_texts (message : string) (post : Z → http_result)
    (users : list Z) (l : locals) (w : world) :
  ∃ evs, trace (snd (delivery_loop message post users l w)) = trace w ++ evs
         ∧ recipients evs = users
         ∧ texts evs = map (fun _ => message) users.
Proof.
  revert l w. induction users as [|u users IH]; intros l w; simpl.
  - exists []. now rewrite app_nil_r.
  - destruct (deliver_texts message u (post u) l w) as (evs1 & Htr & Hr & Ht).
    destruct (deliver message u (post u) l w) as [l1 w1]. simpl in Htr.
    destruct (IH l1 w1) as (evs2 & Htr2 & Hr2 & Ht2).
    exists (evs1 ++ evs2).
    rewrite Htr2, Htr, <- app_assoc, recipients_app, texts_app, Hr, Ht, Hr2, Ht2.
    now split.
Qed.

(** X14. A broadcast whose preconditions hold and which runs from call to
    return with no other task running in between sends the same text to
    every member of the registry, once each: nobody is contacted twice,
    and nobody gets another text. (A broadcast during which another task
    resizes the registry ends early.) *)
Theorem X14_one_text_once_each (e : pass_env) (message : string) (w : world) :
  fst (preconditions (t_check e) w) = true →
  ∃ evs,
    trace (send_telegram_notification e message w) = trace w ++ evs
    ∧ recipients evs = elements (subscribed_users (mon w))
    ∧ NoDup (recipients evs)
    ∧ texts evs = map (fun _ => message) (elements (subscribed_users (mon w))).
Proof.
  intros Hgo. rewrite (send_unfold _ _ _ Hgo). cbn zeta.
  set (w0 := with_mon _ w).
  destruct (delivery_loop_texts message (post e)
              (elements (subscribed_users (mon w))) no_locals w0)
    as (evs1 & Htr1 & Hr1 & Ht1).
  destruct (after_loop_spec (fin e)
              (fst (delivery_loop message (post e)
                      (elements (subscribed_users (mon w))) no_locals w0))
              (snd (delivery_loop message (post e)
                      (elements (subscribed_users (mon w))) no_locals w0)))
    as (_ & _ & _ & _ & evs2 & Htr2 & Hr2 & _).
  exists (evs1 ++ evs2).
  rewrite Htr2, Htr1, <- app_assoc, recipients_app, texts_app, Hr1, Hr2, Ht1.
  rewrite (texts_no_recipients _ Hr2), !app_nil_r.
  split_and!; try reflexivity. apply NoDup_elements.
Qed.

Lemma X14_one_text_once_each_witness :
  let e := sample_env (fun _ => HttpResponse 200 None) in
  let w := sample_world [7; 8] [] in
  fst (preconditions (t_check e) w) = true
  ∧ ∃ evs, trace (send_telegram_notification e "alert" w) = trace w ++ evs
           ∧ recipients evs = elements (subscribed_users (mon w)).
Proof.
  cbn zeta.
  assert (Hgo : fst (preconditions
                       (t_check (sample_env (fun _ => HttpResponse 200 None)))
                       (sample_world [7; 8] [])) = true)
    by (vm_compute; reflexivity).
  split; [exact Hgo|].
  destruct (X14_one_text_once_each _ "alert" _ Hgo) as (evs & Htr & Hr & _).
  exists evs. now split.
Defined.

(** X15. Of two broadcasts that each run from call to return, the second
    right after the first with no other task running before, between or
    during them, the second does not contact a recipient whose exchange in
    the first came back as blocked, whatever the second broadcast is. (A
    first broadcast that is cut short removes nobody, and a poll between
    the two can register the recipient again.) *)
Theorem X15_blocked_not_contacted_again (e1 e2 : pass_env)
    (message1 message2 : string) (w : world) (u : Z) :
  fst (preconditions (t_check e1) w) = true →
  blocked (post e1 u) = true →
  let w1 := send_telegram_notification e1 message1 w in
  ∃ evs,
    trace (send_telegram_notification e2 message2 w1) = trace w1 ++ evs
    ∧ ¬ In u (recipients evs).
Proof.
  intros Hgo Hb. cbn zeta.
  destruct (send_spec e1 message1 w Hgo) as (Husers & _).
  set (w1 := send_telegram_notification e1 message1 w) in *.
  assert (Hout : u ∉ subscribed_users (mon w1)).
  { intros Hin. apply Husers in Hin as [_ Hnb]. congruence. }
  destruct (fst (preconditions (t_check e2) w1)) eqn:Hgo2.
  - destruct (send_spec e2 message2 w1 Hgo2)
      as (_ & _ & _ & _ & evs1 & evs2 & Htr & Hr & _ & Hr2 & _).
    exists (evs1 ++ evs2). split; [exact Htr|].
    rewrite recipients_app, Hr, Hr2, app_nil_r.
    rewrite <- list_elem_of_In, elem_of_elements. exact Hout.
  - rewrite (send_dropped _ _ _ Hgo2).
    destruct (preconditions_false _ _ Hgo2) as [[_ ->] | (_ & _ & ->)];
      simpl; eexists; (split; [reflexivity|]); simpl; tauto.
Qed.

Lemma X15_blocked_witness :
  let e := sample_env (fun u => HttpResponse (if u =? 8 then 403 else 200)
                                             (Some "Forbidden")) in
  let w := sample_world [7; 8] [] in
  let w1 := send_telegram_notification e "first" w in
  fst (preconditions (t_check e) w) = true
  ∧ blocked (post e 8) = true
  ∧ ∃ evs, trace (send_telegram_notification e "second" w1) = trace w1 ++ evs
           ∧ ¬ In 8 (recipients evs).
Proof.
  cbn zeta.
  set (e := sample_env _). set (w := sample_world _ _).
  assert (Hgo : fst (preconditions (t_check e) w) = true)
    by (vm_compute; reflexivity).
  assert (Hb : blocked (post e 8) = true) by reflexivity.
  split; [exact Hgo|]. split; [exact Hb|].
  exact (X15_blocked_not_contacted_again e e "first" "second" w 8 Hgo Hb).
Defined.

(** ** The file follows the registry *)

Lemma save_in_sync (now_iso : string) (w : world) :
  in_sync (save_subscribers now_iso WriteOk w).
Proof.
  eexists. split; [reflexivity|]. simpl. apply list_to_set_elements_L.
Qed.

Lemma in_sync_same (w w' : world) :
  disk w' = disk w →
  subscribed_users (mon w') = subscribed_users (mon w) →
  in_sync w → in_sync w'.
Proof. intros Hd Hu (r & Hr & Hs). exists r. now rewrite Hd, Hu. Qed.

(** X16. While the writes succeed, the file keeps listing exactly the
    registered ids: if it does before a broadcast, before a poll whose
    messages all carry their sender, or before [add_subscriber], it does
    afterwards; and it does after [__init__] has loaded a file that parses
    and has the ['subscribers'] key or not. *)
Theorem X16_file_follows_registry (e : pass_env) (message stamp : string)
    (result : list update) (user_id : Z) (w : world) :
  in_sync w →
  write (fin e) = WriteOk →
  forallb well_formed_update result = true →
  in_sync (send_telegram_notification e message w)
  ∧ in_sync (get_subscribed_users (Poll200 true result) (fin e) w)
  ∧ in_sync (add_subscriber stamp WriteOk user_id w)
  ∧ ∀ cfg token min_amount now r,
      in_sync (BinanceMultiMonitor cfg token min_amount now
                                   (Some (JsonRecord r))).
Proof.
  intros Hs Hw Hwf. split_and!.
  - destruct (fst (preconditions (t_check e) w)) eqn:Hgo.
    + rewrite (send_unfold _ _ _ Hgo). cbn zeta.
      set (w0 := with_mon _ w).
      pose proof (delivery_loop_spec message (post e)
                    (elements (subscribed_users (mon w))) no_locals w0) as Hl.
      cbn zeta in Hl. destruct Hl as (Hmon & Hdisk & _).
      set (lw := delivery_loop _ _ _ _ _) in *.
      assert (Hs1 : in_sync (snd lw)).
      { apply (in_sync_same w); [now rewrite Hdisk|now rewrite Hmon|exact Hs]. }
      unfold after_loop. rewrite Hw.
      destruct (failed_users (fst lw)) as [|f failed].
      * destruct (0 <? success_count (fst lw)); [|exact Hs1].
        now apply (in_sync_same (snd lw)).
      * set (w2 := with_mon _ (snd lw)).
        pose proof (save_in_sync (now_iso (fin e)) w2) as Hs2.
        destruct (0 <? success_count (fst lw)).
        -- eapply in_sync_same; [| |exact Hs2]; reflexivity.
        -- eapply in_sync_same; [| |exact Hs2]; reflexivity.
    + rewrite (send_dropped _ _ _ Hgo).
      destruct (preconditions_false _ _ Hgo) as [[_ ->] | (_ & _ & ->)];
        now apply (in_sync_same w).
  - unfold get_subscribed_users.
    pose proof (merge_updates_spec result (subscribed_users (mon w)) 0) as Hm.
    cbn zeta in Hm. destruct Hm as (Hsub & Hsize & _ & Hall).
    destruct (Hall Hwf) as [Hr _]. clear Hall.
    destruct (merge_updates result (subscribed_users (mon w)) 0)
      as [[users new_users] raised].
    simpl in Hsub, Hsize, Hr. subst raised.
    destruct (0 <? new_users) eqn:Hnew.
    + rewrite Hw.
      pose proof (save_in_sync (now_iso (fin e)) (with_mon (set_users users) w))
        as Hs2.
      destruct (decide _); (eapply in_sync_same; [| |exact Hs2]); reflexivity.
    + apply Z.ltb_ge in Hnew.
      assert (Heq : users = subscribed_users (mon w)).
      { symmetry. apply set_subseteq_size_eq; [exact Hsub|lia]. }
      destruct (decide _); (apply (in_sync_same w); [reflexivity| |exact Hs]);
        simpl; exact Heq.
  - unfold add_subscriber. destruct (decide _); [exact Hs|].
    eapply in_sync_same; [| |apply (save_in_sync stamp)]; reflexivity.
  - intros cfg token min_amount now r. exists r. now split.
Qed.

Lemma X16_file_follows_registry_witness :
  let e := sample_env (fun u => HttpResponse (if u =? 8 then 403 else 200)
                                             (Some "Forbidden")) in
  let w := sample_world [7; 8] [] in
  in_sync w ∧ in_sync (send_telegram_notification e "alert" w).
Proof.
  cbn zeta.
  set (e := sample_env _). set (w := sample_world _ _).
  assert (Hs : in_sync w).
  { eexists. split; [reflexivity|]. reflexivity. }
  split; [exact Hs|].
  exact (proj1 (X16_file_follows_registry e "alert" "t" [] 0 w Hs
                  eq_refl eq_refl)).
Defined.

(** ** How far overlapping passes can take the window *)

Section RaceBound.

Variable json_loads : string → option json.
Variable local_time : Q → option string.

Lemma preconditions_window (t : Q) (w : world) :
  let w' := snd (preconditions t w) in
  max_per_minute (mon w') = max_per_minute (mon w)
  ∧ (length (notification_timestamps (mon w'))
     <= length (notification_timestamps (mon w)))%nat
  ∧ (fst (preconditions t w) = true →
     Z.of_nat (length (notification_timestamps (mon w')))
     < max_per_minute (mon w)).
Proof.
  cbn zeta. destruct (fst (preconditions t w)) eqn:Hgo.
  - destruct (preconditions_true _ _ Hgo) as (_ & Hok & ->).
    unfold can_send_notification in Hok. simpl in Hok.
    apply Z.ltb_lt in Hok. simpl.
    split_and!; [reflexivity|apply recent_length|intros _; exact Hok].
  - destruct (preconditions_false _ _ Hgo) as [[_ ->] | (_ & _ & ->)]; simpl;
      (split_and!; [reflexivity| |discriminate]);
      [lia|apply recent_length].
Qed.

Lemma advance_race (fe : finish_env) (market_type symbol : string) (p : pass)
    (sys : system) (keys : gset (string * string)) (bound : Z) :
  (market_type, symbol) ∈ keys →
  dom (in_flight sys) ⊆ keys →
  Z.of_nat (length (notification_timestamps (mon (shared sys))))
  + Z.of_nat (size (<[(market_type, symbol) := p]> (in_flight sys)))
  <= bound →
  let sys' := advance fe market_type symbol p sys in
  max_per_minute (mon (shared sys')) = max_per_minute (mon (shared sys))
  ∧ dom (in_flight sys') ⊆ keys
  ∧ Z.of_nat (length (notification_timestamps (mon (shared sys'))))
    + Z.of_nat (size (in_flight sys')) <= bound.
Proof.
  intros Hkey Hdom Hb. cbn zeta. unfold advance.
  assert (Hdel : (size (delete (market_type, symbol) (in_flight sys)) + 1
                  = size (<[(market_type, symbol) := p]> (in_flight sys)))%nat).
  { rewrite <- (insert_delete_eq (in_flight sys)).
    rewrite map_size_insert_None by apply lookup_delete_eq. lia. }
  destruct (set_next _ _ _); cbn [shared in_flight].
  - split_and!; [reflexivity| |simpl; lia].
    rewrite dom_delete_L. set_solver.
  - destruct (after_loop_spec fe (pass_locals p) (shared sys))
      as (_ & _ & Hts & _).
    split_and!.
    + unfold max_per_minute. now rewrite after_loop_settings.
    + rewrite dom_delete_L. set_solver.
    + rewrite Hts, length_app.
      destruct (0 <? success_count (pass_locals p)); simpl length; lia.
  - split_and!; [reflexivity| |].
    + rewrite dom_insert_L. set_solver.
    + match goal with
      | |- context [size (<[_ := ?q]> _)] =>
          replace (size (<[(market_type, symbol) := q]> (in_flight sys)))
            with (size (<[(market_type, symbol) := p]> (in_flight sys)))
      end; [exact Hb|].
      rewrite <- (insert_delete_eq (in_flight sys) _ p).
      rewrite <- (insert_delete_eq (in_flight sys) (market_type, symbol)).
      now rewrite !map_size_insert_None by apply lookup_delete_eq.
Qed.

Lemma step_race (keys : gset (string * string)) (l : label)
    (sys sys' : system) :
  handler_keys [l] ⊆ keys →
  step json_loads local_time l sys = Some sys' →
  race_bounded keys (pred (size keys)) sys →
  race_bounded keys (pred (size keys)) sys'
  ∧ max_per_minute (mon (shared sys')) = max_per_minute (mon (shared sys)).
Proof.
  intros Hl Hstep (Hdom & Hb). unfold race_bounded.
  destruct l as [mk sy message t fe|mk sy r fe|r fe].
  - assert (Hkey : (mk, sy) ∈ keys).
    { apply Hl. unfold handler_keys. simpl. set_solver. }
    unfold step in Hstep.
    destruct (in_flight sys !! (mk, sy)) eqn:Hfree; [discriminate|].
    pose proof (classify_keeps json_loads local_time message mk sy
                  (shared sys)) as Hk.
    cbn zeta in Hk. destruct Hk as (_ & Hts & Hset & _).
    destruct (classify json_loads local_time message mk sy (shared sys))
      as [w1 [text|]]; simpl in Hts, Hset.
    + destruct (preconditions_window t w1) as (Hmax & Hlen & Hadm).
      destruct (preconditions t w1) as [[|] w2]; simpl in Hmax, Hlen, Hadm.
      * injection Hstep as <-.
        assert (Hmax1 : max_per_minute (mon w1)
                        = max_per_minute (mon (shared sys)))
          by (unfold max_per_minute; now rewrite Hset).
        assert (Hk : (size (in_flight sys) < size keys)%nat).
        { assert (Hsub : dom (in_flight sys) ⊆ keys ∖ {[(mk, sy)]}).
          { intros x Hx. apply elem_of_difference. split; [now apply Hdom|].
            intros Heq%elem_of_singleton. subst x.
            apply elem_of_dom in Hx as [? Hx]. congruence. }
          apply subseteq_size in Hsub. rewrite size_dom in Hsub.
          rewrite size_difference in Hsub by set_solver.
          rewrite size_singleton in Hsub.
          assert (Hone : ({[(mk, sy)]} : gset (string * string)) ⊆ keys)
            by set_solver.
          apply subseteq_size in Hone. rewrite size_singleton in Hone. lia. }
        match goal with
        | |- context [advance fe mk sy ?q ?s] =>
            destruct (advance_race fe mk sy q s keys
                        (max_per_minute (mon (shared sys))
                         + Z.of_nat (pred (size keys)))) as (Hm & Hd & Hbb)
        end; try assumption.
        -- cbn [shared in_flight].
           rewrite map_size_insert_None by exact Hfree.
           specialize (Hadm eq_refl). lia.
        -- cbn [shared] in Hm. rewrite Hm, Hmax, Hmax1.
           split; [split; [exact Hd|exact Hbb]|reflexivity].
      * injection Hstep as <-. cbn [shared in_flight].
        assert (Hmax1 : max_per_minute (mon w1)
                        = max_per_minute (mon (shared sys)))
          by (unfold max_per_minute; now rewrite Hset).
        rewrite Hmax, Hmax1. split; [split; [exact Hdom|]|reflexivity].
        rewrite Hts in Hlen. lia.
    + injection Hstep as <-. cbn [shared in_flight].
      assert (Hmax1 : max_per_minute (mon w1)
                      = max_per_minute (mon (shared sys)))
        by (unfold max_per_minute; now rewrite Hset).
      rewrite Hmax1, Hts. split; [split; [exact Hdom|exact Hb]|reflexivity].
  - destruct (in_flight sys !! (mk, sy)) as [p|] eqn:Hp;
      [|unfold step in Hstep; rewrite Hp in Hstep; discriminate].
    rewrite (step_response _ _ _ _ _ _ _ _ Hp) in Hstep.
    injection Hstep as <-.
    destruct (deliver_spec (pass_message p) (awaiting p) r (pass_locals p)
                (shared sys)) as (Hmon & _).
    assert (Hkey : (mk, sy) ∈ keys).
    { apply Hdom, elem_of_dom. eauto. }
    match goal with
    | |- context [advance fe mk sy ?q ?s] =>
        destruct (advance_race fe mk sy q s keys
                    (max_per_minute (mon (shared sys))
                     + Z.of_nat (pred (size keys)))) as (Hm & Hd & Hbb)
    end; try assumption.
    + cbn [shared in_flight]. rewrite Hmon.
      rewrite map_size_insert_Some by eauto. exact Hb.
    + cbn [shared] in Hm. rewrite Hmon in Hm. rewrite Hm.
      split; [split; [exact Hd|exact Hbb]|reflexivity].
  - injection Hstep as <-. cbn [shared in_flight].
    destruct (poll_keeps r fe (shared sys)) as (Hts & Hset & _).
    assert (Hmax1 : max_per_minute (mon (get_subscribed_users r fe (shared sys)))
                    = max_per_minute (mon (shared sys)))
      by (unfold max_per_minute; now rewrite Hset).
    rewrite Hmax1, Hts. split; [split; [exact Hdom|exact Hb]|reflexivity].
Qed.

Lemma run_race (keys : gset (string * string)) (ls : list label)
    (sys sys' : system) :
  handler_keys ls ⊆ keys →
  run json_loads local_time ls sys = Some sys' →
  race_bounded keys (pred (size keys)) sys →
  race_bounded keys (pred (size keys)) sys'
  ∧ max_per_minute (mon (shared sys')) = max_per_minute (mon (shared sys)).
Proof.
  revert sys. induction ls as [|l ls IH]; intros sys Hkeys Hrun Hb.
  - injection Hrun as <-. now split.
  - rewrite run_cons in Hrun.
    destruct (step json_loads local_time l sys) as [sys1|] eqn:Hstep;
      [|discriminate].
    simpl in Hrun.
    assert (Hl : handler_keys [l] ⊆ keys).
    { intros x Hx. apply Hkeys. unfold handler_keys in *.
      destruct l; simpl in *; set_solver. }
    assert (Hls : handler_keys ls ⊆ keys).
    { intros x Hx. apply Hkeys. unfold handler_keys in *.
      destruct l; simpl in *; set_solver. }
    destruct (step_race keys l sys sys1 Hl Hstep Hb) as [Hb1 Hm1].
    destruct (IH sys1 Hls Hrun Hb1) as [Hb2 Hm2].
    split; [exact Hb2|congruence].
Qed.

(** X17. Overlapping passes can take the window past the maximum, but not
    by more than the number of handlers minus one: starting from a window
    within the maximum, after any sequence of steps in which [n] different
    handlers receive messages, the length of the window plus the number of
    passes in flight is at most the maximum plus [n - 1]. A single handler
    therefore never exceeds the maximum. *)
Theorem X17_window_overshoot_bounded (ls : list label) (w : world)
    (sys : system) :
  window_bounded (mon w) →
  run json_loads local_time ls (idle w) = Some sys →
  Z.of_nat (length (notification_timestamps (mon (shared sys))))
  + Z.of_nat (size (in_flight sys))
  <= max_per_minute (mon w) + Z.of_nat (pred (size (handler_keys ls))).
Proof.
  intros Hw Hrun.
  destruct (run_race (handler_keys ls) ls (idle w) sys) as [[_ Hb] Hm];
    [reflexivity|exact Hrun| |].
  - split; [simpl; rewrite dom_empty_L; set_solver|].
    simpl. rewrite map_size_empty. unfold window_bounded in Hw. lia.
  - simpl in Hm. now rewrite <- Hm.
Qed.

End RaceBound.

Lemma X17_window_overshoot_witness :
  let w := sample_world [7] [91; 92; 93; 94; 95; 96; 97; 98; 99]%Q in
  window_bounded (mon w)
  ∧ ∃ sys, run sample_loads sample_local_time racing_passes (idle w) = Some sys
           ∧ Z.of_nat (length (notification_timestamps (mon (shared sys))))
             + Z.of_nat (size (in_flight sys))
             <= max_per_minute (mon w)
                + Z.of_nat (pred (size (handler_keys racing_passes))).
Proof.
  cbn zeta.
  set (w := sample_world _ _).
  assert (Hw : window_bounded (mon w))
    by (unfold window_bounded; vm_compute; discriminate).
  split; [exact Hw|].
  destruct (run sample_loads sample_local_time racing_passes (idle w))
    as [sys|] eqn:Hrun; [|vm_compute in Hrun; discriminate].
  exists sys. split; [reflexivity|].
  exact (X17_window_overshoot_bounded sample_loads sample_local_time
           racing_passes w sys Hw Hrun).
Defined.

(** ** New subscribers, and a restart *)

(** X18. A sender found by a poll is served by a broadcast that follows it:
    after a poll whose messages all carry their sender, a broadcast whose
    preconditions hold and which runs from call to return right after the
    poll, with no other task running in between, contacts every sender of
    the batch. *)
Theorem X18_new_subscriber_is_served (result : list update) (fe : finish_env)
    (e : pass_env) (message : string) (w : world) (user_id : Z) :
  forallb well_formed_update result = true →
  In user_id (update_ids result) →
  let w1 := get_subscribed_users (Poll200 true result) fe w in
  fst (preconditions (t_check e) w1) = true →
  ∃ evs, trace (send_telegram_notification e message w1) = trace w1 ++ evs
         ∧ In user_id (recipients evs).
Proof.
  intros Hwf Hin. cbn zeta. intros Hgo.
  pose proof (poll_registry result fe w Hwf) as Hu.
  destruct (send_spec e message _ Hgo)
    as (_ & _ & _ & _ & evs1 & evs2 & Htr & Hr & _).
  exists (evs1 ++ evs2). split; [exact Htr|].
  rewrite recipients_app, in_app_iff. left.
  rewrite Hr, <- list_elem_of_In, elem_of_elements, Hu.
  apply elem_of_union_l, elem_of_list_to_set, list_elem_of_In, Hin.
Qed.

Lemma X18_new_subscriber_witness :
  let e := sample_env (fun _ => HttpResponse 200 None) in
  let w1 := get_subscribed_users (Poll200 true [UpdMessage (Some 9)])
                                 sample_finish (sample_world [7] []) in
  forallb well_formed_update [UpdMessage (Some 9)] = true
  ∧ In 9 (update_ids [UpdMessage (Some 9)])
  ∧ fst (preconditions (t_check e) w1) = true
  ∧ ∃ evs, trace (send_telegram_notification e "alert" w1) = trace w1 ++ evs
           ∧ In 9 (recipients evs).
Proof.
  cbn zeta.
  assert (Hin : In 9 (update_ids [UpdMessage (Some 9)])) by (simpl; now left).
  assert (Hgo : fst (preconditions
                       (t_check (sample_env (fun _ => HttpResponse 200 None)))
                       (get_subscribed_users
                          (Poll200 true [UpdMessage (Some 9)])
                          sample_finish (sample_world [7] []))) = true)
    by (vm_compute; reflexivity).
  split; [reflexivity|]. split; [exact Hin|]. split; [exact Hgo|].
  exact (X18_new_subscriber_is_served [UpdMessage (Some 9)] sample_finish
           (sample_env (fun _ => HttpResponse 200 None)) "alert"
           (sample_world [7] []) 9 eq_refl Hin Hgo).
Defined.

(** X19. A restart keeps the registry and forgets the rest: a monitor built
    by [__init__] on the file left by a monitor whose file follows its
    registry has the same registry, but an empty window and counters at
    zero, so that the limiter admits again at once whenever the maximum is
    positive. *)
Theorem X19_restart (cfg : config) (token : string) (min_amount now t : Q)
    (w : world) :
  in_sync w →
  let w' := BinanceMultiMonitor cfg token min_amount now (disk w) in
  subscribed_users (mon w') = subscribed_users (mon w)
  ∧ in_sync w'
  ∧ notification_timestamps (mon w') = []
  ∧ total_trades (mstats (mon w')) = 0
  ∧ notifications_sent (mstats (mon w')) = 0
  ∧ (0 < max_per_minute (mon w') →
     fst (can_send_notification t (mon w')) = true).
Proof.
  intros (r & Hd & Hu). cbn zeta. rewrite Hd.
  unfold BinanceMultiMonitor, load_subscribers. simpl.
  split_and!; try reflexivity.
  - exact Hu.
  - exists r. now split.
  - intros Hmax. unfold can_send_notification. simpl.
    apply Z.ltb_lt. exact Hmax.
Qed.

Lemma X19_restart_witness :
  let w := sample_world [7; 8] [91; 92]%Q in
  let w' := BinanceMultiMonitor shipped_config "<token>" 1000000 200 (disk w) in
  in_sync w
  ∧ subscribed_users (mon w') = subscribed_users (mon w)
  ∧ notification_timestamps (mon w') = [].
Proof.
  cbn zeta.
  assert (Hs : in_sync (sample_world [7; 8] [91; 92]%Q)).
  { eexists. split; reflexivity. }
  split; [exact Hs|].
  destruct (X19_restart shipped_config "<token>" 1000000 200 200 _ Hs)
    as (Hu & _ & Hts & _).
  now split.
Defined.

(** ** The emoji of an asset *)

Lemma prefix_occurs (x s : string) :
  String.prefix x s = true → ∃ b, s = x +:+ b.
Proof.
  revert s. induction x as [|c x IH]; intros s Hp.
  - exists s. reflexivity.
  - destruct s as [|c' s]; [discriminate|]. simpl in Hp.
    destruct (ascii_dec c c') as [->|]; [|discriminate].
    destruct (IH s Hp) as [b ->]. exists b. reflexivity.
Qed.

Lemma contains_occurs (x s : string) : contains x s = true ↔ occurs x s.
Proof.
  split.
  - induction s as [|c s IH]; unfold contains; fold contains;
      intros [Hp|Hc]%orb_prop.
    + destruct (prefix_occurs _ _ Hp) as [b ->]. now exists "", b.
    + discriminate.
    + destruct (prefix_occurs _ _ Hp) as [b Hb]. exists "", b. exact Hb.
    + destruct (IH Hc) as (a & b & ->). exists (String c a), b. reflexivity.
  - intros (a & b & ->). apply contains_append.
Qed.

(** X20. [get_asset_emoji] returns the emoji of the first entry of the
    table, in the order of the table, whose asset occurs in the uppercased
    symbol, and the default emoji exactly when there is no such entry. *)
Theorem X20_first_matching_asset (m : monitor) (symbol : string) :
  ((∀ asset emoji, In (asset, emoji) (asset_emojis m) →
      ¬ occurs asset (upper symbol)) →
   get_asset_emoji m symbol = "💱")
  ∧ (∀ before asset emoji after,
       asset_emojis m = before ++ (asset, emoji) :: after →
       occurs asset (upper symbol) →
       (∀ asset' emoji', In (asset', emoji') before →
          ¬ occurs asset' (upper symbol)) →
       get_asset_emoji m symbol = emoji).
Proof.
  unfold get_asset_emoji. generalize (asset_emojis m). intros table. split.
  - induction table as [|[asset emoji] table IH]; intros Hnone; [reflexivity|].
    simpl. destruct (contains asset (upper symbol)) eqn:Hc.
    + apply contains_occurs in Hc.
      destruct (Hnone asset emoji (or_introl eq_refl) Hc).
    + apply IH. intros a e Hin. apply (Hnone a e). now right.
  - intros before. revert table.
    induction before as [|[a0 e0] before IH];
      intros table asset emoji after -> Hocc Hbefore; simpl.
    + apply contains_occurs in Hocc. now rewrite Hocc.
    + destruct (contains a0 (upper symbol)) eqn:Hc.
      * apply contains_occurs in Hc.
        destruct (Hbefore a0 e0 (or_introl eq_refl) Hc).
      * apply (IH _ asset emoji after eq_refl Hocc).
        intros a e Hin. apply (Hbefore a e). now right.
Qed.

Lemma X20_first_matching_witness :
  let m := mon (sample_world [7] []) in
  occurs "BTC" (upper "dogebtc")
  ∧ get_asset_emoji m "dogebtc" = "₿".
Proof.
  cbn zeta.
  assert (Hocc : occurs "BTC" (upper "dogebtc")).
  { exists "DOGE", "". reflexivity. }
  split; [exact Hocc|].
  destruct (X20_first_matching_asset (mon (sample_world [7] [])) "dogebtc")
    as [_ Hfirst].
  apply (Hfirst [("BCH", "🪙")] "BTC" "₿"
           (tl (tl (ASSET_EMOJIS shipped_config))) eq_refl Hocc).
  intros a e [[= <- <-]|[]]. intros Hc%contains_occurs.
  vm_compute in Hc. discriminate.
Defined.

(** ** A pass that is left alone *)

Section Undisturbed.

Variable json_loads : string → option json.
Variable local_time : Q → option string.

(** X21. A step of a pass that leaves it in flight leaves the registry as
    it is, and the step that ends it only removes members. A handler that
    no other task disturbs does, step by step, what [handle_trade] does
    from call to return; when it starts a pass, it contacts exactly the
    members that the registry had when the pass started, in the order in
    which the set yields them. *)
Theorem X21_undisturbed_pass :
  (∀ market_type symbol r fe sys sys',
     step json_loads local_time (Response market_type symbol r fe) sys
     = Some sys' →
     (is_Some (in_flight sys' !! (market_type, symbol)) →
      subscribed_users (mon (shared sys'))
      = subscribed_users (mon (shared sys)))
     ∧ subscribed_users (mon (shared sys'))
       ⊆ subscribed_users (mon (shared sys)))
  ∧ (∀ e message market_type symbol w,
       run json_loads local_time
           (alone json_loads local_time e message market_type symbol w)
           (idle w)
       = Some (idle (handle_trade json_loads local_time e message
                                  market_type symbol w)))
  ∧ (∀ e message market_type symbol w,
       pass_starts json_loads local_time message market_type symbol
                   (t_check e) w = true →
       recipients (trace (handle_trade json_loads local_time e message
                                       market_type symbol w))
       = recipients (trace w) ++ elements (subscribed_users (mon w))).
Proof.
  split_and!.
  - intros market_type symbol r fe sys sys'. apply response_users.
  - apply (alone_is_sequential json_loads local_time).
  - apply handle_trade_recipients.
Qed.

End Undisturbed.

Lemma X21_undisturbed_pass_witness :
  let e := sample_env (fun _ => HttpResponse 200 None) in
  let w := sample_world [7; 8] [] in
  pass_starts sample_loads sample_local_time "big" "SPOT" "btcusdt"
              (t_check e) w = true
  ∧ recipients (trace (handle_trade sample_loads sample_local_time e "big"
                                    "SPOT" "btcusdt" w))
    = recipients (trace w) ++ elements (subscribed_users (mon w)).
Proof.
  cbn zeta.
  assert (Hs : pass_starts sample_loads sample_local_time "big" "SPOT"
                 "btcusdt"
                 (t_check (sample_env (fun _ => HttpResponse 200 None)))
                 (sample_world [7; 8] []) = true)
    by (vm_compute; reflexivity).
  split; [exact Hs|].
  destruct (X21_undisturbed_pass sample_loads sample_local_time)
    as (_ & _ & Hrec).
  apply Hrec. exact Hs.
Defined.

(** ** Rounding, infinities and NaN *)

(** X22. The threshold test and the text of an alert follow the floats,
    not the decimals that the feed sends. The decimals 0.10608 and
    9426847.66214178 multiply to more than 1,000,000, their floats to
    999999.9999999999, and the trade is not announced; the decimals
    0.06725 and 14869888.47583643 multiply to less than 1,000,000, their
    floats to 1000000.0, and the trade is announced as "$1.00M". The
    amount 1,015,000 is shown as "$1.01M", the float quotient being below
    1.015; the price 0.00005 is shown as "0.0001" and the quantity
    0.0000025 as "0.000003", their floats being above the ties. *)
Theorem X22_amounts_are_rounded :
  let w := sample_world [7] [] in
  (∃ price quantity,
     decode rounding_loads "under"
     = Some (trade_with "0.10608" "9426847.66214178",
             PyNum false price, PyNum false quantity)
     ∧ (1000000 < (10608 # 100000) * (942684766214178 # 100000000))%Q
     ∧ float_mul (PyNum false price) (PyNum false quantity)
       = PyNum false (8589934591999999 # 8589934592)
     ∧ classify rounding_loads sample_local_time "under" "SPOT" "btcusdt" w
       = (with_mon (fun m =>
                      set_stats (count_trade "SPOT" "btcusdt" (mstats m)) m) w,
          None))
  ∧ (∃ price quantity text,
       decode rounding_loads "over"
       = Some (trade_with "0.06725" "14869888.47583643",
               PyNum false price, PyNum false quantity)
       ∧ ((6725 # 100000) * (1486988847583643 # 100000000) < 1000000)%Q
       ∧ float_mul (PyNum false price) (PyNum false quantity)
         = PyNum false 1000000
       ∧ snd (classify rounding_loads sample_local_time "over" "SPOT"
                       "btcusdt" w) = Some text
       ∧ contains "<b>$1.00M</b>" text = true)
  ∧ amount_str (float_mul (PyNum false 40600) (PyNum false 25)) = "$1.01M"
  ∧ format_f true 4 <$> float_of_string "0.00005" = Some "0.0001"
  ∧ format_f false 6 <$> float_of_string "0.0000025" = Some "0.000003".
Proof.
  cbn zeta. split_and!.
  - eexists _, _. split_and!.
    + vm_compute. reflexivity.
    + reflexivity.
    + vm_compute. reflexivity.
    + vm_compute. reflexivity.
  - eexists _, _, _. split_and!.
    + vm_compute. reflexivity.
    + reflexivity.
    + vm_compute. reflexivity.
    + vm_compute. reflexivity.
    + vm_compute. reflexivity.
  - vm_compute. reflexivity.
  - vm_compute. reflexivity.
  - vm_compute. reflexivity.
Qed.

Section NotANumber.

Variable json_loads : string → option json.
Variable local_time : Q → option string.

(** X23. [float] reads the spellings of NaN and of the infinities, and a
    number too large becomes an infinity. A trade whose notional is NaN is
    counted and never announced, whatever the threshold; an infinite
    positive notional reaches every threshold, and is shown as "$infM", an
    infinite price as "inf". *)
Theorem X23_not_a_number (e : pass_env) (message market_type symbol : string)
    (w : world) (trade_data : json) (price quantity : pyfloat) :
  decode json_loads message = Some (trade_data, price, quantity) →
  price = PyNan ∨ quantity = PyNan →
  handle_trade json_loads local_time e message market_type symbol w
  = with_mon (fun m => set_stats (count_trade market_type symbol (mstats m)) m)
             w
  ∧ float_of_string "nan" = Some PyNan
  ∧ float_of_string "NaN" = Some PyNan
  ∧ float_of_string "inf" = Some (PyInf false)
  ∧ float_of_string "-Infinity" = Some (PyInf true)
  ∧ float_of_string "1e400" = Some (PyInf false)
  ∧ (∀ threshold, float_ge PyNan threshold = false)
  ∧ (∀ threshold, float_ge (PyInf false) threshold = true)
  ∧ amount_str (PyInf false) = "$infM"
  ∧ (∀ grouping prec, format_f grouping prec (PyInf false) = "inf")
  ∧ (∀ grouping prec, format_f grouping prec PyNan = "nan").
Proof.
  intros Hd Hnan.
  assert (Hmul : float_mul price quantity = PyNan).
  { destruct Hnan as [-> | ->]; [reflexivity|].
    now destruct price as [|s|s m]. }
  split_and!; try reflexivity.
  - unfold handle_trade.
    now rewrite (classify_decoded _ _ _ _ _ _ _ _ _ Hd), Hmul.
Qed.

End NotANumber.

Lemma X23_not_a_number_witness :
  let e := sample_env (fun _ => HttpResponse 200 None) in
  let w := sample_world [7] [] in
  decode rounding_loads "nan"
  = Some (trade_with "nan" "25.0", PyNan, PyNum false 25)
  ∧ handle_trade rounding_loads sample_local_time e "nan" "SPOT" "btcusdt" w
    = with_mon (fun m => set_stats (count_trade "SPOT" "btcusdt" (mstats m)) m)
               w
  ∧ ∃ text,
      snd (classify rounding_loads sample_local_time "inf" "SPOT" "btcusdt" w)
      = Some text
      ∧ contains "<b>$infM</b>" text = true
      ∧ contains "<b>$inf</b>" text = true.
Proof.
  cbn zeta.
  assert (Hd : decode rounding_loads "nan"
               = Some (trade_with "nan" "25.0", PyNan, PyNum false 25))
    by (vm_compute; reflexivity).
  split; [exact Hd|]. split.
  - exact (proj1 (X23_not_a_number rounding_loads sample_local_time
                    (sample_env (fun _ => HttpResponse 200 None))
                    "nan" "SPOT" "btcusdt" (sample_world [7] []) _ _ _ Hd
                    (or_introl eq_refl))).
  - eexists. split_and!; vm_compute; reflexivity.
Defined.

(** The product and the quotients of the model are those of the Standard
    Library's specification of binary64 ([SFmul] and [SFdiv] with 53 bits
    of precision and exponents up to 1024) on every pair of the samples. *)
Example float_mul_is_SFmul :
  length float_samples = 29%nat
  ∧ forallb (fun a =>
       forallb (fun b =>
          spec_eqb (SFmul 53 1024 (to_spec a) (to_spec b))
                   (to_spec (float_mul a b)))
               float_samples)
            float_samples = true.
Proof. vm_compute. split; reflexivity. Qed.

Example float_div_int_is_SFdiv :
  forallb (fun a =>
     spec_eqb (SFdiv 53 1024 (to_spec a) (to_spec (PyNum false 1000)))
              (to_spec (float_div_int a 1000))
     && spec_eqb (SFdiv 53 1024 (to_spec a) (to_spec (PyNum false 1000000)))
                 (to_spec (float_div_int a 1000000)))
          float_samples = true.
Proof. vm_compute. reflexivity. Qed.
